(** * ROI calculator: calculation engine, report formatter and scenario store

    A shallow embedding of [app.py].  Python floats are IEEE 754 binary64
    values, modelled by the Standard Library's [spec_float] with its
    correctly rounded operations; Python dictionaries are [gmap string _];
    exceptions are an error monad. *)

From Stdlib Require Import ZArith Lia List Bool.
From Stdlib Require Import SpecFloat.
From Stdlib Require Import Ascii String Decimal DecimalString.
From stdpp Require Import gmap strings.

Local Open Scope Z_scope.

(** ** Binary64 arithmetic *)

Module F64.

Definition prec : Z := 53.
Definition emax : Z := 1024.

Definition float : Type := spec_float.

Definition mul : float -> float -> float := SFmul prec emax.
Definition add : float -> float -> float := SFadd prec emax.
Definition sub : float -> float -> float := SFsub prec emax.
Definition div : float -> float -> float := SFdiv prec emax.

Definition zero : float := S754_zero false.
Definition one : float := binary_normalize prec emax 1 0 false.
Definition infinity : float := S754_infinity false.

Definition is_zero (f : float) : bool :=
  match f with S754_zero _ => true | _ => false end.

Definition is_nan (f : float) : bool :=
  match f with S754_nan => true | _ => false end.

Definition is_finite (f : float) : bool :=
  match f with S754_zero _ | S754_finite _ _ _ => true | _ => false end.

Definition eqb : float -> float -> bool := SFeqb.
Definition ltb : float -> float -> bool := SFltb.
Definition leb : float -> float -> bool := SFleb.

(** The quotient [n / d] of two integers rounded once to the nearest
    binary64 value (ties to even): the division algorithm of [SFdiv] run
    on the integers themselves. *)
Definition of_ratio (n : Z) (d : positive) : float :=
  match n with
  | Z0 => zero
  | Zpos a => div (S754_finite false a 0) (S754_finite false d 0)
  | Zneg a => div (S754_finite true a 0) (S754_finite false d 0)
  end.

(** A decimal literal of the source text, [digits] followed by a point
    [frac] places from the right: [literal 7073 3] is [7.073].  Python
    reads a literal as the nearest binary64 value. *)
Definition literal (digits : Z) (frac : nat) : float :=
  of_ratio digits (Z.to_pos (10 ^ Z.of_nat frac)).

(** The integer [z] rounded to the nearest binary64 value. *)
Definition of_Z (z : Z) : float := binary_normalize prec emax z 0 false.

(** Exact comparison of a float with an integer, as CPython's
    [float_richcompare] does for an [int] operand: no conversion of the
    integer, so no rounding. *)
Definition compare_Z (f : float) (n : Z) : option comparison :=
  match f with
  | S754_nan => None
  | S754_infinity s => Some (if s then Lt else Gt)
  | S754_zero _ => Some (0 ?= n)
  | S754_finite s m e =>
      let sm := if s then Zneg m else Zpos m in
      Some (if 0 <=? e then sm * 2 ^ e ?= n else sm ?= n * 2 ^ (- e))
  end.

End F64.

Abbreviation float := F64.float.

(** ** Python values, exceptions, dictionaries

    A [str] is held as the bytes of its UTF-8 encoding. *)

Inductive value : Type :=
  | VNone
  | VBool (b : bool)
  | VInt (z : Z)
  | VFloat (f : float)
  | VStr (s : string).

Inductive exn : Type :=
  | KeyError (key : string)
  | TypeError
  | ValueError
  | ZeroDivisionError
  | OverflowError
  | MemoryError
  | OperationalError (msg : string)
  | FPDFUnicodeEncodingException.

Inductive result (A : Type) : Type :=
  | Ok (a : A)
  | Raise (e : exn).

Arguments Ok {A} a.
Arguments Raise {A} e.

#[global] Instance result_ret : MRet result := @Ok.

#[global] Instance result_bind : MBind result := fun A B k r =>
  match r with
  | Ok a => k a
  | Raise e => Raise e
  end.

(** [try: body except (caught): handler] *)
Definition try_except {A : Type} (body : result A) (caught : exn -> bool)
    (handler : result A) : result A :=
  match body with
  | Ok a => Ok a
  | Raise e => if caught e then handler else Raise e
  end.

Abbreviation dict := (gmap string value).

(** [d[key]] *)
Definition getitem (d : dict) (key : string) : result value :=
  match d !! key with
  | Some v => Ok v
  | None => Raise (KeyError key)
  end.

(** [d.get(key, default)] *)
Definition dict_get (d : dict) (key : string) (default : value) : value :=
  match d !! key with
  | Some v => v
  | None => default
  end.

(** ** Float arithmetic with one dynamically typed operand

    Every arithmetic operation of [calculate_results] has a float on one
    side, so Python dispatches to the float's slot ([float_mul],
    [float_sub], [float_div] of CPython), which converts the other operand
    with [CONVERT_TO_DOUBLE]: a float is taken as it is, an [int] (and
    [bool], its subclass) is rounded to a double or raises [OverflowError],
    anything else makes the operation raise [TypeError]. *)

Definition int_to_float (z : Z) : result float :=
  match F64.of_Z z with
  | S754_infinity _ => Raise OverflowError
  | f => Ok f
  end.

Definition convert_to_double (v : value) : result float :=
  match v with
  | VFloat f => Ok f
  | VInt z => int_to_float z
  | VBool b => Ok (if b then F64.one else F64.zero)
  | VNone | VStr _ => Raise TypeError
  end.

(** [v * f] *)
Definition mul_vf (v : value) (f : float) : result float :=
  x ← convert_to_double v; Ok (F64.mul x f).

(** [f * v] *)
Definition mul_fv (f : float) (v : value) : result float :=
  y ← convert_to_double v; Ok (F64.mul f y).

(** [f - v] *)
Definition sub_fv (f : float) (v : value) : result float :=
  y ← convert_to_double v; Ok (F64.sub f y).

(** [a / b] on floats: Python raises on a zero divisor. *)
Definition float_div (a b : float) : result float :=
  if F64.is_zero b then Raise ZeroDivisionError else Ok (F64.div a b).

(** [v / f] *)
Definition div_vf (v : value) (f : float) : result float :=
  x ← convert_to_double v; float_div x f.

(** [f / v] *)
Definition div_fv (f : float) (v : value) : result float :=
  y ← convert_to_double v; float_div f y.

(** [f > n] for an integer literal [n] *)
Definition float_gt_int (f : float) (n : Z) : bool :=
  match F64.compare_Z f n with
  | Some Gt => true
  | _ => false
  end.

(** [v > n] for an integer literal [n] *)
Definition gt_int (v : value) (n : Z) : result bool :=
  match v with
  | VInt z => Ok (n <? z)
  | VBool b => Ok (n <? (if b then 1 else 0))
  | VFloat f => Ok (float_gt_int f n)
  | VNone | VStr _ => Raise TypeError
  end.

(** ** Business constants (lines 13-17) *)

Definition AUTOMATED_COST_PER_INVOICE : float := F64.literal 20 2.
Definition ERROR_RATE_AUTO : float := F64.literal 1 3.
Definition MIN_ROI_BOOST_FACTOR : float := F64.literal 11 1.
Definition TIME_SAVED_PER_INVOICE_MINUTES : float := F64.literal 7073 3.
Definition MANUAL_ERROR_RATE_PERCENT : float := F64.literal 4 1.

(** ** The calculation engine (lines 41-82) *)

(** The local variables of [calculate_results] at the end of its [try]
    block. *)
Record locals : Type := Locals {
  labor_savings : float;
  error_savings : float;
  auto_cost : float;
  monthly_savings : float;
  cumulative_savings : float;
  net_savings : float;
  payback_months : float;
  roi_percentage : float
}.

(** The [try] block, lines 43-70, in evaluation order. *)
Definition calculate_body (inputs : dict) : result locals :=
  volume ← getitem inputs "monthly_invoice_volume";
  t ← mul_vf volume (F64.div TIME_SAVED_PER_INVOICE_MINUTES (F64.of_Z 60));
  wage ← getitem inputs "hourly_wage";
  labor ← mul_fv t wage;
  let rate := F64.sub (F64.div MANUAL_ERROR_RATE_PERCENT (F64.of_Z 100))
                ERROR_RATE_AUTO in
  volume' ← getitem inputs "monthly_invoice_volume";
  e ← mul_fv rate volume';
  ecost ← getitem inputs "error_cost";
  errs ← mul_fv e ecost;
  volume'' ← getitem inputs "monthly_invoice_volume";
  auto ← mul_vf volume'' AUTOMATED_COST_PER_INVOICE;
  let monthly0 := F64.sub (F64.add labor errs) auto in
  let monthly := F64.mul monthly0 MIN_ROI_BOOST_FACTOR in
  horizon ← getitem inputs "time_horizon_months";
  cumulative ← mul_fv monthly horizon;
  cost ← getitem inputs "one_time_implementation_cost";
  net ← sub_fv cumulative cost;
  payback ←
    (if float_gt_int monthly 0
     then cost1 ← getitem inputs "one_time_implementation_cost";
          div_vf cost1 monthly
     else Ok F64.infinity);
  cost2 ← getitem inputs "one_time_implementation_cost";
  positive_cost ← gt_int cost2 0;
  roi ←
    (if positive_cost : bool
     then cost3 ← getitem inputs "one_time_implementation_cost";
          q ← div_fv net cost3;
          Ok (F64.mul q (F64.of_Z 100))
     else Ok F64.infinity);
  Ok (Locals labor errs auto monthly cumulative net payback roi).

(** The dictionary returned at lines 72-77. *)
Definition results_dict (l : locals) : dict :=
  <["monthly_savings" := VFloat (monthly_savings l)]>
  (<["cumulative_savings" := VFloat (cumulative_savings l)]>
  (<["payback_months" := VFloat (payback_months l)]>
  (<["roi_percentage" := VFloat (roi_percentage l)]> ∅))).

(** The dictionary returned by the handler, lines 79-82. *)
Definition fallback_results : dict :=
  <["monthly_savings" := VInt 0]>
  (<["cumulative_savings" := VInt 0]>
  (<["payback_months" := VFloat F64.infinity]>
  (<["roi_percentage" := VInt 0]> ∅))).

(** [except (ZeroDivisionError, TypeError)] *)
Definition caught (e : exn) : bool :=
  match e with
  | ZeroDivisionError | TypeError => true
  | _ => false
  end.

Definition calculate_results (inputs : dict) : result dict :=
  try_except (l ← calculate_body inputs; Ok (results_dict l))
    caught (Ok fallback_results).

(** ** Text formatting *)

Definition string_of_N (n : N) : string := NilZero.string_of_uint (N.to_uint n).

(** [str(z)] for an [int] *)
Definition string_of_Z (z : Z) : string :=
  match z with
  | Zneg p => "-" +:+ string_of_N (Npos p)
  | _ => string_of_N (Z.to_N z)
  end.

Fixpoint zeros (n : nat) : string :=
  match n with
  | O => ""
  | S n' => "0" +:+ zeros n'
  end.

(** Left-pad a digit string with zeros to at least [n] characters. *)
Definition pad_zeros (n : nat) (s : string) : string :=
  zeros (n - String.length s) +:+ s.

(** Thousands separators, on the reversed digits of an integer part. *)
Fixpoint commas_rev (k : nat) (ds : list ascii) : list ascii :=
  match ds with
  | [] => []
  | c :: rest =>
      match k, rest with
      | 2%nat, _ :: _ => c :: ","%char :: commas_rev 0 rest
      | _, _ => c :: commas_rev (S k) rest
      end
  end.

Definition group_thousands (s : string) : string :=
  string_of_list_ascii (rev (commas_rev 0 (rev (list_ascii_of_string s)))).

(** [num / den] rounded to the nearest integer, ties to even. *)
Definition round_half_even (num den : Z) : Z :=
  let q := num / den in
  let r := num mod den in
  match 2 * r ?= den with
  | Lt => q
  | Gt => q + 1
  | Eq => if Z.even q then q else q + 1
  end.

(** [m * 2^e * 10^d] rounded to the nearest integer, ties to even: the
    digits of a positive float to [d] decimal places. *)
Definition scaled_digits (m : positive) (e : Z) (d : nat) : Z :=
  let n := Zpos m * 10 ^ Z.of_nat d in
  if 0 <=? e then n * 2 ^ e else round_half_even n (2 ^ (- e)).

(** The unsigned text of [n / 10^d] with [d] decimal places, the integer
    part grouped by thousands when [grouping] is set. *)
Definition fixed_text (grouping : bool) (d : nat) (n : Z) : string :=
  let s := pad_zeros (S d) (string_of_N (Z.to_N n)) in
  let k := (String.length s - d)%nat in
  let int_part := substring 0 k s in
  let frac_part := substring k d s in
  (if grouping then group_thousands int_part else int_part)
    +:+ (match d with O => "" | _ => "." +:+ frac_part end).

(** [format(f, ',.<d>f')] (with [grouping]) and [format(f, '.<d>f')] for a
    float: CPython prints the exact binary value correctly rounded (ties
    to even) to [d] places, and keeps the sign of negative zero and of
    negative values that round to zero. *)
Definition format_float_f (grouping : bool) (d : nat) (f : float) : string :=
  match f with
  | S754_nan => "nan"
  | S754_infinity s => if s then "-inf" else "inf"
  | S754_zero s => (if s then "-" else "") +:+ fixed_text grouping d 0
  | S754_finite s m e =>
      (if s then "-" else "") +:+ fixed_text grouping d (scaled_digits m e d)
  end.

(** [format(v, ',.<d>f')] / [format(v, '.<d>f')] for any value: an [int]
    is converted to a float first, [str] rejects the format code with
    [ValueError], [None] rejects any format string with [TypeError]. *)
Definition format_f (grouping : bool) (d : nat) (v : value) : result string :=
  match v with
  | VFloat f => Ok (format_float_f grouping d f)
  | VInt z => f ← int_to_float z; Ok (format_float_f grouping d f)
  | VBool b => Ok (format_float_f grouping d (if b then F64.one else F64.zero))
  | VStr _ => Raise ValueError
  | VNone => Raise TypeError
  end.

(** *** [repr] of a float

    [str(f)] is the shortest decimal string that reads back as [f]; among
    the strings of that length, the one nearest to [f]. *)

Definition float_same (a b : float) : bool :=
  match a, b with
  | S754_nan, S754_nan => true
  | S754_zero s, S754_zero s' => Bool.eqb s s'
  | S754_infinity s, S754_infinity s' => Bool.eqb s s'
  | S754_finite s m e, S754_finite s' m' e' =>
      Bool.eqb s s' && Pos.eqb m m' && Z.eqb e e'
  | _, _ => false
  end.

(** [D * 10^k] read as a float. *)
Definition read_decimal (D k : Z) : float :=
  if 0 <=? k then F64.of_Z (D * 10 ^ k)
  else F64.of_ratio D (Z.to_pos (10 ^ (- k))).

(** The least exponent from [j] on with [den <= num * 10^j], searched
    for [fuel] steps. *)
Fixpoint first_scale (fuel : nat) (num den j : Z) : Z :=
  match fuel with
  | O => j
  | S fuel' =>
      if den <=? num * 10 ^ j then j else first_scale fuel' num den (j + 1)
  end.

(** [floor (log10 (num / den))] for a positive binary64 ratio. *)
Definition decimal_exponent (num den : Z) : Z :=
  if den <=? num
  then Z.of_nat (String.length (string_of_N (Z.to_N (num / den)))) - 1
  else - first_scale 400 num den 1.

(** The candidates with [n] significant digits: the nearest one first,
    then its neighbour on the other side of [num / den]. *)
Definition candidates (num den p : Z) (n : Z) : Z * Z * Z :=
  let k := p - (n - 1) in
  let '(a, b) := if 0 <=? k then (num, den * 10 ^ k)
                 else (num * 10 ^ (- k), den) in
  let lo := a / b in
  let near := round_half_even a b in
  (near, (if near =? lo then lo + 1 else lo), k).

Fixpoint shortest_digits (fuel : nat) (f : float) (num den p n : Z) : Z * Z :=
  let '(near, other, k) := candidates num den p n in
  match fuel with
  | O => (near, k)
  | S fuel' =>
      if float_same (read_decimal near k) f then (near, k)
      else if float_same (read_decimal other k) f then (other, k)
      else shortest_digits fuel' f num den p (n + 1)
  end.

Fixpoint strip_zeros_rev (ds : list ascii) : list ascii :=
  match ds with
  | "0"%char :: (_ :: _) as rest => strip_zeros_rev rest
  | _ => ds
  end.

Definition strip_trailing_zeros (s : string) : string :=
  string_of_list_ascii (rev (strip_zeros_rev (rev (list_ascii_of_string s)))).

(** The layout rules of [repr]: scientific notation when the decimal
    point would fall more than sixteen digits to the right of the first
    digit or more than four places to its left. *)
Definition repr_layout (digits : string) (decpt : Z) : string :=
  let len := Z.of_nat (String.length digits) in
  if (decpt <=? -4) || (16 <? decpt) then
    let ex := decpt - 1 in
    let mant := substring 0 1 digits +:+
      (if 1 <? len then "." +:+ substring 1 (String.length digits - 1) digits
       else "") in
    mant +:+ "e" +:+ (if ex <? 0 then "-" else "+")
         +:+ pad_zeros 2 (string_of_N (Z.abs_N ex))
  else if decpt <=? 0 then
    "0." +:+ zeros (Z.to_nat (- decpt)) +:+ digits
  else if len <=? decpt then
    digits +:+ zeros (Z.to_nat (decpt - len)) +:+ ".0"
  else
    substring 0 (Z.to_nat decpt) digits +:+ "." +:+
    substring (Z.to_nat decpt) (String.length digits - Z.to_nat decpt) digits.

Definition float_repr (f : float) : string :=
  match f with
  | S754_nan => "nan"
  | S754_infinity s => if s then "-inf" else "inf"
  | S754_zero s => if s then "-0.0" else "0.0"
  | S754_finite s m e =>
      let '(num, den) := if 0 <=? e then (Zpos m * 2 ^ e, 1)
                         else (Zpos m, 2 ^ (- e)) in
      let p := decimal_exponent num den in
      let '(D, k) := shortest_digits 16 (S754_finite false m e) num den p 1 in
      let all := string_of_N (Z.to_N D) in
      (if s then "-" else "") +:+
      repr_layout (strip_trailing_zeros all) (Z.of_nat (String.length all) + k)
  end.

(** The longest decimal text CPython converts an [int] to
    ([sys.int_max_str_digits], by default). *)
Definition MAX_STR_DIGITS : Z := 4300.

(** [str(z)] for an [int]: [ValueError] when [z] has more than
    [MAX_STR_DIGITS] digits. *)
Definition int_str (z : Z) : result string :=
  if Z.abs z <? 10 ^ MAX_STR_DIGITS then Ok (string_of_Z z)
  else Raise ValueError.

(** [str(v)], which is what [{v}] in an f-string interpolates. *)
Definition py_str (v : value) : result string :=
  match v with
  | VNone => Ok "None"
  | VBool b => Ok (if b then "True" else "False")
  | VInt z => int_str z
  | VFloat f => Ok (float_repr f)
  | VStr s => Ok s
  end.

(** ** The report (lines 84-103)

    The document renderer is external; the report is the sequence of calls
    made on the [FPDF] object. *)

Inductive pdf_op : Type :=
  | AddPage
  | SetFont (family style : string) (size : Z)
  | Cell (w h : Z) (text : string) (border ln : Z) (align : option string)
  | Ln (h : Z).

(** [v != float('inf')]: only the float [+inf] is equal to it. *)
Definition ne_inf (v : value) : bool :=
  match v with
  | VFloat (S754_infinity false) => false
  | _ => true
  end.

(** [payback_text], lines 95-96: the condition is evaluated first. *)
Definition payback_text (results : dict) : result string :=
  pb ← getitem results "payback_months";
  if ne_inf pb
  then pb' ← getitem results "payback_months";
       t ← format_f false 1 pb';
       Ok (t +:+ " months")
  else Ok "N/A".

(** [roi_text], lines 98-99. *)
Definition roi_text (results : dict) : result string :=
  roi ← getitem results "roi_percentage";
  if ne_inf roi
  then roi' ← getitem results "roi_percentage";
       t ← format_f false 1 roi';
       Ok (t +:+ "%")
  else Ok "N/A".

(** Text that latin-1 can encode: every character is at most U+00FF, that
    is, no byte of its UTF-8 encoding is 0xC4 or more. *)
Definition latin1 (text : string) : bool :=
  forallb (fun c => (N_of_ascii c <? 196)%N) (list_ascii_of_string text).

(** [pdf.cell(w, h, text, border, ln, align)] with a core font, the only
    fonts the report sets: the text is encoded in latin-1, and text that
    cannot be raises [FPDFUnicodeEncodingException]. *)
Definition cell (pdf : list pdf_op) (w h : Z) (text : string) (border ln : Z)
    (align : option string) : result (list pdf_op) :=
  if latin1 text then Ok (pdf ++ [Cell w h text border ln align])
  else Raise FPDFUnicodeEncodingException.

Definition generate_pdf (inputs results : dict) : result (list pdf_op) :=
  let pdf := [AddPage; SetFont "Helvetica" "B" 16] in
  pdf ← cell pdf 0 10 "ROI Calculator Report" 0 1 (Some "C");
  let pdf := pdf ++ [Ln 10; SetFont "Helvetica" "B" 12] in
  name ← py_str (dict_get inputs "scenario_name" (VStr "Unsaved"));
  pdf ← cell pdf 0 10 ("Scenario: " +:+ name) 0 1 None;
  let pdf := pdf ++ [Ln 5; SetFont "Helvetica" "" 12] in
  ms ← getitem results "monthly_savings";
  ms_text ← format_f true 2 ms;
  pdf ← cell pdf 0 8 ("Monthly Savings: $" +:+ ms_text) 0 1 None;
  payback ← payback_text results;
  pdf ← cell pdf 0 8 ("Payback Period: " +:+ payback) 0 1 None;
  roi ← roi_text results;
  horizon ← getitem inputs "time_horizon_months";
  horizon_text ← py_str horizon;
  pdf ← cell pdf 0 8 ("Total ROI (" +:+ horizon_text +:+ " months): " +:+ roi)
          0 1 None;
  cs ← getitem results "cumulative_savings";
  cs_text ← format_f true 2 cs;
  pdf ← cell pdf 0 8 ("Cumulative Savings: $" +:+ cs_text) 0 1 None;
  Ok pdf.

(** The texts printed on the page, in order. *)
Definition cell_texts (pdf : list pdf_op) : list string :=
  flat_map (fun op => match op with Cell _ _ text _ _ _ => [text] | _ => [] end)
    pdf.

(** [scenario_name or 'Unsaved'], the name used for the download at line
    184. *)
Definition download_name (scenario_name : string) : string :=
  "ROI_Report_" +:+ (if String.eqb scenario_name "" then "Unsaved"
                     else scenario_name) +:+ ".pdf".

(** ** The scenario store (lines 21-39, 113-150)

    The SQLite table [scenarios] is the list of its rows in rowid order,
    the order in which a query without [ORDER BY] scans the table's
    B-tree. *)

Inductive sqlval : Type :=
  | SNull
  | SInteger (z : Z)
  | SReal (f : float)
  | SText (s : string).

(** A row, in the column order of the schema of [init_db]. *)
Record row : Type := Row {
  col_id : Z;
  col_scenario_name : sqlval;
  col_monthly_invoice_volume : sqlval;
  col_num_ap_staff : sqlval;
  col_hourly_wage : sqlval;
  col_error_cost : sqlval;
  col_time_horizon_months : sqlval;
  col_one_time_implementation_cost : sqlval
}.

Abbreviation table := (list row).

(** The database file: the table is absent until [init_db] creates it. *)
Definition database : Type := option table.

(** [CREATE TABLE IF NOT EXISTS scenarios (...)] *)
Definition init_db (conn : database) : database :=
  match conn with
  | None => Some []
  | Some t => Some t
  end.

(** The values of the seven sidebar widgets (lines 133-139): a text input
    and six number inputs, whose [min_value] fixes their Python type,
    [int] or [float]. *)
Record ScenarioInput : Type := {
  scenario_name : string;
  monthly_invoice_volume : Z;
  num_ap_staff : Z;
  hourly_wage : float;
  error_cost : float;
  time_horizon_months : Z;
  one_time_implementation_cost : float
}.

Definition MIN_INT64 : Z := - 2 ^ 63.
Definition MAX_INT64 : Z := 2 ^ 63 - 1.

(** The largest rowid. *)
Definition MAX_ROWID : Z := MAX_INT64.

(** Binding a Python [int] to a statement parameter: the [sqlite3] module
    raises [OverflowError] outside the 64-bit range. *)
Definition bind_int (z : Z) : result sqlval :=
  if (MIN_INT64 <=? z) && (z <=? MAX_INT64) then Ok (SInteger z)
  else Raise OverflowError.

(** Binding a Python [float]: SQLite turns NaN into NULL. *)
Definition bind_float (f : float) : sqlval :=
  if F64.is_nan f then SNull else SReal f.

(** A REAL column keeps a float, except that a zero is written as the
    integer 0 and read back as [0.0], which drops the sign of [-0.0]. *)
Definition real_affinity (v : sqlval) : sqlval :=
  match v with
  | SReal (S754_zero _) => SReal F64.zero
  | _ => v
  end.

Definition largest_rowid (t : table) : option Z :=
  fold_right (fun r acc => match acc with
                           | None => Some (col_id r)
                           | Some m => Some (Z.max (col_id r) m)
                           end) None t.

Definition rowid_used (t : table) (id : Z) : bool :=
  existsb (fun r => col_id r =? id) t.

(** The rowid SQLite gives a row inserted without one: 1 in an empty
    table, else one more than the largest rowid in the table; when that is
    the largest 64-bit integer, the first unused of a few positive rowids
    drawn at random, [probes], and the insertion fails when there is
    none. *)
Definition new_rowid (probes : list Z) (t : table) : option Z :=
  match largest_rowid t with
  | None => Some 1
  | Some m =>
      if m <? MAX_ROWID then Some (m + 1)
      else find (fun id => (0 <? id) && (id <=? MAX_ROWID)
                           && negb (rowid_used t id)) probes
  end.

(** Insertion in the B-tree: the rows stay in rowid order. *)
Fixpoint btree_insert (r : row) (t : table) : table :=
  match t with
  | [] => [r]
  | r' :: t' =>
      if col_id r <? col_id r' then r :: r' :: t'
      else r' :: btree_insert r t'
  end.

Definition the_table (conn : database) : result table :=
  match conn with
  | Some t => Ok t
  | None => Raise (OperationalError "no such table: scenarios")
  end.

(** The row an [INSERT] of lines 143-146 stores under rowid [id], given
    the bound integers. *)
Definition make_row (id : Z) (volume staff horizon : sqlval)
    (x : ScenarioInput) : row :=
  {| col_id := id;
     col_scenario_name := SText (scenario_name x);
     col_monthly_invoice_volume := volume;
     col_num_ap_staff := staff;
     col_hourly_wage := real_affinity (bind_float (hourly_wage x));
     col_error_cost := real_affinity (bind_float (error_cost x));
     col_time_horizon_months := horizon;
     col_one_time_implementation_cost :=
       real_affinity (bind_float (one_time_implementation_cost x)) |}.

(** The [INSERT] statement of lines 143-146 followed by [commit]: the
    statement is prepared, its parameters are bound in order, and the row
    is stored under a new rowid.  Returns the new table and that rowid. *)
Definition insert_scenario (probes : list Z) (conn : database)
    (x : ScenarioInput) : result (table * Z) :=
  t ← the_table conn;
  volume ← bind_int (monthly_invoice_volume x);
  staff ← bind_int (num_ap_staff x);
  horizon ← bind_int (time_horizon_months x);
  id ← match new_rowid probes t with
       | Some id => Ok id
       | None => Raise (OperationalError "database or disk is full")
       end;
  Ok (btree_insert (make_row id volume staff horizon x) t, id).

(** What the handler shows the user. *)
Inductive notice : Type :=
  | StSuccess (msg : string)
  | StError (msg : string).

(** The "Save Scenario" button handler, lines 141-150. *)
Definition save_scenario (probes : list Z) (conn : database)
    (x : ScenarioInput) : result (database * notice) :=
  if negb (String.eqb (scenario_name x) "") then
    '(t, _) ← insert_scenario probes conn x;
    Ok (Some t, StSuccess ("Scenario '" +:+ scenario_name x +:+ "' saved!"))
  else
    Ok (conn, StError "Please enter a scenario name to save.").

(** A column value as the Python value [fetchall]/[fetchone] return. *)
Definition py_of_sql (v : sqlval) : value :=
  match v with
  | SNull => VNone
  | SInteger z => VInt z
  | SReal f => VFloat f
  | SText s => VStr s
  end.

(** The two columns [id, scenario_name] of every row, in scan order. *)
Definition listing (t : table) : list (Z * value) :=
  map (fun r => (col_id r, py_of_sql (col_scenario_name r))) t.

(** [SELECT id, scenario_name FROM scenarios] with [fetchall], line 114. *)
Definition list_scenarios (conn : database) : result (list (Z * value)) :=
  t ← the_table conn;
  Ok (listing t).

(** [SELECT * FROM scenarios WHERE id = ?] with [fetchone], line 120. *)
Definition fetch_scenario (conn : database) (id : Z) : result (option row) :=
  t ← the_table conn;
  Ok (find (fun r => col_id r =? id) t).

(** The session state: the value of the "Load Saved Scenario" select box,
    which is [None] or one of the listed ids (line 127), and the values
    stored under the other keys. *)
Record session : Type := Session {
  selected_scenario_id : option Z;
  state : dict
}.

(** [zip(cols, data)] of lines 121-122, for a fetched row. *)
Definition row_items (r : row) : list (string * value) :=
  [("id", VInt (col_id r));
   ("scenario_name", py_of_sql (col_scenario_name r));
   ("monthly_invoice_volume", py_of_sql (col_monthly_invoice_volume r));
   ("num_ap_staff", py_of_sql (col_num_ap_staff r));
   ("hourly_wage", py_of_sql (col_hourly_wage r));
   ("error_cost", py_of_sql (col_error_cost r));
   ("time_horizon_months", py_of_sql (col_time_horizon_months r));
   ("one_time_implementation_cost",
      py_of_sql (col_one_time_implementation_cost r))].

(** [for col, val in ...: st.session_state[col] = val] *)
Definition assign_all (items : list (string * value)) (d : dict) : dict :=
  fold_left (fun acc kv => <[fst kv := snd kv]> acc) items d.

(** [load_scenario], lines 117-123.  [if scenario_id:] skips [None] and 0;
    when no row has the id, [fetchone] returns [None] and [zip] raises
    [TypeError]. *)
Definition load_scenario (conn : database) (s : session) : result session :=
  match selected_scenario_id s with
  | None => Ok s
  | Some scenario_id =>
      if scenario_id =? 0 then Ok s
      else
        data ← fetch_scenario conn scenario_id;
        match data with
        | None => Raise TypeError
        | Some r =>
            Ok (Session (selected_scenario_id s) (assign_all (row_items r) (state s)))
        end
  end.

(** The dictionary built at line 152 from the session state when it holds
    the seven widget values. *)
Definition widget_inputs (x : ScenarioInput) : dict :=
  <["scenario_name" := VStr (scenario_name x)]>
  (<["monthly_invoice_volume" := VInt (monthly_invoice_volume x)]>
  (<["num_ap_staff" := VInt (num_ap_staff x)]>
  (<["hourly_wage" := VFloat (hourly_wage x)]>
  (<["error_cost" := VFloat (error_cost x)]>
  (<["time_horizon_months" := VInt (time_horizon_months x)]>
  (<["one_time_implementation_cost" :=
       VFloat (one_time_implementation_cost x)]> ∅)))))).

(** ** Well-formed inputs and the algorithm as specified *)

(** The fields [calculate_results] reads. *)
Definition engine_fields : list string :=
  ["monthly_invoice_volume"; "hourly_wage"; "error_cost";
   "time_horizon_months"; "one_time_implementation_cost"].

(** The number a field stands for in float arithmetic. *)
Definition field_double (inputs : dict) (key : string) : result float :=
  v ← getitem inputs key; convert_to_double v.

Definition is_ok {A : Type} (r : result A) : bool :=
  match r with Ok _ => true | Raise _ => false end.

(** A well-formed numeric input: each field the engine reads is present
    and is a float, a bool, or an int within the range of a double. *)
Definition well_formed (inputs : dict) : bool :=
  forallb (fun key => is_ok (field_double inputs key)) engine_fields.

(** Text and [None] are the values that are not numbers. *)
Definition non_numeric (v : value) : bool :=
  match v with
  | VNone | VStr _ => true
  | _ => false
  end.

(** Every engine field is present and is either not a number or a number
    within the range of a double. *)
Definition all_present (inputs : dict) : bool :=
  forallb (fun key => match inputs !! key with
                      | Some v => non_numeric v || is_ok (convert_to_double v)
                      | None => false
                      end) engine_fields.

Definition some_non_numeric (inputs : dict) : bool :=
  existsb (fun key => match inputs !! key with
                      | Some v => non_numeric v
                      | None => false
                      end) engine_fields.

(** The eight steps of the algorithm as the specification words them, on
    the five numbers an input stands for. *)
Definition spec_compute (volume wage ecost horizon cost : float) : locals :=
  let labor :=
    F64.mul (F64.mul volume
               (F64.div TIME_SAVED_PER_INVOICE_MINUTES (F64.of_Z 60))) wage in
  let errs :=
    F64.mul (F64.mul (F64.sub (F64.div MANUAL_ERROR_RATE_PERCENT (F64.of_Z 100))
                        ERROR_RATE_AUTO) volume) ecost in
  let auto := F64.mul volume AUTOMATED_COST_PER_INVOICE in
  let monthly :=
    F64.mul (F64.sub (F64.add labor errs) auto) MIN_ROI_BOOST_FACTOR in
  let cumulative := F64.mul monthly horizon in
  let net := F64.sub cumulative cost in
  let payback :=
    if F64.ltb F64.zero monthly then F64.div cost monthly else F64.infinity in
  let roi :=
    if F64.ltb F64.zero cost then F64.mul (F64.div net cost) (F64.of_Z 100)
    else F64.infinity in
  Locals labor errs auto monthly cumulative net payback roi.

(** The smallest exponent of the format. *)
Definition sf_emin : Z := emin F64.prec F64.emax.

(** ** Stored scenarios *)

Definition int64 (z : Z) : bool := (MIN_INT64 <=? z) && (z <=? MAX_INT64).

(** An input the schema can hold: its integers fit the 64-bit INTEGER
    type and its reals are numbers.  Every valid [ScenarioInput] of the
    data model (non-negative integers, finite non-negative reals) whose
    integers are below [2^63] is storable. *)
Definition storable (x : ScenarioInput) : bool :=
  int64 (monthly_invoice_volume x) && int64 (num_ap_staff x)
  && int64 (time_horizon_months x)
  && negb (F64.is_nan (hourly_wage x)) && negb (F64.is_nan (error_cost x))
  && negb (F64.is_nan (one_time_implementation_cost x)).

Definition valid_real (f : float) : bool :=
  F64.is_finite f && F64.leb F64.zero f.

(** A valid [ScenarioInput] of the data model: non-negative integers, a
    horizon of at least one month, finite non-negative reals. *)
Definition valid_input (x : ScenarioInput) : bool :=
  (0 <=? monthly_invoice_volume x) && (0 <=? num_ap_staff x)
  && (1 <=? time_horizon_months x)
  && valid_real (hourly_wage x) && valid_real (error_cost x)
  && valid_real (one_time_implementation_cost x).

(** The rowids of a table built by this program are positive. *)
Definition rowids_positive (t : table) : bool :=
  forallb (fun r => 0 <? col_id r) t.

(** The table can still grow by [n] rows with consecutive rowids. *)
Definition room_for (n : Z) (t : table) : bool :=
  match largest_rowid t with
  | None => n <=? MAX_ROWID
  | Some m => m + n <=? MAX_ROWID
  end.

(** Python's [==] on the values a field can hold. *)
Definition py_eq (a b : value) : bool :=
  match a, b with
  | VNone, VNone => true
  | VStr s, VStr s' => String.eqb s s'
  | VInt z, VInt z' => z =? z'
  | VBool b, VBool b' => Bool.eqb b b'
  | VBool b, VInt z | VInt z, VBool b => z =? (if b then 1 else 0)
  | VFloat f, VFloat f' => F64.eqb f f'
  | VFloat f, VInt z | VInt z, VFloat f =>
      match F64.compare_Z f z with Some Eq => true | _ => false end
  | VFloat f, VBool b | VBool b, VFloat f =>
      match F64.compare_Z f (if b then 1 else 0) with
      | Some Eq => true
      | _ => false
      end
  | _, _ => false
  end.

(** The seven fields of a [ScenarioInput]. *)
Definition scenario_fields : list string :=
  ["scenario_name"; "monthly_invoice_volume"; "num_ap_staff"; "hourly_wage";
   "error_cost"; "time_horizon_months"; "one_time_implementation_cost"].

(** Both dictionaries hold all seven fields, with equal values. *)
Definition same_fields (d d' : dict) : bool :=
  forallb (fun key => match d !! key, d' !! key with
                      | Some v, Some v' => py_eq v v'
                      | _, _ => false
                      end) scenario_fields.

(** The widget defaults, under a name. *)
Definition named_scenario (name : string) : ScenarioInput :=
  {| scenario_name := name;
     monthly_invoice_volume := 2000;
     num_ap_staff := 3;
     hourly_wage := F64.literal 300 1;
     error_cost := F64.literal 1000 1;
     time_horizon_months := 36;
     one_time_implementation_cost := F64.literal 500000 1 |}.

(** The row a storable input is stored as. *)
Definition stored_row (id : Z) (x : ScenarioInput) : row :=
  make_row id (SInteger (monthly_invoice_volume x))
    (SInteger (num_ap_staff x)) (SInteger (time_horizon_months x)) x.

(** The rowid the next insertion uses while rowids remain. *)
Definition next_rowid (t : table) : Z :=
  match largest_rowid t with
  | None => 1
  | Some m => m + 1
  end.

(** Pressing "Save Scenario" for one input after another. *)
Fixpoint save_all (probes : list Z) (conn : database)
    (xs : list ScenarioInput) : result database :=
  match xs with
  | [] => Ok conn
  | x :: xs' =>
      '(conn', _) ← save_scenario probes conn x;
      save_all probes conn' xs'
  end.

(** The names of [xs] numbered from [k]. *)
Fixpoint listing_from (k : Z) (xs : list ScenarioInput) : list (Z * value) :=
  match xs with
  | [] => []
  | x :: xs' => (k, VStr (scenario_name x)) :: listing_from (k + 1) xs'
  end.

(** An input the handler saves: named and storable. *)
Definition savable (x : ScenarioInput) : bool :=
  negb (String.eqb (scenario_name x) "") && storable x.

Definition saved_notice (x : ScenarioInput) : notice :=
  StSuccess ("Scenario '" +:+ scenario_name x +:+ "' saved!").

(** The concrete scenario of the specification: the default values of the
    widgets. *)
Definition concrete_inputs : dict :=
  <["monthly_invoice_volume" := VInt 2000]>
  (<["num_ap_staff" := VInt 3]>
  (<["hourly_wage" := VFloat (F64.literal 300 1)]>
  (<["error_cost" := VFloat (F64.literal 1000 1)]>
  (<["time_horizon_months" := VInt 36]>
  (<["one_time_implementation_cost" := VFloat (F64.literal 500000 1)]> ∅))))).

(** An input with a zero implementation cost. *)
Definition free_inputs : dict :=
  <["one_time_implementation_cost" := VFloat F64.zero]> concrete_inputs.

(** The inputs of a run in which the user typed no scenario name: the
    text input leaves the empty string under its key. *)
Definition unnamed_inputs : dict := widget_inputs (named_scenario "").

(** How the report prints a payback period or a return. *)
Definition sentinel_text (suffix : string) (f : float) : string :=
  if ne_inf (VFloat f) then format_float_f false 1 f +:+ suffix else "N/A".

(** ** The outcome of the engine, field by field *)

(** What reading one field and converting it to a double raises, if
    anything. *)
Definition field_error (inputs : dict) (key : string) : option exn :=
  match field_double inputs key with
  | Ok _ => None
  | Raise e => Some e
  end.

(** The first error met when the fields are read in the order of
    [engine_fields], the order in which [calculate_results] first uses
    them. *)
Definition first_error (inputs : dict) : option exn :=
  fold_right (fun key later => match field_error inputs key with
                               | Some e => Some e
                               | None => later
                               end) None engine_fields.

(** The double a field stands for, for a field that has one. *)
Definition field_number (inputs : dict) (key : string) : float :=
  match field_double inputs key with
  | Ok f => f
  | Raise _ => F64.zero
  end.

(** The result specified for the five numbers of [inputs]. *)
Definition computed (inputs : dict) : locals :=
  spec_compute (field_number inputs "monthly_invoice_volume")
    (field_number inputs "hourly_wage") (field_number inputs "error_cost")
    (field_number inputs "time_horizon_months")
    (field_number inputs "one_time_implementation_cost").

(** Two dictionaries with the same engine fields. *)
Definition same_engine_fields (d d' : dict) : Prop :=
  forall key, In key engine_fields -> d !! key = d' !! key.

(** ** The page below the sidebar (lines 152-195) *)

(** [isinstance(v, (int, float, str))]: [bool] is a subclass of [int]. *)
Definition is_scalar (v : value) : bool :=
  match v with
  | VNone => false
  | _ => true
  end.

(** The session state as the dictionary the script iterates over: the
    select box holds its value under its own key. *)
Definition session_items (s : session) : dict :=
  <["selected_scenario_id" := match selected_scenario_id s with
                              | Some id => VInt id
                              | None => VNone
                              end]> (state s).

(** The dictionary comprehension of line 152. *)
Definition script_inputs (s : session) : dict :=
  filter (fun kv => is_scalar (snd kv) = true) (session_items s).

(** The payback metric of line 159: the unit is capitalised here. *)
Definition payback_metric (results : dict) : result string :=
  pb ← getitem results "payback_months";
  if ne_inf pb
  then pb' ← getitem results "payback_months";
       t ← format_f false 1 pb';
       Ok (t +:+ " Months")
  else Ok "N/A".

(** The three metrics of lines 157-159, in the order they are evaluated:
    monthly savings, return, payback. *)
Definition metrics (results : dict) : result (string * string * string) :=
  ms ← getitem results "monthly_savings";
  ms_text ← format_f true 2 ms;
  roi ← roi_text results;
  payback ← payback_metric results;
  Ok ("$" +:+ ms_text, roi, payback).

(** [v + n] for an integer literal [n] *)
Definition add_int (v : value) (n : Z) : result value :=
  match v with
  | VInt z => Ok (VInt (z + n))
  | VBool b => Ok (VInt ((if b then 1 else 0) + n))
  | VFloat f => y ← int_to_float n; Ok (VFloat (F64.add f y))
  | VNone | VStr _ => Raise TypeError
  end.

(** [range(1, stop)] as the list of its elements: the bound must be an
    [int]. *)
Definition range_from_1 (stop : value) : result (list Z) :=
  match stop with
  | VInt n => Ok (seqZ 1 (n - 1))
  | VBool b => Ok (seqZ 1 ((if b then 1 else 0) - 1))
  | VNone | VFloat _ | VStr _ => Raise TypeError
  end.

(** *** Memory

    How long a list or a string the interpreter can build depends on the
    machine it runs on: [heap] is the number of items of the longest one
    it can allocate there.  Whatever the memory, CPython refuses a list of
    more than [MAX_LIST_ITEMS] items, the largest size in bytes divided by
    the size of a pointer.  What does not fit raises [MemoryError]. *)

Definition MAX_LIST_ITEMS : Z := MAX_INT64 / 8.

(** A list of [n] items can be allocated; the empty list always can. *)
Definition fits (heap n : Z) : bool :=
  (n =? 0) || ((n <=? heap) && (n <=? MAX_LIST_ITEMS)).

(** [len(s)] for a string: the characters are the bytes of the encoding
    that do not continue a character (0x80 to 0xBF). *)
Definition py_len (s : string) : Z :=
  Z.of_nat (length (List.filter
                      (fun c => negb ((128 <=? N_of_ascii c)%N
                                      && (N_of_ascii c <? 192)%N))
                      (list_ascii_of_string s))).

(** [n] copies of [s], none when [n <= 0]. *)
Definition repeat_string (s : string) (n : Z) : string :=
  Nat.iter (Z.to_nat n) (fun acc => s +:+ acc) "".

(** [s * m] for a string: the count must be an index, the length of the
    result a size, and the result must fit the memory. *)
Definition repeat_text (heap : Z) (s : string) (m : Z) : result value :=
  if (m <? MIN_INT64) || (MAX_INT64 <? m) then Raise OverflowError
  else if m <=? 0 then Ok (VStr "")
  else if m =? 1 then Ok (VStr s)
  else if MAX_INT64 / m <? py_len s then Raise OverflowError
  else if (py_len s =? 0) || (py_len s * m <=? heap)
       then Ok (VStr (repeat_string s m))
       else Raise MemoryError.

(** [v * m] for an [int] [m] *)
Definition mul_int (heap : Z) (v : value) (m : Z) : result value :=
  match v with
  | VFloat f => y ← int_to_float m; Ok (VFloat (F64.mul f y))
  | VInt z => Ok (VInt (z * m))
  | VBool b => Ok (VInt ((if b then 1 else 0) * m))
  | VStr s => repeat_text heap s m
  | VNone => Raise TypeError
  end.

(** The elements of a list, computed in order by an expression that can
    raise. *)
Fixpoint for_each {A B : Type} (f : A -> result B) (l : list A)
    : result (list B) :=
  match l with
  | [] => Ok []
  | a :: l' => b ← f a; bs ← for_each f l'; Ok (b :: bs)
  end.

(** A list comprehension: each element is computed, then appended.  When
    the list cannot hold them all, the elements that fit and the first one
    that does not are computed before the append raises [MemoryError]. *)
Definition comprehension {A B : Type} (heap : Z) (f : A -> result B)
    (l : list A) : result (list B) :=
  bs ← for_each f (take (S (Z.to_nat (Z.min heap MAX_LIST_ITEMS))) l);
  if fits heap (Z.of_nat (length l)) then Ok bs else Raise MemoryError.

(** [[a] * n] *)
Definition repeat_list {A : Type} (heap : Z) (a : A) (n : nat)
    : result (list A) :=
  if fits heap (Z.of_nat n) then Ok (replicate n a) else Raise MemoryError.

(** The three columns of the data frame of lines 165-169. *)
Record chart : Type := Chart {
  chart_month : list Z;
  chart_cumulative : list value;
  chart_cost : list value
}.

(** [len(months)] for a range: a length must fit a signed 64-bit size. *)
Definition range_len (months : list Z) : result nat :=
  if Z.of_nat (length months) <=? MAX_INT64 then Ok (length months)
  else Raise OverflowError.

(** Lines 163-169, on a machine whose memory holds lists of [heap]
    items. *)
Definition chart_data (heap : Z) (inputs results : dict) : result chart :=
  horizon ← getitem inputs "time_horizon_months";
  stop ← add_int horizon 1;
  months ← range_from_1 stop;
  cumulative_savings_over_time ←
    comprehension heap
      (fun m => ms ← getitem results "monthly_savings"; mul_int heap ms m)
      months;
  cost ← getitem inputs "one_time_implementation_cost";
  len ← range_len months;
  cost_column ← repeat_list heap cost len;
  Ok (Chart months cumulative_savings_over_time cost_column).

(** The download button of lines 181-195. *)
Record download_button : Type := DownloadButton {
  button_data : option (list pdf_op);
  button_file_name : option string;
  button_disabled : bool
}.

(** Lines 179-195, with the text handed to [print]. *)
Definition download (inputs results : dict) (scenario_name email : string)
    : result (download_button * list string) :=
  if negb (String.eqb email "") then
    pdf_bytes ← generate_pdf inputs results;
    Ok (DownloadButton (Some pdf_bytes) (Some (download_name scenario_name))
          false,
        ["Lead captured: " +:+ email])
  else
    Ok (DownloadButton None None true, []).

(** What lines 153-195 put on the page. *)
Record page : Type := Page {
  page_results : dict;
  page_metrics : string * string * string;
  page_chart : chart;
  page_download : download_button;
  page_log : list string
}.

(** Lines 153-195 for the [inputs] of line 152, on a machine whose memory
    holds lists of [heap] items. *)
Definition render (heap : Z) (inputs : dict) (scenario_name email : string)
    : result page :=
  results ← calculate_results inputs;
  m ← metrics results;
  c ← chart_data heap inputs results;
  '(button, log) ← download inputs results scenario_name email;
  Ok (Page results m c button log).

(** What printing a value in the report raises, if anything: [str] must
    give its text, and latin-1 must be able to encode it. *)
Definition print_error (v : value) : option exn :=
  match py_str v with
  | Ok text => if latin1 text then None else Some FPDFUnicodeEncodingException
  | Raise e => Some e
  end.

(** ** The select box (lines 115-131) *)

(** A Python dictionary with integer keys, in insertion order. *)
Fixpoint odict_set (k : Z) (v : value) (d : list (Z * value))
    : list (Z * value) :=
  match d with
  | [] => [(k, v)]
  | (k', v') :: d' =>
      if k' =? k then (k', v) :: d' else (k', v') :: odict_set k v d'
  end.

(** [{s[0]: s[1] for s in scenarios}] *)
Definition scenario_options (scenarios : list (Z * value)) : list (Z * value) :=
  fold_left (fun d s => odict_set (fst s) (snd s) d) scenarios [].

(** [[None] + list(scenario_options.keys())] *)
Definition select_options (options : list (Z * value)) : list (option Z) :=
  None :: map (fun kv => Some (fst kv)) options.

(** [format_func]: the placeholder for [None], else the name stored under
    the id, a [KeyError] when there is none. *)
Definition format_func (options : list (Z * value)) (x : option Z) : result value :=
  match x with
  | None => Ok (VStr "--- Select ---")
  | Some id =>
      match find (fun kv => fst kv =? id) options with
      | Some kv => Ok (snd kv)
      | None => Raise (KeyError (string_of_Z id))
      end
  end.

(** The labels the select box shows for a database. *)
Definition select_labels (conn : database) : result (list value) :=
  scenarios ← list_scenarios conn;
  let options := scenario_options scenarios in
  for_each (format_func options) (select_options options).

(** An input whose name is not empty. *)
Definition named (x : ScenarioInput) : bool :=
  negb (String.eqb (scenario_name x) "").

(** A float other than the negative zero. *)
Definition not_negative_zero (f : float) : bool :=
  match f with
  | S754_zero true => false
  | _ => true
  end.

(** A storable input whose reals a REAL column returns bit for bit. *)
Definition exactly_storable (x : ScenarioInput) : bool :=
  storable x && not_negative_zero (hourly_wage x)
  && not_negative_zero (error_cost x)
  && not_negative_zero (one_time_implementation_cost x).

(** ** Rowids as keys *)

(** Strictly increasing integers. *)
Fixpoint increasing (ids : list Z) : bool :=
  match ids with
  | [] => true
  | a :: rest => forallb (fun b => a <? b) rest && increasing rest
  end.

(** The rows of a table are in strictly increasing rowid order: no two
    rows share a rowid. *)
Definition rowids_increasing (t : table) : bool :=
  increasing (map col_id t).

(** The stored scenarios in the order of their ids, with their names: what
    the select box offers. *)
Definition names_of (t : table) : list value :=
  map (fun r => py_of_sql (col_scenario_name r)) t.

(** The keys of the inputs that lines 153-195 read. *)
Definition page_fields : list string :=
  ["scenario_name"; "monthly_invoice_volume"; "hourly_wage"; "error_cost";
   "time_horizon_months"; "one_time_implementation_cost"].

(** Two dictionaries with the same page fields. *)
Definition same_page_fields (d d' : dict) : Prop :=
  forall key, In key page_fields -> d !! key = d' !! key.

(** * Properties *)

(** Closed goals are settled by evaluation. *)
Ltac evaluate := vm_compute; reflexivity.

(** ** Rounding an integer to a float *)

Lemma iter_pos_iter {A} (f : A -> A) (p : positive) (x : A) :
  SpecFloat.iter_pos f p x = Pos.iter f x p.
Proof.
  revert x. induction p as [p IH | p IH |]; intros x; simpl.
  - rewrite !IH. rewrite <- !Pos.iter_swap. reflexivity.
  - rewrite !IH. reflexivity.
  - reflexivity.
Qed.

Lemma shr_1_m (mrs : shr_record) :
  0 <= shr_m mrs -> shr_m (shr_1 mrs) = shr_m mrs / 2.
Proof.
  destruct mrs as [m r s]. simpl. intros Hm.
  destruct m as [| p | p]; [reflexivity | | lia].
  destruct p as [p | p |]; simpl.
  - change (Z.pos p = Z.pos p~1 / 2). rewrite Pos2Z.inj_xI.
    apply (Z.div_unique _ _ _ 1); lia.
  - change (Z.pos p = Z.pos p~0 / 2). rewrite Pos2Z.inj_xO.
    apply (Z.div_unique _ _ _ 0); lia.
  - reflexivity.
Qed.

Lemma shr_nat_iter_m (n : nat) (mrs : shr_record) :
  0 <= shr_m mrs ->
  shr_m (Nat.iter n shr_1 mrs) = shr_m mrs / 2 ^ Z.of_nat n.
Proof.
  intros Hm. induction n as [| n IH].
  - simpl. rewrite Z.div_1_r. reflexivity.
  - rewrite Nat.iter_succ.
    assert (H0 : 0 <= shr_m (Nat.iter n shr_1 mrs)).
    { rewrite IH. apply Z.div_pos; [lia | apply Z.pow_pos_nonneg; lia]. }
    rewrite shr_1_m by exact H0. rewrite IH.
    rewrite Nat2Z.inj_succ, Z.pow_succ_r by lia.
    rewrite Z.div_div by (try apply Z.pow_pos_nonneg; lia).
    f_equal. lia.
Qed.

Lemma shr_iter_m (p : positive) (mrs : shr_record) :
  0 <= shr_m mrs ->
  shr_m (SpecFloat.iter_pos shr_1 p mrs) = shr_m mrs / 2 ^ Zpos p.
Proof.
  intros Hm. rewrite iter_pos_iter, Pos2Nat.inj_iter.
  change (nat_rect _ mrs _ (Pos.to_nat p)) with (Nat.iter (Pos.to_nat p) shr_1 mrs).
  rewrite shr_nat_iter_m by exact Hm. rewrite positive_nat_Z. reflexivity.
Qed.

Lemma digits2_lower (p : positive) : 2 ^ (Zpos (digits2_pos p) - 1) <= Zpos p.
Proof.
  induction p as [p IH | p IH |]; simpl digits2_pos.
  - rewrite Pos2Z.inj_succ. replace (Z.succ (Zpos (digits2_pos p)) - 1)
      with (Z.succ (Zpos (digits2_pos p) - 1)) by lia.
    rewrite Z.pow_succ_r by lia. lia.
  - rewrite Pos2Z.inj_succ. replace (Z.succ (Zpos (digits2_pos p)) - 1)
      with (Z.succ (Zpos (digits2_pos p) - 1)) by lia.
    rewrite Z.pow_succ_r by lia. lia.
  - simpl. lia.
Qed.

Lemma digits2_positive (m : Z) : 0 < m -> 2 ^ (Zdigits2 m - 1) <= m.
Proof.
  destruct m as [| p | p]; try lia. intros _. apply digits2_lower.
Qed.

Lemma shr_record_of_loc_m (m : Z) (l : location) :
  shr_m (shr_record_of_loc m l) = m.
Proof. destruct l as [| []]; reflexivity. Qed.

(** Shifting a positive mantissa down to the format's precision leaves it
    positive above the subnormal range. *)
Lemma shr_fexp_positive (m e : Z) (l : location) :
  0 < m -> sf_emin <= e ->
  0 < shr_m (fst (shr_fexp F64.prec F64.emax m e l)) /\
  sf_emin <= snd (shr_fexp F64.prec F64.emax m e l).
Proof.
  intros Hm He. unfold shr_fexp, shr, fexp.
  fold sf_emin.
  pose proof (digits2_positive m Hm) as Hd.
  destruct (Z.max (Zdigits2 m + e - F64.prec) sf_emin - e) as [| p | p] eqn:Hn;
    simpl fst; simpl snd; rewrite ?shr_record_of_loc_m; try (split; lia).
  rewrite shr_iter_m by (rewrite shr_record_of_loc_m; lia).
  rewrite shr_record_of_loc_m. split; [| lia].
  apply Z.div_str_pos. split; [apply Z.pow_pos_nonneg; lia |].
  etransitivity; [| exact Hd].
  apply Z.pow_le_mono_r; [lia |]. unfold F64.prec in Hn. lia.
Qed.

Lemma round_nearest_even_positive (m : Z) (l : location) :
  0 < m -> 0 < round_nearest_even m l.
Proof.
  intros Hm. destruct l as [| []]; simpl; try lia.
  destruct (Z.even m); lia.
Qed.

(** Rounding a positive mantissa above the subnormal range gives a
    non-zero number of the same sign, or overflows. *)
Lemma binary_round_aux_nonzero (sx : bool) (m e : Z) (l : location) :
  0 < m -> sf_emin <= e ->
  (exists m' e', binary_round_aux F64.prec F64.emax sx m e l = S754_finite sx m' e')
  \/ binary_round_aux F64.prec F64.emax sx m e l = S754_infinity sx.
Proof.
  intros Hm He. unfold binary_round_aux.
  destruct (shr_fexp_positive m e l Hm He) as [H1 H2].
  destruct (shr_fexp F64.prec F64.emax m e l) as [mrs' e'].
  simpl in H1, H2.
  pose proof (round_nearest_even_positive (shr_m mrs') (loc_of_shr_record mrs') H1) as Hr.
  destruct (shr_fexp_positive _ e' loc_Exact Hr H2) as [H3 _].
  destruct (shr_fexp F64.prec F64.emax _ e' loc_Exact) as [mrs'' e''].
  simpl in H3. destruct (shr_m mrs'') as [| q | q]; try lia.
  destruct (e'' <=? F64.emax - F64.prec); [left; eauto | right; reflexivity].
Qed.

Lemma binary_round_nonzero (sx : bool) (mx : positive) :
  (exists m e, binary_round F64.prec F64.emax sx mx 0 = S754_finite sx m e)
  \/ binary_round F64.prec F64.emax sx mx 0 = S754_infinity sx.
Proof.
  unfold binary_round.
  destruct (shl_align mx 0 _) as [mz ez] eqn:Hs.
  apply binary_round_aux_nonzero; [lia |].
  unfold shl_align in Hs.
  destruct (fexp F64.prec F64.emax (Z.pos (digits2_pos mx) + 0) - 0) eqn:Hd;
    inversion Hs; subst; try (change sf_emin with (-1074); lia).
  unfold fexp. fold sf_emin. lia.
Qed.

(** A positive integer converts to a positive float or overflows. *)
Lemma of_Z_positive (p : positive) :
  (exists m e, F64.of_Z (Zpos p) = S754_finite false m e)
  \/ F64.of_Z (Zpos p) = S754_infinity false.
Proof. apply binary_round_nonzero. Qed.

Lemma of_Z_negative (p : positive) :
  (exists m e, F64.of_Z (Zneg p) = S754_finite true m e)
  \/ F64.of_Z (Zneg p) = S754_infinity true.
Proof. apply binary_round_nonzero. Qed.

Lemma digits2_upper (m k : Z) : 0 < m -> m < 2 ^ k -> 0 <= k -> Zdigits2 m <= k.
Proof.
  intros Hm Hk Hk0. pose proof (digits2_positive m Hm) as Hd.
  assert (Hlt : 2 ^ (Zdigits2 m - 1) < 2 ^ k) by lia.
  apply Z.pow_lt_mono_r_iff in Hlt; lia.
Qed.

Lemma shr_fexp_bounds (m e : Z) (l : location) :
  0 < m -> sf_emin <= e ->
  shr_m (fst (shr_fexp F64.prec F64.emax m e l)) <= m /\
  snd (shr_fexp F64.prec F64.emax m e l) <= Z.max e (Zdigits2 m + e - F64.prec).
Proof.
  intros Hm He. unfold shr_fexp, shr, fexp. fold sf_emin.
  destruct (Z.max (Zdigits2 m + e - F64.prec) sf_emin - e) as [| p | p] eqn:Hn;
    simpl fst; simpl snd; rewrite ?shr_record_of_loc_m; try lia.
  rewrite shr_iter_m by (rewrite shr_record_of_loc_m; lia).
  rewrite shr_record_of_loc_m. split; [| lia].
  apply Z.div_le_upper_bound; [apply Z.pow_pos_nonneg; lia |].
  pose proof (Z.pow_pos_nonneg 2 (Z.pos p)). nia.
Qed.

Lemma round_nearest_even_upper (m : Z) (l : location) :
  round_nearest_even m l <= m + 1.
Proof. destruct l as [| []]; simpl; try lia. destruct (Z.even m); lia. Qed.

(** Rounding a positive mantissa of at most [k] bits, well below the
    largest exponent, does not overflow. *)
Lemma binary_round_aux_finite (sx : bool) (m e k : Z) (l : location) :
  0 < m -> m < 2 ^ k -> 0 <= k -> sf_emin <= e -> e + 2 * k <= 971 ->
  exists m' e', binary_round_aux F64.prec F64.emax sx m e l = S754_finite sx m' e'.
Proof.
  intros Hm Hk Hk0 He Hsmall. unfold binary_round_aux.
  destruct (shr_fexp_positive m e l Hm He) as [H1 H2].
  destruct (shr_fexp_bounds m e l Hm He) as [H3 H4].
  pose proof (digits2_upper m k Hm Hk Hk0) as Hd.
  destruct (shr_fexp F64.prec F64.emax m e l) as [mrs' e'].
  simpl in H1, H2, H3, H4.
  set (m1 := round_nearest_even (shr_m mrs') (loc_of_shr_record mrs')).
  pose proof (round_nearest_even_positive (shr_m mrs') (loc_of_shr_record mrs') H1) as Hr.
  pose proof (round_nearest_even_upper (shr_m mrs') (loc_of_shr_record mrs')) as Hu.
  fold m1 in Hr, Hu.
  assert (Hk1 : m1 < 2 ^ (k + 1)).
  { rewrite Z.pow_add_r by lia. lia. }
  pose proof (digits2_upper m1 (k + 1) Hr Hk1 ltac:(lia)) as Hd1.
  destruct (shr_fexp_positive m1 e' loc_Exact Hr H2) as [H5 _].
  destruct (shr_fexp_bounds m1 e' loc_Exact Hr H2) as [_ H6].
  destruct (shr_fexp F64.prec F64.emax m1 e' loc_Exact) as [mrs'' e''].
  simpl in H5, H6. destruct (shr_m mrs'') as [| q | q]; try lia.
  replace (e'' <=? F64.emax - F64.prec) with true; [eauto |].
  symmetry. apply Z.leb_le. unfold F64.prec, F64.emax in *. lia.
Qed.

Lemma iter_xO_value (m d : positive) :
  Zpos (Pos.iter xO m d) = Zpos m * 2 ^ Zpos d.
Proof.
  rewrite Pos2Nat.inj_iter, <- (positive_nat_Z d).
  induction (Pos.to_nat d) as [| n IH].
  - simpl. lia.
  - rewrite Nat2Z.inj_succ, Z.pow_succ_r by lia.
    change (nat_rect _ m _ (S n)) with (xO (nat_rect (fun _ => positive) m (fun _ => xO) n)).
    rewrite Pos2Z.inj_xO, IH. lia.
Qed.

Lemma binary_round_small (sx : bool) (p : positive) :
  Zpos p < 2 ^ 64 ->
  exists m e, binary_round F64.prec F64.emax sx p 0 = S754_finite sx m e.
Proof.
  intros Hp. unfold binary_round, shl_align.
  assert (Hfexp : -52 <= fexp F64.prec F64.emax (Z.pos (digits2_pos p) + 0) - 0)
    by (unfold fexp, F64.prec; lia).
  assert (Hemin : sf_emin <= fexp F64.prec F64.emax (Z.pos (digits2_pos p) + 0))
    by (unfold fexp; fold sf_emin; lia).
  destruct (fexp F64.prec F64.emax (Z.pos (digits2_pos p) + 0) - 0)
    as [| d | d] eqn:Hd.
  - apply (binary_round_aux_finite sx (Z.pos p) 0 64);
      try (change sf_emin with (-1074)); lia.
  - apply (binary_round_aux_finite sx (Z.pos p) 0 64);
      try (change sf_emin with (-1074)); lia.
  - apply (binary_round_aux_finite sx _ _ 116); try lia.
    rewrite iter_xO_value.
    assert (2 ^ Z.pos d <= 2 ^ 52) by (apply Z.pow_le_mono_r; lia).
    change (2 ^ 116) with (2 ^ 64 * 2 ^ 52).
    pose proof (Z.pow_pos_nonneg 2 (Z.pos d)). nia.
Qed.

(** An integer of at most 64 bits converts to a float. *)
Lemma int_to_float_small (z : Z) :
  Z.abs z < 2 ^ 64 -> exists f, int_to_float z = Ok f.
Proof.
  intros Hz. unfold int_to_float, F64.of_Z, binary_normalize.
  destruct z as [| p | p]; [eexists; reflexivity | |].
  - destruct (binary_round_small false p) as (m & e & ->); [exact Hz |].
    eexists; reflexivity.
  - destruct (binary_round_small true p) as (m & e & ->); [exact Hz |].
    eexists; reflexivity.
Qed.

(** ** The engine on well-formed inputs *)

#[local] Arguments F64.mul : simpl never.
#[local] Arguments F64.add : simpl never.
#[local] Arguments F64.sub : simpl never.
#[local] Arguments F64.div : simpl never.
#[local] Arguments F64.of_Z : simpl never.
#[local] Arguments F64.ltb : simpl never.
#[local] Arguments F64.literal : simpl never.
#[local] Arguments TIME_SAVED_PER_INVOICE_MINUTES : simpl never.
#[local] Arguments MANUAL_ERROR_RATE_PERCENT : simpl never.
#[local] Arguments ERROR_RATE_AUTO : simpl never.
#[local] Arguments AUTOMATED_COST_PER_INVOICE : simpl never.
#[local] Arguments MIN_ROI_BOOST_FACTOR : simpl never.

Lemma float_gt_int_zero (f : float) : float_gt_int f 0 = F64.ltb F64.zero f.
Proof.
  destruct f as [s | s | | s m e]; try reflexivity.
  - destruct s; reflexivity.
  - unfold float_gt_int, F64.compare_Z, F64.ltb, SFltb. simpl SFcompare.
    destruct s.
    + assert (H : (if 0 <=? e then Z.neg m * 2 ^ e ?= 0 else Z.neg m ?= 0 * 2 ^ (- e)) = Lt).
      { destruct (0 <=? e) eqn:He.
        - apply Z.compare_lt_iff. apply Z.leb_le in He.
          pose proof (Z.pow_pos_nonneg 2 e). nia.
        - reflexivity. }
      rewrite H. reflexivity.
    + assert (H : (if 0 <=? e then Z.pos m * 2 ^ e ?= 0 else Z.pos m ?= 0 * 2 ^ (- e)) = Gt).
      { destruct (0 <=? e) eqn:He.
        - apply Z.compare_gt_iff. apply Z.leb_le in He.
          pose proof (Z.pow_pos_nonneg 2 e). nia.
        - reflexivity. }
      rewrite H. reflexivity.
Qed.

Lemma ltb_zero_not_zero (f : float) :
  F64.ltb F64.zero f = true -> F64.is_zero f = false.
Proof. destruct f as [s | s | | s m e]; [discriminate | | |]; reflexivity. Qed.

(** [v > 0] agrees with the comparison of the float [v] converts to. *)
Lemma gt_int_zero (v : value) (c : float) :
  convert_to_double v = Ok c -> gt_int v 0 = Ok (F64.ltb F64.zero c).
Proof.
  destruct v as [| b | z | f | s]; simpl; try discriminate.
  - intros [= <-]. destruct b; reflexivity.
  - unfold int_to_float. destruct z as [| p | p].
    + intros [= <-]. reflexivity.
    + destruct (of_Z_positive p) as [(m & e & ->) | ->]; [| discriminate].
      intros [= <-]. reflexivity.
    + destruct (of_Z_negative p) as [(m & e & ->) | ->]; [| discriminate].
      intros [= <-]. reflexivity.
  - intros [= <-]. rewrite float_gt_int_zero. reflexivity.
Qed.

Lemma float_div_ok (a b : float) :
  F64.ltb F64.zero b = true -> float_div a b = Ok (F64.div a b).
Proof.
  intros H. unfold float_div. rewrite (ltb_zero_not_zero b H). reflexivity.
Qed.

Lemma well_formed_fields (inputs : dict) :
  well_formed inputs = true ->
  exists volume wage ecost horizon cost,
    field_double inputs "monthly_invoice_volume" = Ok volume /\
    field_double inputs "hourly_wage" = Ok wage /\
    field_double inputs "error_cost" = Ok ecost /\
    field_double inputs "time_horizon_months" = Ok horizon /\
    field_double inputs "one_time_implementation_cost" = Ok cost.
Proof.
  unfold well_formed. simpl forallb. rewrite !andb_true_iff.
  intros (H1 & H2 & H3 & H4 & H5 & _).
  destruct (field_double inputs "monthly_invoice_volume") as [volume |]; [| discriminate].
  destruct (field_double inputs "hourly_wage") as [wage |]; [| discriminate].
  destruct (field_double inputs "error_cost") as [ecost |]; [| discriminate].
  destruct (field_double inputs "time_horizon_months") as [horizon |]; [| discriminate].
  destruct (field_double inputs "one_time_implementation_cost") as [cost |]; [| discriminate].
  eauto 10.
Qed.

Lemma field_double_inv (inputs : dict) (key : string) (f : float) :
  field_double inputs key = Ok f ->
  exists v, getitem inputs key = Ok v /\ convert_to_double v = Ok f.
Proof.
  unfold field_double. destruct (getitem inputs key) as [v |]; simpl; [| discriminate].
  eauto.
Qed.

(** On the five numbers of a well-formed input the code computes the
    specified algorithm, and raises nothing. *)
Lemma calculate_body_spec (inputs : dict) (volume wage ecost horizon cost : float) :
  field_double inputs "monthly_invoice_volume" = Ok volume ->
  field_double inputs "hourly_wage" = Ok wage ->
  field_double inputs "error_cost" = Ok ecost ->
  field_double inputs "time_horizon_months" = Ok horizon ->
  field_double inputs "one_time_implementation_cost" = Ok cost ->
  calculate_body inputs = Ok (spec_compute volume wage ecost horizon cost).
Proof.
  intros Hv Hw He Hh Hc.
  apply field_double_inv in Hv as (vv & Gv & Cv).
  apply field_double_inv in Hw as (vw & Gw & Cw).
  apply field_double_inv in He as (ve & Ge & Ce).
  apply field_double_inv in Hh as (vh & Gh & Ch).
  apply field_double_inv in Hc as (vc & Gc & Cc).
  unfold calculate_body, mul_vf, mul_fv, sub_fv, div_vf, div_fv.
  rewrite Gv, Gw, Ge, Gh, Gc. simpl.
  rewrite Cv. simpl. rewrite Cw. simpl. rewrite Ce. simpl.
  rewrite Ch. simpl. rewrite Cc. simpl.
  rewrite (gt_int_zero vc cost Cc). simpl.
  rewrite float_gt_int_zero.
  unfold spec_compute.
  set (monthly := F64.mul _ MIN_ROI_BOOST_FACTOR).
  destruct (F64.ltb F64.zero monthly) eqn:Hm; simpl.
  - rewrite (float_div_ok _ _ Hm). simpl.
    destruct (F64.ltb F64.zero cost) eqn:Hp; simpl.
    + rewrite (float_div_ok _ _ Hp). reflexivity.
    + reflexivity.
  - destruct (F64.ltb F64.zero cost) eqn:Hp; simpl.
    + rewrite (float_div_ok _ _ Hp). reflexivity.
    + reflexivity.
Qed.

Lemma calculate_results_spec (inputs : dict) (volume wage ecost horizon cost : float) :
  field_double inputs "monthly_invoice_volume" = Ok volume ->
  field_double inputs "hourly_wage" = Ok wage ->
  field_double inputs "error_cost" = Ok ecost ->
  field_double inputs "time_horizon_months" = Ok horizon ->
  field_double inputs "one_time_implementation_cost" = Ok cost ->
  calculate_results inputs =
    Ok (results_dict (spec_compute volume wage ecost horizon cost)).
Proof.
  intros Hv Hw He Hh Hc. unfold calculate_results.
  rewrite (calculate_body_spec _ _ _ _ _ _ Hv Hw He Hh Hc). reflexivity.
Qed.

Lemma spec_compute_cumulative (v w e h c : float) :
  let l := spec_compute v w e h c in
  cumulative_savings l = F64.mul (monthly_savings l) h.
Proof. reflexivity. Qed.

Lemma spec_compute_payback (v w e h c : float) :
  let l := spec_compute v w e h c in
  payback_months l =
    if F64.ltb F64.zero (monthly_savings l)
    then F64.div c (monthly_savings l) else F64.infinity.
Proof. reflexivity. Qed.

Lemma spec_compute_roi (v w e h c : float) :
  let l := spec_compute v w e h c in
  roi_percentage l =
    if F64.ltb F64.zero c
    then F64.mul (F64.div (net_savings l) c) (F64.of_Z 100) else F64.infinity.
Proof. reflexivity. Qed.

Lemma leb_zero_not_positive (f : float) :
  F64.leb f F64.zero = true -> F64.ltb F64.zero f = false.
Proof.
  destruct f as [s | s | | s m e]; try reflexivity; destruct s; try reflexivity;
    discriminate.
Qed.

Lemma eqb_zero_not_positive (f : float) :
  F64.eqb f F64.zero = true -> F64.ltb F64.zero f = false.
Proof.
  destruct f as [s | s | | s m e]; try reflexivity; destruct s; discriminate.
Qed.

(** Zero divided by a positive float is zero. *)
Lemma div_zero_positive (f : float) :
  F64.ltb F64.zero f = true -> F64.div F64.zero f = F64.zero.
Proof.
  destruct f as [s | s | | s m e]; try discriminate; destruct s; try discriminate;
    reflexivity.
Qed.

Lemma results_dict_lookup (l : locals) :
  results_dict l !! "monthly_savings" = Some (VFloat (monthly_savings l)) /\
  results_dict l !! "cumulative_savings" = Some (VFloat (cumulative_savings l)) /\
  results_dict l !! "payback_months" = Some (VFloat (payback_months l)) /\
  results_dict l !! "roi_percentage" = Some (VFloat (roi_percentage l)).
Proof. unfold results_dict. repeat split; by simplify_map_eq. Qed.

(** C6. For every well-formed numeric input, [calculate_results] returns a
    result whose [cumulative_savings] is exactly the float product of its
    [monthly_savings] and the time horizon. *)
Theorem cumulative_consistency (inputs : dict) :
  well_formed inputs = true ->
  exists (r : dict) (ms cs horizon : float),
    calculate_results inputs = Ok r /\
    r !! "monthly_savings" = Some (VFloat ms) /\
    r !! "cumulative_savings" = Some (VFloat cs) /\
    field_double inputs "time_horizon_months" = Ok horizon /\
    cs = F64.mul ms horizon.
Proof.
  intros Hwf.
  destruct (well_formed_fields inputs Hwf) as (v & w & e & h & c & Hv & Hw & He & Hh & Hc).
  set (l := spec_compute v w e h c).
  destruct (results_dict_lookup l) as (Lm & Lc & _).
  exists (results_dict l), (monthly_savings l), (cumulative_savings l), h.
  split; [apply calculate_results_spec; assumption |].
  split; [exact Lm |]. split; [exact Lc |]. split; [exact Hh |].
  apply spec_compute_cumulative.
Qed.

Lemma cumulative_consistency_witness :
  well_formed concrete_inputs = true /\
  exists (r : dict) (ms cs horizon : float),
    calculate_results concrete_inputs = Ok r /\
    r !! "monthly_savings" = Some (VFloat ms) /\
    r !! "cumulative_savings" = Some (VFloat cs) /\
    field_double concrete_inputs "time_horizon_months" = Ok horizon /\
    cs = F64.mul ms horizon.
Proof.
  split; [vm_compute; reflexivity |].
  apply (cumulative_consistency concrete_inputs). vm_compute; reflexivity.
Defined.

(** C4. For every well-formed input whose implementation cost is zero,
    [calculate_results] returns [roi_percentage = +inf], whatever the
    other fields (and so the sign of the net savings) are. *)
Theorem roi_zero_cost_sentinel (inputs : dict) (cost : float) :
  well_formed inputs = true ->
  field_double inputs "one_time_implementation_cost" = Ok cost ->
  F64.eqb cost F64.zero = true ->
  exists r : dict,
    calculate_results inputs = Ok r /\
    r !! "roi_percentage" = Some (VFloat F64.infinity).
Proof.
  intros Hwf Hcost Hz.
  destruct (well_formed_fields inputs Hwf) as (v & w & e & h & c & Hv & Hw & He & Hh & Hc).
  assert (c = cost) as -> by congruence.
  set (l := spec_compute v w e h cost).
  destruct (results_dict_lookup l) as (_ & _ & _ & Lr).
  exists (results_dict l).
  split; [apply calculate_results_spec; assumption |].
  rewrite Lr. unfold l. rewrite spec_compute_roi.
  rewrite (eqb_zero_not_positive cost Hz). reflexivity.
Qed.

Lemma roi_zero_cost_sentinel_witness :
  well_formed free_inputs = true /\
  field_double free_inputs "one_time_implementation_cost" = Ok F64.zero /\
  F64.eqb F64.zero F64.zero = true /\
  exists r : dict,
    calculate_results free_inputs = Ok r /\
    r !! "roi_percentage" = Some (VFloat F64.infinity).
Proof.
  split; [vm_compute; reflexivity |]. split; [vm_compute; reflexivity |].
  split; [vm_compute; reflexivity |].
  apply (roi_zero_cost_sentinel free_inputs F64.zero); vm_compute; reflexivity.
Defined.

(** C5. For every well-formed numeric input, [calculate_results] returns
    [payback_months = +inf] when the monthly savings it derives are at
    most zero, and the quotient of the implementation cost by the monthly
    savings when they are positive. *)
Theorem payback_rule (inputs : dict) :
  well_formed inputs = true ->
  exists (r : dict) (ms pb cost : float),
    calculate_results inputs = Ok r /\
    r !! "monthly_savings" = Some (VFloat ms) /\
    r !! "payback_months" = Some (VFloat pb) /\
    field_double inputs "one_time_implementation_cost" = Ok cost /\
    (F64.leb ms F64.zero = true -> pb = F64.infinity) /\
    (F64.ltb F64.zero ms = true -> pb = F64.div cost ms).
Proof.
  intros Hwf.
  destruct (well_formed_fields inputs Hwf) as (v & w & e & h & c & Hv & Hw & He & Hh & Hc).
  set (l := spec_compute v w e h c).
  destruct (results_dict_lookup l) as (Lm & _ & Lp & _).
  exists (results_dict l), (monthly_savings l), (payback_months l), c.
  split; [apply calculate_results_spec; assumption |].
  split; [exact Lm |]. split; [exact Lp |]. split; [exact Hc |].
  unfold l. rewrite spec_compute_payback.
  split; intros H.
  - rewrite (leb_zero_not_positive _ H). reflexivity.
  - rewrite H. reflexivity.
Qed.

Lemma payback_rule_witness :
  well_formed concrete_inputs = true /\
  exists (r : dict) (ms pb cost : float),
    calculate_results concrete_inputs = Ok r /\
    r !! "monthly_savings" = Some (VFloat ms) /\
    r !! "payback_months" = Some (VFloat pb) /\
    field_double concrete_inputs "one_time_implementation_cost" = Ok cost /\
    (F64.leb ms F64.zero = true -> pb = F64.infinity) /\
    (F64.ltb F64.zero ms = true -> pb = F64.div cost ms).
Proof.
  split; [vm_compute; reflexivity |].
  apply (payback_rule concrete_inputs). vm_compute; reflexivity.
Defined.

(** A zero divided by a positive amount is that zero, sign included. *)
Lemma div_signed_zero_positive (s : bool) (f : float) :
  F64.ltb F64.zero f = true -> F64.div (S754_zero s) f = S754_zero s.
Proof.
  destruct f as [s' | s' | | s' m e]; try discriminate; destruct s';
    try discriminate; destruct s; reflexivity.
Qed.

(** The floats equal to 0 are the two zeros. *)
Lemma eqb_zero_cases (f : float) :
  F64.eqb f F64.zero = true -> f = S754_zero false \/ f = S754_zero true.
Proof.
  destruct f as [s | s | | s m e]; try destruct s; try discriminate; auto.
Qed.

(** C10, as amended. For every well-formed numeric input whose
    implementation cost equals 0, the return on investment is the [+inf]
    sentinel, printed "N/A", while for positive monthly savings the
    payback period is the cost itself, a zero: [0.0], printed
    "0.0 months", for the cost 0, 0.0 or [False], and [-0.0], printed
    "-0.0 months", for the cost [-0.0]. *)
Theorem zero_cost_payback (inputs : dict) (cost : float) :
  well_formed inputs = true ->
  field_double inputs "one_time_implementation_cost" = Ok cost ->
  F64.eqb cost F64.zero = true ->
  exists (r : dict) (ms : float),
    calculate_results inputs = Ok r /\
    r !! "monthly_savings" = Some (VFloat ms) /\
    r !! "roi_percentage" = Some (VFloat F64.infinity) /\
    roi_text r = Ok "N/A" /\
    (F64.ltb F64.zero ms = true ->
       r !! "payback_months" = Some (VFloat cost) /\
       F64.is_zero cost = true /\
       payback_text r
         = Ok (if not_negative_zero cost then "0.0 months"
               else "-0.0 months")).
Proof.
  intros Hwf Hcost Hzero.
  destruct (well_formed_fields inputs Hwf) as (v & w & e & h & c & Hv & Hw & He & Hh & Hc).
  assert (c = cost) as -> by congruence.
  set (l := spec_compute v w e h cost).
  destruct (results_dict_lookup l) as (Lm & _ & Lp & Lr).
  exists (results_dict l), (monthly_savings l).
  split; [apply calculate_results_spec; assumption |].
  split; [exact Lm |].
  unfold roi_text, payback_text, getitem. rewrite Lp, Lr. clear Lm Lp Lr.
  unfold l. rewrite spec_compute_roi, spec_compute_payback.
  rewrite (eqb_zero_not_positive cost Hzero).
  split; [reflexivity |]. split; [reflexivity |].
  intros Hm. rewrite Hm.
  destruct (eqb_zero_cases cost Hzero) as [-> | ->];
    rewrite (div_signed_zero_positive _ _ Hm); repeat split.
Qed.

Lemma zero_cost_payback_witness :
  well_formed free_inputs = true /\
  field_double free_inputs "one_time_implementation_cost" = Ok F64.zero /\
  F64.eqb F64.zero F64.zero = true /\
  exists (r : dict) (ms : float),
    calculate_results free_inputs = Ok r /\
    r !! "monthly_savings" = Some (VFloat ms) /\
    r !! "roi_percentage" = Some (VFloat F64.infinity) /\
    roi_text r = Ok "N/A" /\
    (F64.ltb F64.zero ms = true ->
       r !! "payback_months" = Some (VFloat F64.zero) /\
       F64.is_zero F64.zero = true /\
       payback_text r = Ok "0.0 months").
Proof.
  split; [vm_compute; reflexivity |]. split; [vm_compute; reflexivity |].
  split; [vm_compute; reflexivity |].
  apply (zero_cost_payback free_inputs F64.zero); vm_compute; reflexivity.
Defined.

(** C10, as stated, fails: the cost [-0.0] equals 0 and the input is
    well-formed, with positive monthly savings, yet the payback period
    returned is [-0.0] and is printed "-0.0 months", not "0.0 months". *)
Lemma negative_zero_cost_prints_minus :
  well_formed
    (<["one_time_implementation_cost" := VFloat (S754_zero true)]> concrete_inputs)
    = true /\
  field_double
    (<["one_time_implementation_cost" := VFloat (S754_zero true)]> concrete_inputs)
    "one_time_implementation_cost" = Ok (S754_zero true) /\
  F64.eqb (S754_zero true) F64.zero = true /\
  exists (r : dict) (ms : float),
    calculate_results
      (<["one_time_implementation_cost" := VFloat (S754_zero true)]> concrete_inputs)
      = Ok r /\
    r !! "monthly_savings" = Some (VFloat ms) /\
    F64.ltb F64.zero ms = true /\
    r !! "roi_percentage" = Some (VFloat F64.infinity) /\
    r !! "payback_months" = Some (VFloat (S754_zero true)) /\
    r !! "payback_months" <> Some (VFloat F64.zero) /\
    payback_text r = Ok "-0.0 months" /\
    payback_text r <> Ok "0.0 months".
Proof.
  split; [evaluate |]. split; [evaluate |]. split; [evaluate |].
  set (l := spec_compute (F64.of_Z 2000) (F64.literal 300 1) (F64.literal 1000 1)
              (F64.of_Z 36) (S754_zero true)).
  destruct (results_dict_lookup l) as (Lm & _ & Lp & Lr).
  exists (results_dict l), (monthly_savings l).
  split; [apply calculate_results_spec; evaluate |].
  split; [exact Lm |]. split; [evaluate |].
  split; [rewrite Lr; evaluate |].
  assert (Hpb : payback_months l = S754_zero true) by evaluate.
  assert (Htext : payback_text (results_dict l) = Ok "-0.0 months").
  { unfold payback_text, getitem. rewrite Lp, Hpb. reflexivity. }
  split; [rewrite Lp, Hpb; reflexivity |].
  split; [rewrite Lp, Hpb; discriminate |].
  split; [exact Htext |]. rewrite Htext. discriminate.
Qed.

(** With a negative zero for the cost, which also compares equal to 0,
    the payback period is the negative zero. *)
Remark negative_zero_cost_payback :
  exists l : locals,
    calculate_body
      (<["one_time_implementation_cost" := VFloat (S754_zero true)]> concrete_inputs)
      = Ok l /\
    payback_months l = S754_zero true /\
    F64.eqb (payback_months l) F64.zero = true /\
    payback_text (results_dict l) = Ok "-0.0 months".
Proof. eexists. split; [evaluate |]. repeat split. Qed.

(** C2, as amended. On the concrete scenario the engine follows the eight
    steps in order and yields labor savings 7073.0, error savings 600.0
    and automation cost 400.0 exactly; monthly savings 8000.300000000001
    and cumulative savings 288010.80000000005, which are 8000.3 and
    288010.8 to one decimal place; payback 6.25 and return 476.02 to two
    decimal places. *)
Theorem concrete_scenario :
  exists l : locals,
    calculate_body concrete_inputs = Ok l /\
    calculate_results concrete_inputs = Ok (results_dict l) /\
    l = spec_compute (F64.of_Z 2000) (F64.literal 300 1) (F64.literal 1000 1)
          (F64.of_Z 36) (F64.literal 500000 1) /\
    labor_savings l = F64.of_Z 7073 /\
    error_savings l = F64.of_Z 600 /\
    auto_cost l = F64.of_Z 400 /\
    float_repr (monthly_savings l) = "8000.300000000001" /\
    format_float_f false 1 (monthly_savings l) = "8000.3" /\
    float_repr (cumulative_savings l) = "288010.80000000005" /\
    format_float_f false 1 (cumulative_savings l) = "288010.8" /\
    format_float_f false 2 (payback_months l) = "6.25" /\
    format_float_f false 2 (roi_percentage l) = "476.02".
Proof.
  eexists. split; [apply calculate_body_spec; evaluate |].
  split; [apply calculate_results_spec; evaluate |].
  repeat split; evaluate.
Qed.

(** C2, as stated, fails: the monthly and the cumulative savings returned
    for the concrete scenario are not equal to the floats 8000.3 and
    288010.8. *)
Lemma concrete_scenario_inexact :
  exists (r : dict) (ms cs : float),
    calculate_results concrete_inputs = Ok r /\
    r !! "monthly_savings" = Some (VFloat ms) /\
    r !! "cumulative_savings" = Some (VFloat cs) /\
    F64.eqb ms (F64.literal 80003 1) = false /\
    F64.eqb cs (F64.literal 2880108 1) = false.
Proof.
  set (l := spec_compute (F64.of_Z 2000) (F64.literal 300 1) (F64.literal 1000 1)
              (F64.of_Z 36) (F64.literal 500000 1)).
  destruct (results_dict_lookup l) as (Lm & Lc & _).
  exists (results_dict l), (monthly_savings l), (cumulative_savings l).
  split; [apply calculate_results_spec; evaluate |].
  split; [exact Lm |]. split; [exact Lc |].
  split; evaluate.
Qed.

(** ** Malformed inputs *)

Lemma convert_non_numeric (v : value) :
  non_numeric v = true -> convert_to_double v = Raise TypeError.
Proof. destruct v; try discriminate; reflexivity. Qed.

Lemma present_field (inputs : dict) (key : string) :
  match inputs !! key with
  | Some v => non_numeric v || is_ok (convert_to_double v)
  | None => false
  end = true ->
  exists v, inputs !! key = Some v /\
    ((convert_to_double v = Raise TypeError /\ non_numeric v = true) \/
     (exists f, convert_to_double v = Ok f /\ non_numeric v = false)).
Proof.
  destruct (inputs !! key) as [v |]; [| discriminate].
  intros H. exists v. split; [reflexivity |].
  destruct (non_numeric v) eqn:Hn.
  - left. split; [apply convert_non_numeric; exact Hn | reflexivity].
  - right. simpl in H. destruct (convert_to_double v) as [f |]; [| discriminate].
    exists f. split; reflexivity.
Qed.

(** C1, as amended. When the five fields the engine reads are all present,
    none is an int beyond the range of a double, and at least one is text
    or [None], [calculate_results] raises nothing and returns exactly the
    fallback result. *)
Theorem non_numeric_fallback (inputs : dict) :
  all_present inputs = true ->
  some_non_numeric inputs = true ->
  calculate_results inputs = Ok fallback_results.
Proof.
  unfold all_present, some_non_numeric. simpl forallb. simpl existsb.
  rewrite !andb_true_iff.
  intros (P1 & P2 & P3 & P4 & P5 & _) Hsome.
  apply present_field in P1 as (v1 & L1 & C1).
  apply present_field in P2 as (v2 & L2 & C2).
  apply present_field in P3 as (v3 & L3 & C3).
  apply present_field in P4 as (v4 & L4 & C4).
  apply present_field in P5 as (v5 & L5 & C5).
  rewrite L1, L2, L3, L4, L5 in Hsome.
  unfold calculate_results, calculate_body, getitem,
    mul_vf, mul_fv, sub_fv, div_vf, div_fv.
  rewrite L1, L2, L3, L4, L5. simpl.
  destruct C1 as [[E1 N1] | (f1 & E1 & N1)]; rewrite E1; simpl;
    [reflexivity |].
  destruct C2 as [[E2 N2] | (f2 & E2 & N2)]; rewrite E2; simpl;
    [reflexivity |].
  destruct C3 as [[E3 N3] | (f3 & E3 & N3)]; rewrite E3; simpl;
    [reflexivity |].
  destruct C4 as [[E4 N4] | (f4 & E4 & N4)]; rewrite E4; simpl;
    [reflexivity |].
  destruct C5 as [[E5 N5] | (f5 & E5 & N5)]; rewrite E5; simpl;
    [reflexivity |].
  rewrite N1, N2, N3, N4, N5 in Hsome. discriminate.
Qed.

Lemma non_numeric_fallback_witness :
  all_present (<["hourly_wage" := VStr "thirty"]> concrete_inputs) = true /\
  some_non_numeric (<["hourly_wage" := VStr "thirty"]> concrete_inputs) = true /\
  calculate_results (<["hourly_wage" := VStr "thirty"]> concrete_inputs)
    = Ok fallback_results.
Proof.
  split; [vm_compute; reflexivity |]. split; [vm_compute; reflexivity |].
  apply (non_numeric_fallback (<["hourly_wage" := VStr "thirty"]> concrete_inputs));
    vm_compute; reflexivity.
Defined.

(** C1, as stated, fails: a missing field raises [KeyError]; text in the
    fields the engine does not read changes nothing; and an int beyond the
    range of a double raises [OverflowError] before a later text field is
    looked at. *)
Lemma malformed_not_always_fallback :
  calculate_results (delete "hourly_wage" concrete_inputs)
    = Raise (KeyError "hourly_wage") /\
  (exists l : locals,
     calculate_results
       (<["scenario_name" := VStr "Q4 Pilot"]>
          (<["num_ap_staff" := VStr "three"]> concrete_inputs))
       = Ok (results_dict l) /\
     results_dict l <> fallback_results) /\
  calculate_results
    (<["monthly_invoice_volume" := VInt (2 ^ 1024)]>
       (<["hourly_wage" := VStr "thirty"]> concrete_inputs))
    = Raise OverflowError.
Proof.
  split; [evaluate |].
  split; [| evaluate].
  eexists. split.
  - apply calculate_results_spec; evaluate.
  - intros H. apply (f_equal (fun d : dict => d !! "monthly_savings")) in H.
    vm_compute in H. discriminate.
Qed.

(** ** The scenario store *)

Section Store.

(** The rowids SQLite would draw at random once the largest one is taken. *)
Variable probes : list Z.

(** The table is created once; a later [init_db] leaves it as it is. *)
Lemma init_db_idempotent (conn : database) :
  init_db (init_db conn) = init_db conn /\
  (forall t, conn = Some t -> init_db conn = Some t).
Proof. destruct conn; split; try reflexivity; intros t' [= <-]; reflexivity. Qed.

Lemma largest_rowid_bound (t : table) (r : row) :
  In r t -> exists m, largest_rowid t = Some m /\ col_id r <= m.
Proof.
  induction t as [| r' t IH]; simpl; [tauto |].
  intros [-> | Hin].
  - destruct (largest_rowid t) as [m |]; eexists; split; try reflexivity; lia.
  - destruct (IH Hin) as (m & -> & Hm). eexists. split; [reflexivity | lia].
Qed.

Lemma btree_insert_last (r : row) (t : table) :
  (forall r', In r' t -> col_id r' < col_id r) ->
  btree_insert r t = t ++ [r].
Proof.
  induction t as [| r' t IH]; simpl; intros Hlt; [reflexivity |].
  destruct (col_id r <? col_id r') eqn:Hc.
  - apply Z.ltb_lt in Hc. specialize (Hlt r' (or_introl eq_refl)). lia.
  - rewrite IH; [reflexivity |]. intros r'' Hin. apply Hlt. right. exact Hin.
Qed.

(** The rowid of the next inserted row, while rowids remain. *)
Lemma new_rowid_next (t : table) :
  room_for 1 t = true ->
  exists id, new_rowid probes t = Some id /\
    (forall r, In r t -> col_id r < id) /\
    (rowids_positive t = true -> 0 < id).
Proof.
  unfold room_for, new_rowid. intros Hroom.
  destruct (largest_rowid t) as [m |] eqn:Hl.
  - apply Z.leb_le in Hroom.
    replace (m <? MAX_ROWID) with true by (symmetry; apply Z.ltb_lt; lia).
    exists (m + 1). split; [reflexivity |]. split.
    + intros r Hin. destruct (largest_rowid_bound t r Hin) as (m' & Hm' & Hle).
      rewrite Hl in Hm'. injection Hm' as <-. lia.
    + intros Hpos. destruct t as [| r t']; [discriminate |].
      destruct (largest_rowid_bound (r :: t') r (or_introl eq_refl))
        as (m' & Hm' & Hle).
      rewrite Hl in Hm'. injection Hm' as <-.
      simpl in Hpos. apply andb_true_iff in Hpos as [Hr _].
      apply Z.ltb_lt in Hr. lia.
  - exists 1. split; [reflexivity |]. split; [| lia].
    intros r Hin. destruct (largest_rowid_bound t r Hin) as (m' & Hm' & _).
    congruence.
Qed.

Lemma bind_int_int64 (z : Z) : int64 z = true -> bind_int z = Ok (SInteger z).
Proof. unfold int64, bind_int. intros ->. reflexivity. Qed.

Lemma storable_ints (x : ScenarioInput) :
  storable x = true ->
  bind_int (monthly_invoice_volume x) = Ok (SInteger (monthly_invoice_volume x)) /\
  bind_int (num_ap_staff x) = Ok (SInteger (num_ap_staff x)) /\
  bind_int (time_horizon_months x) = Ok (SInteger (time_horizon_months x)).
Proof.
  unfold storable. rewrite !andb_true_iff.
  intros (((((H1 & H2) & H3) & _) & _) & _).
  repeat split; apply bind_int_int64; assumption.
Qed.

(** Inserting a storable input appends its row under a rowid larger than
    every rowid in the table. *)
Lemma insert_scenario_appends (t : table) (x : ScenarioInput) :
  storable x = true -> room_for 1 t = true ->
  exists id,
    insert_scenario probes (Some t) x = Ok (t ++ [stored_row id x], id) /\
    (forall r, In r t -> col_id r < id) /\
    (rowids_positive t = true -> 0 < id).
Proof.
  intros Hx Hroom.
  destruct (storable_ints x Hx) as (B1 & B2 & B3).
  destruct (new_rowid_next t Hroom) as (id & Hid & Hfresh & Hpos).
  exists id. split; [| split; assumption].
  unfold insert_scenario. simpl. rewrite B1. simpl. rewrite B2. simpl.
  rewrite B3. simpl. rewrite Hid. simpl.
  fold (stored_row id x).
  rewrite btree_insert_last; [reflexivity |].
  intros r Hin. simpl. apply Hfresh. exact Hin.
Qed.

Lemma find_last (id : Z) (t : table) (r : row) :
  (forall r', In r' t -> col_id r' < id) -> col_id r = id ->
  find (fun r' => col_id r' =? id) (t ++ [r]) = Some r.
Proof.
  intros Hlt Hr. induction t as [| r' t IH]; simpl.
  - rewrite Hr, Z.eqb_refl. reflexivity.
  - specialize (Hlt r' (or_introl eq_refl)) as Hr'.
    replace (col_id r' =? id) with false by (symmetry; apply Z.eqb_neq; lia).
    apply IH. intros r'' Hin. apply Hlt. right. exact Hin.
Qed.

Lemma float_eqb_refl (f : float) : F64.is_nan f = false -> F64.eqb f f = true.
Proof.
  destruct f as [s | s | | s m e]; try discriminate; intros _;
    unfold F64.eqb, SFeqb; simpl.
  - reflexivity.
  - destruct s; reflexivity.
  - rewrite Z.compare_refl, Pos.compare_cont_refl. destruct s; reflexivity.
Qed.

(** A float that is a number reads back from a REAL column as a float
    equal to it. *)
Lemma real_column_round_trip (f : float) :
  F64.is_nan f = false ->
  exists f', py_of_sql (real_affinity (bind_float f)) = VFloat f' /\
             F64.eqb f' f = true.
Proof.
  intros Hf. unfold bind_float. rewrite Hf.
  destruct f as [s | s | | s m e]; try discriminate; simpl; eexists;
    (split; [reflexivity |]).
  - reflexivity.
  - apply (float_eqb_refl (S754_infinity s)). reflexivity.
  - apply (float_eqb_refl (S754_finite s m e)). reflexivity.
Qed.

Lemma assign_row_lookup (r : row) (d : dict) :
  let d' := assign_all (row_items r) d in
  d' !! "id" = Some (VInt (col_id r)) /\
  d' !! "scenario_name" = Some (py_of_sql (col_scenario_name r)) /\
  d' !! "monthly_invoice_volume" = Some (py_of_sql (col_monthly_invoice_volume r)) /\
  d' !! "num_ap_staff" = Some (py_of_sql (col_num_ap_staff r)) /\
  d' !! "hourly_wage" = Some (py_of_sql (col_hourly_wage r)) /\
  d' !! "error_cost" = Some (py_of_sql (col_error_cost r)) /\
  d' !! "time_horizon_months" = Some (py_of_sql (col_time_horizon_months r)) /\
  d' !! "one_time_implementation_cost"
    = Some (py_of_sql (col_one_time_implementation_cost r)).
Proof. unfold assign_all, row_items. simpl. repeat split; by simplify_map_eq. Qed.

Lemma widget_inputs_lookup (x : ScenarioInput) :
  let d := widget_inputs x in
  d !! "scenario_name" = Some (VStr (scenario_name x)) /\
  d !! "monthly_invoice_volume" = Some (VInt (monthly_invoice_volume x)) /\
  d !! "num_ap_staff" = Some (VInt (num_ap_staff x)) /\
  d !! "hourly_wage" = Some (VFloat (hourly_wage x)) /\
  d !! "error_cost" = Some (VFloat (error_cost x)) /\
  d !! "time_horizon_months" = Some (VInt (time_horizon_months x)) /\
  d !! "one_time_implementation_cost"
    = Some (VFloat (one_time_implementation_cost x)).
Proof. unfold widget_inputs. repeat split; by simplify_map_eq. Qed.

(** The fields loaded from the row of a storable input equal the input's. *)
Lemma stored_row_fields (id : Z) (x : ScenarioInput) (d : dict) :
  storable x = true ->
  same_fields (assign_all (row_items (stored_row id x)) d) (widget_inputs x) = true.
Proof.
  unfold storable. rewrite !andb_true_iff, !negb_true_iff.
  intros (((((_ & _) & _) & Hw) & He) & Hc).
  destruct (assign_row_lookup (stored_row id x) d)
    as (_ & A1 & A2 & A3 & A4 & A5 & A6 & A7).
  destruct (widget_inputs_lookup x) as (W1 & W2 & W3 & W4 & W5 & W6 & W7).
  unfold same_fields, scenario_fields, forallb.
  rewrite A1, A2, A3, A4, A5, A6, A7, W1, W2, W3, W4, W5, W6, W7.
  simpl col_scenario_name. simpl col_monthly_invoice_volume.
  simpl col_num_ap_staff. simpl col_time_horizon_months.
  simpl col_hourly_wage. simpl col_error_cost.
  simpl col_one_time_implementation_cost.
  destruct (real_column_round_trip _ Hw) as (w' & -> & Ew).
  destruct (real_column_round_trip _ He) as (e' & -> & Ee).
  destruct (real_column_round_trip _ Hc) as (c' & -> & Ec).
  simpl. rewrite String.eqb_refl, !Z.eqb_refl, Ew, Ee, Ec. reflexivity.
Qed.

(** C7. For every storable input with a non-empty name, saving it and
    then loading the scenario under the rowid the insertion returned puts
    into the session state seven fields equal to those of the input. *)
Theorem store_round_trip (t : table) (x : ScenarioInput)
    (d : dict) :
  scenario_name x <> "" ->
  storable x = true ->
  room_for 1 t = true ->
  rowids_positive t = true ->
  exists (t' : table) (id : Z) (s' : session),
    insert_scenario probes (Some t) x = Ok (t', id) /\
    save_scenario probes (Some t) x
      = Ok (Some t', StSuccess ("Scenario '" +:+ scenario_name x +:+ "' saved!")) /\
    load_scenario (Some t') (Session (Some id) d) = Ok s' /\
    state s' !! "id" = Some (VInt id) /\
    same_fields (state s') (widget_inputs x) = true.
Proof.
  intros Hname Hx Hroom Hpos.
  destruct (insert_scenario_appends t x Hx Hroom) as (id & Hins & Hfresh & Hid).
  specialize (Hid Hpos).
  exists (t ++ [stored_row id x]), id,
    (Session (Some id) (assign_all (row_items (stored_row id x)) d)).
  split; [exact Hins |]. split.
  - unfold save_scenario. apply String.eqb_neq in Hname. rewrite Hname. simpl.
    rewrite Hins. reflexivity.
  - split.
    + unfold load_scenario. simpl.
      replace (id =? 0) with false by (symmetry; apply Z.eqb_neq; lia).
      rewrite (find_last id t (stored_row id x) Hfresh eq_refl). reflexivity.
    + split.
      * apply assign_row_lookup.
      * apply stored_row_fields. exact Hx.
Qed.


Lemma largest_rowid_last (t : table) (r : row) :
  (forall r', In r' t -> col_id r' < col_id r) ->
  largest_rowid (t ++ [r]) = Some (col_id r).
Proof.
  induction t as [| r' t IH]; simpl; intros Hlt; [reflexivity |].
  rewrite IH by (intros r'' Hin; apply Hlt; right; exact Hin).
  specialize (Hlt r' (or_introl eq_refl)). f_equal. lia.
Qed.

Lemma new_rowid_is_next (t : table) :
  room_for 1 t = true -> new_rowid probes t = Some (next_rowid t).
Proof.
  unfold room_for, new_rowid, next_rowid. intros Hroom.
  destruct (largest_rowid t) as [m |]; [| reflexivity].
  apply Z.leb_le in Hroom.
  replace (m <? MAX_ROWID) with true by (symmetry; apply Z.ltb_lt; lia).
  reflexivity.
Qed.

Lemma room_for_less (n : Z) (t : table) :
  1 <= n -> room_for n t = true -> room_for 1 t = true.
Proof.
  unfold room_for. intros Hn. destruct (largest_rowid t) as [m |];
    rewrite !Z.leb_le; unfold MAX_ROWID, MAX_INT64; lia.
Qed.

(** The handler saves a savable input as a new last row. *)
Lemma save_scenario_appends (t : table) (x : ScenarioInput) :
  savable x = true -> room_for 1 t = true ->
  save_scenario probes (Some t) x
    = Ok (Some (t ++ [stored_row (next_rowid t) x]), saved_notice x) /\
  (forall r, In r t -> col_id r < next_rowid t).
Proof.
  unfold savable. rewrite andb_true_iff. intros [Hname Hx] Hroom.
  destruct (insert_scenario_appends t x Hx Hroom) as (id & Hins & Hfresh & _).
  assert (id = next_rowid t) as ->.
  { unfold insert_scenario in Hins. simpl in Hins.
    destruct (storable_ints x Hx) as (B1 & B2 & B3).
    rewrite B1, B2, B3 in Hins. simpl in Hins.
    rewrite (new_rowid_is_next t Hroom) in Hins. simpl in Hins.
    congruence. }
  split; [| exact Hfresh].
  unfold save_scenario. rewrite Hname. simpl. rewrite Hins. reflexivity.
Qed.

Lemma listing_app (t : table) (id : Z) (x : ScenarioInput) :
  listing (t ++ [stored_row id x]) = listing t ++ [(id, VStr (scenario_name x))].
Proof. unfold listing. rewrite map_app. reflexivity. Qed.

(** C8. The listing holds every record in creation order: after saving
    the inputs [xs] one after another, it is the earlier listing followed
    by the names of [xs] in their order, under increasing rowids; so a
    record saved before another is listed before it. *)
Theorem list_in_creation_order (xs : list ScenarioInput) :
  forall t : table,
  forallb savable xs = true ->
  room_for (Z.of_nat (length xs)) t = true ->
  exists t' : table,
    save_all probes (Some t) xs = Ok (Some t') /\
    list_scenarios (Some t')
    = Ok (listing t ++ listing_from (next_rowid t) xs).
Proof.
  induction xs as [| x xs IH]; intros t Hxs Hroom.
  - exists t. split; [reflexivity |]. simpl. rewrite app_nil_r. reflexivity.
  - simpl in Hxs. apply andb_true_iff in Hxs as [Hx Hxs].
    assert (Hone : room_for 1 t = true).
    { apply (room_for_less (Z.of_nat (length (x :: xs)))); [simpl; lia | exact Hroom]. }
    destruct (save_scenario_appends t x Hx Hone) as [Hsave Hfresh].
    set (r := stored_row (next_rowid t) x) in *.
    assert (Hnext : next_rowid (t ++ [r]) = next_rowid t + 1).
    { unfold next_rowid at 1. rewrite (largest_rowid_last t r Hfresh). reflexivity. }
    assert (Hroom' : room_for (Z.of_nat (length xs)) (t ++ [r]) = true).
    { unfold room_for. rewrite (largest_rowid_last t r Hfresh).
      unfold room_for in Hroom. simpl length in Hroom.
      rewrite Nat2Z.inj_succ in Hroom. unfold next_rowid in *.
      change (col_id r) with (match largest_rowid t with
                              | Some m => m + 1 | None => 1 end).
      destruct (largest_rowid t) as [m |]; apply Z.leb_le in Hroom;
        apply Z.leb_le; lia. }
    destruct (IH (t ++ [r]) Hxs Hroom') as (t' & Hall & Hlist).
    exists t'. split.
    + simpl. rewrite Hsave. simpl. exact Hall.
    + rewrite Hlist, Hnext. unfold r. rewrite listing_app.
      simpl. rewrite <- app_assoc. reflexivity.
Qed.

(** C9, as amended. Saving a named, storable input appends one row, under
    a rowid larger than every rowid in the table, and leaves the rows
    already there as they are; saving an input whose name is empty is not
    a failure: the handler raises nothing, stores nothing and returns an
    error notice, whatever the state of the database. *)
Theorem create_appends (t : table) (x : ScenarioInput) :
  savable x = true ->
  room_for 1 t = true ->
  (exists (id : Z) (r : row),
     save_scenario probes (Some t) x = Ok (Some (t ++ [r]), saved_notice x) /\
     col_id r = id /\ id = next_rowid t /\
     (forall r', In r' t -> col_id r' < id) /\
     (forall r', In r' t -> In r' (t ++ [r]))) /\
  (forall (conn : database) (x' : ScenarioInput),
     scenario_name x' = "" ->
     save_scenario probes conn x'
       = Ok (conn, StError "Please enter a scenario name to save.")).
Proof.
  intros Hx Hroom. split.
  - destruct (save_scenario_appends t x Hx Hroom) as [Hsave Hfresh].
    exists (next_rowid t), (stored_row (next_rowid t) x).
    repeat split; try assumption.
    intros r' Hin. apply in_or_app. left. exact Hin.
  - intros conn x' Hname. unfold save_scenario. rewrite Hname. reflexivity.
Qed.

End Store.

Lemma store_round_trip_witness :
  scenario_name (named_scenario "Q4 Pilot") <> "" /\
  storable (named_scenario "Q4 Pilot") = true /\
  room_for 1 [] = true /\
  rowids_positive [] = true /\
  exists (t' : table) (id : Z) (s' : session),
    insert_scenario [] (init_db None) (named_scenario "Q4 Pilot") = Ok (t', id) /\
    save_scenario [] (init_db None) (named_scenario "Q4 Pilot")
      = Ok (Some t', StSuccess ("Scenario '" +:+ "Q4 Pilot" +:+ "' saved!")) /\
    load_scenario (Some t') (Session (Some id) ∅) = Ok s' /\
    state s' !! "id" = Some (VInt id) /\
    same_fields (state s') (widget_inputs (named_scenario "Q4 Pilot")) = true.
Proof.
  split; [discriminate |]. split; [vm_compute; reflexivity |].
  split; [vm_compute; reflexivity |]. split; [vm_compute; reflexivity |].
  apply (store_round_trip [] [] (named_scenario "Q4 Pilot") ∅);
    [discriminate | (vm_compute; reflexivity) ..].
Defined.

Lemma list_in_creation_order_witness :
  forallb savable [named_scenario "A"; named_scenario "B"] = true /\
  room_for 2 [] = true /\
  exists t' : table,
    save_all [] (init_db None) [named_scenario "A"; named_scenario "B"]
      = Ok (Some t') /\
    list_scenarios (Some t') = Ok [(1, VStr "A"); (2, VStr "B")].
Proof.
  split; [vm_compute; reflexivity |]. split; [vm_compute; reflexivity |].
  apply (list_in_creation_order [] [named_scenario "A"; named_scenario "B"] []);
    vm_compute; reflexivity.
Defined.

Lemma create_appends_witness :
  let t := [stored_row 3 (named_scenario "A");
            stored_row 7 (named_scenario "B")] in
  savable (named_scenario "Q4 Pilot") = true /\
  room_for 1 t = true /\
  next_rowid t = 8 /\
  (exists (id : Z) (r : row),
     save_scenario [] (Some t) (named_scenario "Q4 Pilot")
       = Ok (Some (t ++ [r]), saved_notice (named_scenario "Q4 Pilot")) /\
     col_id r = id /\ id = next_rowid t /\
     (forall r', In r' t -> col_id r' < id) /\
     (forall r', In r' t -> In r' (t ++ [r]))) /\
  (forall (conn : database) (x' : ScenarioInput),
     scenario_name x' = "" ->
     save_scenario [] conn x'
       = Ok (conn, StError "Please enter a scenario name to save.")).
Proof.
  intros t.
  split; [vm_compute; reflexivity |]. split; [vm_compute; reflexivity |].
  split; [vm_compute; reflexivity |].
  apply (create_appends [] t (named_scenario "Q4 Pilot")); vm_compute; reflexivity.
Defined.

(** C9, as stated, fails: saving with an empty name is not a failure.
    The handler raises nothing and returns an error notice with the
    database as it was, also when there is no table at all; and the
    [INSERT] itself, run with an empty name, stores the row. *)
Lemma empty_name_is_not_a_failure :
  save_scenario [] (init_db None) (named_scenario "")
    = Ok (Some [], StError "Please enter a scenario name to save.") /\
  save_scenario [] None (named_scenario "")
    = Ok (None, StError "Please enter a scenario name to save.") /\
  insert_scenario [] (init_db None) (named_scenario "")
    = Ok ([stored_row 1 (named_scenario "")], 1).
Proof. split; [evaluate |]. split; evaluate. Qed.

(** The [INSERT] statement itself takes an empty name: the column is only
    [NOT NULL]; the handler is what rejects it. *)
Remark insert_takes_empty_name :
  insert_scenario [] (init_db None) (named_scenario "")
  = Ok ([stored_row 1 (named_scenario "")], 1).
Proof. evaluate. Qed.

(** ** The report *)

#[local] Arguments ne_inf : simpl never.
#[local] Arguments format_float_f : simpl never.
#[local] Arguments py_str : simpl never.
#[local] Arguments latin1 : simpl never.
#[local] Arguments cell : simpl never.

(** *** Texts that latin-1 can encode *)

Lemma latin1_cons (c : ascii) (s : string) :
  latin1 (String c s) = (N_of_ascii c <? 196)%N && latin1 s.
Proof. reflexivity. Qed.

Lemma latin1_app (a b : string) : latin1 (a +:+ b) = latin1 a && latin1 b.
Proof.
  induction a as [| c a IH]; [reflexivity |].
  change (String c a +:+ b) with (String c (a +:+ b)).
  rewrite !latin1_cons, IH, andb_assoc. reflexivity.
Qed.

Lemma latin1_of_list (l : list ascii) :
  latin1 (string_of_list_ascii l) = forallb (fun c => (N_of_ascii c <? 196)%N) l.
Proof. unfold latin1. rewrite list_ascii_of_string_of_list_ascii. reflexivity. Qed.

Lemma latin1_digits (d : Decimal.uint) :
  latin1 (NilEmpty.string_of_uint d) = true.
Proof. induction d; simpl; try reflexivity; rewrite latin1_cons, IHd; reflexivity. Qed.

Lemma latin1_string_of_N (n : N) : latin1 (string_of_N n) = true.
Proof.
  unfold string_of_N, NilZero.string_of_uint.
  destruct (N.to_uint n) eqn:E; try reflexivity; rewrite <- E; apply latin1_digits.
Qed.


Lemma latin1_zeros (n : nat) : latin1 (zeros n) = true.
Proof.
  induction n as [| n IH]; [reflexivity |].
  simpl zeros. rewrite latin1_app, IH. reflexivity.
Qed.

Lemma latin1_substring (n m : nat) (s : string) :
  latin1 s = true -> latin1 (substring n m s) = true.
Proof.
  revert n m. induction s as [| c s IH]; intros n m Hs.
  - destruct n, m; reflexivity.
  - rewrite latin1_cons in Hs. apply andb_true_iff in Hs as [Hc Hs].
    destruct n as [| n]; destruct m as [| m]; simpl; try reflexivity;
      rewrite ?latin1_cons, ?Hc; simpl; apply IH; exact Hs.
Qed.

Lemma commas_rev_cons (k : nat) (c : ascii) (rest : list ascii) :
  commas_rev k (c :: rest) =
    if (k =? 2)%nat && negb (length rest =? 0)%nat
    then c :: ","%char :: commas_rev 0 rest
    else c :: commas_rev (S k) rest.
Proof. destruct k as [| [| [| k]]], rest; reflexivity. Qed.

Lemma forallb_commas_rev (p : ascii -> bool) (k : nat) (ds : list ascii) :
  p ","%char = true -> forallb p ds = true ->
  forallb p (commas_rev k ds) = true.
Proof.
  intros Hcomma. revert k. induction ds as [| c rest IH]; intros k Hds;
    [reflexivity |].
  cbn [forallb] in Hds. apply andb_true_iff in Hds as [Hc Hrest].
  rewrite commas_rev_cons.
  destruct ((k =? 2)%nat && negb (length rest =? 0)%nat); cbn [forallb];
    rewrite Hc, ?Hcomma; apply (IH _ Hrest).
Qed.

Lemma forallb_rev_true {A : Type} (p : A -> bool) (l : list A) :
  forallb p l = true -> forallb p (rev l) = true.
Proof.
  rewrite !forallb_forall. intros H a Ha. apply H, in_rev, Ha.
Qed.

Lemma latin1_group_thousands (s : string) :
  latin1 s = true -> latin1 (group_thousands s) = true.
Proof.
  intros Hs. unfold group_thousands. rewrite latin1_of_list.
  apply forallb_rev_true, forallb_commas_rev; [reflexivity |].
  apply forallb_rev_true. exact Hs.
Qed.

Lemma latin1_fixed_text (grouping : bool) (d : nat) (n : Z) :
  latin1 (fixed_text grouping d n) = true.
Proof.
  unfold fixed_text.
  assert (Hs : latin1 (pad_zeros (S d) (string_of_N (Z.to_N n))) = true).
  { unfold pad_zeros. rewrite latin1_app, latin1_zeros, latin1_string_of_N.
    reflexivity. }
  rewrite latin1_app. apply andb_true_iff. split.
  - destruct grouping; [apply latin1_group_thousands |];
      apply latin1_substring; exact Hs.
  - destruct d; [reflexivity |]. rewrite latin1_app.
    rewrite latin1_substring by exact Hs. reflexivity.
Qed.

(** The text of a formatted float is ASCII. *)
Lemma latin1_format_float_f (grouping : bool) (d : nat) (f : float) :
  latin1 (format_float_f grouping d f) = true.
Proof.
  unfold format_float_f.
  destruct f as [s | s | | s m e];
    [| destruct s; reflexivity | reflexivity |];
    rewrite latin1_app, latin1_fixed_text; destruct s; reflexivity.
Qed.

Lemma latin1_sentinel_text (suffix : string) (f : float) :
  latin1 suffix = true -> latin1 (sentinel_text suffix f) = true.
Proof.
  intros Hs. unfold sentinel_text. destruct (ne_inf (VFloat f)); [| reflexivity].
  rewrite latin1_app, latin1_format_float_f, Hs. reflexivity.
Qed.

Lemma cell_ok (pdf : list pdf_op) (w h : Z) (text : string) (border ln : Z)
    (align : option string) :
  latin1 text = true ->
  cell pdf w h text border ln align = Ok (pdf ++ [Cell w h text border ln align]).
Proof. unfold cell. intros ->. reflexivity. Qed.


Lemma print_error_none (v : value) :
  print_error v = None -> exists text, py_str v = Ok text /\ latin1 text = true.
Proof.
  unfold print_error. destruct (py_str v) as [text |]; [| discriminate].
  destruct (latin1 text) eqn:H; [eauto | discriminate].
Qed.

(** The report of an engine result: the title and five labelled entries,
    in this order, when the scenario name and the horizon can be
    printed. *)
Lemma report_entries (inputs : dict) (l : locals) (horizon : value)
    (name_text horizon_text : string) :
  inputs !! "time_horizon_months" = Some horizon ->
  py_str (dict_get inputs "scenario_name" (VStr "Unsaved")) = Ok name_text ->
  latin1 name_text = true ->
  py_str horizon = Ok horizon_text ->
  latin1 horizon_text = true ->
  exists pdf,
    generate_pdf inputs (results_dict l) = Ok pdf /\
    cell_texts pdf =
      ["ROI Calculator Report";
       "Scenario: " +:+ name_text;
       "Monthly Savings: $" +:+ format_float_f true 2 (monthly_savings l);
       "Payback Period: " +:+ sentinel_text " months" (payback_months l);
       "Total ROI (" +:+ horizon_text +:+ " months): "
         +:+ sentinel_text "%" (roi_percentage l);
       "Cumulative Savings: $" +:+ format_float_f true 2 (cumulative_savings l)].
Proof.
  intros Hh Hname Lname Hhor Lhor.
  destruct (results_dict_lookup l) as (Lm & Lc & Lp & Lr).
  assert (Hpb : payback_text (results_dict l)
                = Ok (sentinel_text " months" (payback_months l))).
  { unfold payback_text, sentinel_text, getitem. rewrite Lp. simpl.
    destruct (ne_inf (VFloat (payback_months l))); reflexivity. }
  assert (Hroi : roi_text (results_dict l)
                 = Ok (sentinel_text "%" (roi_percentage l))).
  { unfold roi_text, sentinel_text, getitem. rewrite Lr. simpl.
    destruct (ne_inf (VFloat (roi_percentage l))); reflexivity. }
  unfold generate_pdf, getitem.
  rewrite cell_ok by reflexivity. simpl.
  rewrite Hname. simpl.
  rewrite cell_ok by (rewrite latin1_app, Lname; reflexivity). simpl.
  rewrite Lm. simpl.
  rewrite cell_ok by (rewrite latin1_app, latin1_format_float_f; reflexivity).
  simpl. rewrite Hpb. simpl.
  rewrite cell_ok
    by (rewrite latin1_app, latin1_sentinel_text; reflexivity).
  simpl. rewrite Hroi. simpl. rewrite Hh. simpl. rewrite Hhor. simpl.
  rewrite cell_ok
    by (rewrite !latin1_app, Lhor, latin1_sentinel_text; reflexivity).
  simpl. rewrite Lc. simpl.
  rewrite cell_ok by (rewrite latin1_app, latin1_format_float_f; reflexivity).
  simpl. eexists. split; [reflexivity |]. reflexivity.
Qed.

(** The name entry is the placeholder only when the key is absent. *)
Lemma scenario_entry_absent (inputs : dict) :
  inputs !! "scenario_name" = None ->
  py_str (dict_get inputs "scenario_name" (VStr "Unsaved")) = Ok "Unsaved".
Proof. unfold dict_get. intros ->. reflexivity. Qed.

Lemma scenario_entry_present (inputs : dict) (name : string) :
  inputs !! "scenario_name" = Some (VStr name) ->
  py_str (dict_get inputs "scenario_name" (VStr "Unsaved")) = Ok name.
Proof. unfold dict_get. intros ->. reflexivity. Qed.

(** C3. With an empty scenario name the report has its five entries in
    order and in the stated formats, but the name entry is blank, not
    "Unsaved"; the download's file name, built from the same name, does
    fall back to "Unsaved". *)
Theorem unnamed_report_blank :
  exists (r : dict) (pdf : list pdf_op),
    unnamed_inputs !! "scenario_name" = Some (VStr "") /\
    calculate_results unnamed_inputs = Ok r /\
    generate_pdf unnamed_inputs r = Ok pdf /\
    cell_texts pdf =
      ["ROI Calculator Report";
       "Scenario: ";
       "Monthly Savings: $8,000.30";
       "Payback Period: 6.2 months";
       "Total ROI (36 months): 476.0%";
       "Cumulative Savings: $288,010.80"] /\
    download_name "" = "ROI_Report_Unsaved.pdf".
Proof.
  set (l := spec_compute (F64.of_Z 2000) (F64.literal 300 1) (F64.literal 1000 1)
              (F64.of_Z 36) (F64.literal 500000 1)).
  destruct (report_entries unnamed_inputs l (VInt 36) "" "36")
    as (pdf & Hpdf & Htexts); [evaluate .. |].
  exists (results_dict l), pdf.
  split; [evaluate |].
  split; [apply calculate_results_spec; evaluate |].
  split; [exact Hpdf |].
  split; [rewrite Htexts; evaluate | evaluate].
Qed.

(** ** Inputs from the widgets *)

Lemma int64_small (z : Z) : int64 z = true -> Z.abs z < 2 ^ 64.
Proof.
  unfold int64, MIN_INT64, MAX_INT64. rewrite andb_true_iff, !Z.leb_le.
  change (2 ^ 64) with (2 * 2 ^ 63). lia.
Qed.

(** The values of the widgets, when the schema can hold them, are a
    well-formed input of the engine: it raises nothing on them and does
    not fall back. *)
Lemma storable_well_formed (x : ScenarioInput) :
  storable x = true -> well_formed (widget_inputs x) = true.
Proof.
  unfold storable. rewrite !andb_true_iff.
  intros (((((Hv & _) & Hh) & _) & _) & _).
  destruct (widget_inputs_lookup x) as (_ & W2 & _ & W4 & W5 & W6 & W7).
  destruct (int_to_float_small _ (int64_small _ Hv)) as (fv & Ev).
  destruct (int_to_float_small _ (int64_small _ Hh)) as (fh & Eh).
  unfold well_formed, engine_fields, forallb, field_double, getitem.
  rewrite W2, W4, W5, W6, W7. simpl. rewrite Ev, Eh. reflexivity.
Qed.

Lemma int_to_float_value (z : Z) (f : float) :
  int_to_float z = Ok f -> f = F64.of_Z z.
Proof.
  unfold int_to_float. destruct (F64.of_Z z); intros [= <-]; reflexivity.
Qed.

(** So the engine is total on them, and computes the specified
    algorithm on the widget values. *)
Lemma widget_inputs_total (x : ScenarioInput) :
  storable x = true ->
  calculate_results (widget_inputs x)
  = Ok (results_dict
          (spec_compute (F64.of_Z (monthly_invoice_volume x)) (hourly_wage x)
             (error_cost x) (F64.of_Z (time_horizon_months x))
             (one_time_implementation_cost x))).
Proof.
  intros Hx. pose proof (storable_well_formed x Hx) as Hwf.
  destruct (well_formed_fields _ Hwf) as (v & w & e & h & c & Hv & Hw & He & Hh & Hc).
  destruct (widget_inputs_lookup x) as (_ & W2 & _ & W4 & W5 & W6 & W7).
  assert (Ev : v = F64.of_Z (monthly_invoice_volume x)).
  { unfold field_double, getitem in Hv. rewrite W2 in Hv.
    apply int_to_float_value. exact Hv. }
  assert (Eh : h = F64.of_Z (time_horizon_months x)).
  { unfold field_double, getitem in Hh. rewrite W6 in Hh.
    apply int_to_float_value. exact Hh. }
  subst v h.
  apply calculate_results_spec; try assumption;
    unfold field_double, getitem; rewrite ?W4, ?W5, ?W7; reflexivity.
Qed.

(** A valid input of the data model whose integers fit 64 bits is
    storable. *)
Lemma valid_input_storable (x : ScenarioInput) :
  valid_input x = true ->
  monthly_invoice_volume x <= MAX_INT64 ->
  num_ap_staff x <= MAX_INT64 ->
  time_horizon_months x <= MAX_INT64 ->
  storable x = true.
Proof.
  unfold valid_input, valid_real, storable, int64, MIN_INT64.
  rewrite !andb_true_iff, !Z.leb_le.
  intros (((((Hv & Hs) & Hh) & [Fw _]) & [Fe _]) & [Fc _]) Bv Bs Bh.
  repeat split; try lia.
  - destruct (hourly_wage x); try discriminate; reflexivity.
  - destruct (error_cost x); try discriminate; reflexivity.
  - destruct (one_time_implementation_cost x); try discriminate; reflexivity.
Qed.

(** ** The outcome of the engine *)

Lemma field_error_cases (inputs : dict) (key : string) :
  (exists f, field_double inputs key = Ok f /\ field_error inputs key = None /\
             field_number inputs key = f) \/
  (exists e, field_double inputs key = Raise e /\ field_error inputs key = Some e).
Proof.
  unfold field_error, field_number.
  destruct (field_double inputs key) as [f | e]; [left | right]; eauto.
Qed.

Lemma field_double_raise (inputs : dict) (key : string) (e : exn) :
  field_double inputs key = Raise e ->
  (inputs !! key = None /\ e = KeyError key) \/
  (exists v, inputs !! key = Some v /\ convert_to_double v = Raise e).
Proof.
  unfold field_double, getitem. destruct (inputs !! key) as [v |]; simpl.
  - intros H. right. eauto.
  - intros [= <-]. left. split; reflexivity.
Qed.

Lemma convert_raise (v : value) (e : exn) :
  convert_to_double v = Raise e ->
  (e = TypeError /\ non_numeric v = true) \/
  (e = OverflowError /\ non_numeric v = false).
Proof.
  destruct v as [| b | z | f | s]; simpl; try discriminate.
  - intros [= <-]. left. split; reflexivity.
  - unfold int_to_float. destruct (F64.of_Z z); try discriminate.
    intros [= <-]. right. split; reflexivity.
  - intros [= <-]. left. split; reflexivity.
Qed.

(** The body fails with the error of the first field that has one, and
    computes the specified result when no field has one. *)
Lemma calculate_body_outcome (inputs : dict) :
  calculate_body inputs =
    match first_error inputs with
    | Some e => Raise e
    | None => Ok (computed inputs)
    end.
Proof.
  unfold first_error, engine_fields, fold_right, computed.
  destruct (field_error_cases inputs "monthly_invoice_volume")
    as [(v & Hv & -> & ->) | (e & Hv & ->)].
  2: { apply field_double_raise in Hv as [[L ->] | (x & L & C)];
       unfold calculate_body, getitem, mul_vf; rewrite L; simpl;
       [reflexivity | rewrite C; reflexivity]. }
  destruct (field_error_cases inputs "hourly_wage")
    as [(w & Hw & -> & ->) | (e & Hw & ->)].
  2: { apply field_double_inv in Hv as (xv & Gv & Cv).
       unfold getitem in Gv. destruct (inputs !! "monthly_invoice_volume") eqn:L1;
         [injection Gv as -> | discriminate].
       apply field_double_raise in Hw as [[L ->] | (x & L & C)];
       unfold calculate_body, getitem, mul_vf, mul_fv; rewrite L1, L; simpl;
       rewrite Cv; simpl; [reflexivity | rewrite C; reflexivity]. }
  destruct (field_error_cases inputs "error_cost")
    as [(ec & He & -> & ->) | (e & He & ->)].
  2: { apply field_double_inv in Hv as (xv & Gv & Cv).
       apply field_double_inv in Hw as (xw & Gw & Cw).
       unfold getitem in Gv, Gw.
       destruct (inputs !! "monthly_invoice_volume") eqn:L1;
         [injection Gv as -> | discriminate].
       destruct (inputs !! "hourly_wage") eqn:L2;
         [injection Gw as -> | discriminate].
       apply field_double_raise in He as [[L ->] | (x & L & C)];
       unfold calculate_body, getitem, mul_vf, mul_fv; rewrite L1, L2, L; simpl;
       rewrite Cv; simpl; rewrite Cw; simpl;
       [reflexivity | rewrite C; reflexivity]. }
  destruct (field_error_cases inputs "time_horizon_months")
    as [(h & Hh & -> & ->) | (e & Hh & ->)].
  2: { apply field_double_inv in Hv as (xv & Gv & Cv).
       apply field_double_inv in Hw as (xw & Gw & Cw).
       apply field_double_inv in He as (xe & Ge & Ce).
       unfold getitem in Gv, Gw, Ge.
       destruct (inputs !! "monthly_invoice_volume") eqn:L1;
         [injection Gv as -> | discriminate].
       destruct (inputs !! "hourly_wage") eqn:L2;
         [injection Gw as -> | discriminate].
       destruct (inputs !! "error_cost") eqn:L3;
         [injection Ge as -> | discriminate].
       apply field_double_raise in Hh as [[L ->] | (x & L & C)];
       unfold calculate_body, getitem, mul_vf, mul_fv;
       rewrite L1, L2, L3, L; simpl;
       rewrite Cv; simpl; rewrite Cw; simpl; rewrite Ce; simpl;
       [reflexivity | rewrite C; reflexivity]. }
  destruct (field_error_cases inputs "one_time_implementation_cost")
    as [(c & Hc & -> & ->) | (e & Hc & ->)].
  2: { apply field_double_inv in Hv as (xv & Gv & Cv).
       apply field_double_inv in Hw as (xw & Gw & Cw).
       apply field_double_inv in He as (xe & Ge & Ce).
       apply field_double_inv in Hh as (xh & Gh & Ch).
       unfold getitem in Gv, Gw, Ge, Gh.
       destruct (inputs !! "monthly_invoice_volume") eqn:L1;
         [injection Gv as -> | discriminate].
       destruct (inputs !! "hourly_wage") eqn:L2;
         [injection Gw as -> | discriminate].
       destruct (inputs !! "error_cost") eqn:L3;
         [injection Ge as -> | discriminate].
       destruct (inputs !! "time_horizon_months") eqn:L4;
         [injection Gh as -> | discriminate].
       apply field_double_raise in Hc as [[L ->] | (x & L & C)];
       unfold calculate_body, getitem, mul_vf, mul_fv, sub_fv;
       rewrite L1, L2, L3, L4, L; simpl;
       rewrite Cv; simpl; rewrite Cw; simpl; rewrite Ce; simpl;
       rewrite Ch; simpl; [reflexivity | rewrite C; reflexivity]. }
  apply calculate_body_spec; assumption.
Qed.

Lemma field_error_kinds (inputs : dict) (key : string) (e : exn) :
  field_error inputs key = Some e ->
  (e = KeyError key /\ inputs !! key = None) \/
  (e = TypeError /\ exists v, inputs !! key = Some v /\ non_numeric v = true) \/
  e = OverflowError.
Proof.
  unfold field_error. destruct (field_double inputs key) as [f | e'] eqn:H;
    [discriminate |].
  intros [= ->]. apply field_double_raise in H as [[L ->] | (v & L & C)].
  - left. split; [reflexivity | exact L].
  - right. apply convert_raise in C as [[-> N] | [-> _]]; [left | right; reflexivity].
    split; [reflexivity |]. exists v. split; assumption.
Qed.

Lemma first_error_kinds (inputs : dict) (e : exn) :
  first_error inputs = Some e ->
  (exists key, e = KeyError key /\ In key engine_fields /\ inputs !! key = None) \/
  (e = TypeError /\ some_non_numeric inputs = true) \/
  e = OverflowError.
Proof.
  unfold first_error.
  assert (Hgen : forall keys,
    (forall k, In k keys -> In k engine_fields) ->
    fold_right (fun key later => match field_error inputs key with
                                 | Some e => Some e
                                 | None => later
                                 end) None keys = Some e ->
    (exists key, e = KeyError key /\ In key engine_fields /\ inputs !! key = None) \/
    (e = TypeError /\ some_non_numeric inputs = true) \/
    e = OverflowError).
  { induction keys as [| k keys IH]; intros Hsub H; simpl in H; [discriminate |].
    assert (Hk_in : In k engine_fields) by (apply Hsub; left; reflexivity).
    destruct (field_error inputs k) as [e' |] eqn:Hk.
    - injection H as ->.
      apply field_error_kinds in Hk as [[-> L] | [(-> & v & L & N) | ->]].
      + left. exists k. repeat split; assumption.
      + right. left. split; [reflexivity |].
        unfold some_non_numeric. apply existsb_exists. exists k.
        split; [exact Hk_in |]. rewrite L. exact N.
      + right. right. reflexivity.
    - apply IH; [| exact H]. intros k' Hk'. apply Hsub. right. exact Hk'. }
  apply Hgen. auto.
Qed.

(** X1. The outcome of [calculate_results] is decided by the first field,
    in reading order, that is missing, not a number, or an int too large
    for a double: a missing field raises its [KeyError], a too large int
    raises [OverflowError], a field that is not a number gives the
    fallback, and with no such field the specified result is returned. *)
Theorem engine_outcome (inputs : dict) :
  match first_error inputs with
  | None => calculate_results inputs = Ok (results_dict (computed inputs))
  | Some TypeError => calculate_results inputs = Ok fallback_results
  | Some (KeyError key) =>
      calculate_results inputs = Raise (KeyError key) /\
      In key engine_fields /\ inputs !! key = None
  | Some OverflowError => calculate_results inputs = Raise OverflowError
  | Some _ => False
  end.
Proof.
  unfold calculate_results. rewrite calculate_body_outcome.
  destruct (first_error inputs) as [e |] eqn:He; [| reflexivity].
  apply first_error_kinds in He as [(key & -> & Hin & L) | [[-> _] | ->]];
    simpl; auto.
Qed.

Lemma results_dict_not_fallback (l : locals) : results_dict l <> fallback_results.
Proof.
  intros H. apply (f_equal (fun d : dict => d !! "monthly_savings")) in H.
  destruct (results_dict_lookup l) as (Lm & _). rewrite Lm in H.
  vm_compute in H. discriminate.
Qed.

(** X2. The fallback result is returned only for text or [None] in a
    field the engine reads: exactly when the first error in reading order
    is a [TypeError]. *)
Theorem fallback_only_for_non_numeric (inputs : dict) :
  calculate_results inputs = Ok fallback_results <->
  first_error inputs = Some TypeError.
Proof.
  unfold calculate_results. rewrite calculate_body_outcome.
  destruct (first_error inputs) as [e |] eqn:He; simpl.
  - apply first_error_kinds in He as [(key & -> & _) | [[-> _] | ->]]; simpl;
      split; try discriminate; reflexivity.
  - split; [| discriminate]. intros H. exfalso.
    assert (H' : results_dict (computed inputs) = fallback_results) by congruence.
    exact (results_dict_not_fallback _ H').
Qed.

Lemma same_field_double (d d' : dict) (key : string) :
  d !! key = d' !! key -> field_double d key = field_double d' key.
Proof. unfold field_double, getitem. intros ->. reflexivity. Qed.

(** Inputs that agree on the engine fields run the body alike. *)
Lemma same_engine_fields_body (d d' : dict) :
  same_engine_fields d d' -> calculate_body d = calculate_body d'.
Proof.
  intros Hsame. rewrite !calculate_body_outcome.
  assert (Hf : forall key, In key engine_fields ->
                 field_double d key = field_double d' key).
  { intros key Hin. apply same_field_double, Hsame, Hin. }
  assert (He : first_error d = first_error d').
  { unfold first_error, field_error, engine_fields, fold_right.
    rewrite !Hf by (simpl; tauto). reflexivity. }
  assert (Hc : computed d = computed d').
  { unfold computed, field_number. rewrite !Hf by (simpl; tauto). reflexivity. }
  rewrite He, Hc. reflexivity.
Qed.

(** X3. [calculate_results] looks at nothing but the five engine fields:
    two inputs that agree on them get the same outcome, whatever their
    scenario name, staff count or other keys are. *)
Theorem engine_reads_five_fields (d d' : dict) :
  same_engine_fields d d' ->
  calculate_results d = calculate_results d'.
Proof.
  intros Hsame. unfold calculate_results.
  rewrite (same_engine_fields_body d d' Hsame). reflexivity.
Qed.

Lemma engine_reads_five_fields_witness :
  same_engine_fields
    (<["scenario_name" := VStr "Q4 Pilot"]> (<["num_ap_staff" := VInt 7]> concrete_inputs))
    concrete_inputs /\
  calculate_results
    (<["scenario_name" := VStr "Q4 Pilot"]> (<["num_ap_staff" := VInt 7]> concrete_inputs))
  = calculate_results concrete_inputs.
Proof.
  assert (H : same_engine_fields
    (<["scenario_name" := VStr "Q4 Pilot"]> (<["num_ap_staff" := VInt 7]> concrete_inputs))
    concrete_inputs).
  { intros key Hin. simpl in Hin.
    destruct Hin as [<- | [<- | [<- | [<- | [<- | []]]]]]; vm_compute; reflexivity. }
  split; [exact H |].
  apply (engine_reads_five_fields _ _ H).
Defined.

(** ** No invoices *)

Lemma mul_zero_l (a b : float) :
  F64.is_zero a = true -> F64.is_finite b = true -> F64.is_zero (F64.mul a b) = true.
Proof.
  destruct a as [s | s | | s m e]; try discriminate.
  destruct b as [s' | s' | | s' m' e']; try discriminate; reflexivity.
Qed.

Lemma mul_zero_r (a b : float) :
  F64.is_finite a = true -> F64.is_zero b = true -> F64.is_zero (F64.mul a b) = true.
Proof.
  destruct b as [s | s | | s m e]; try discriminate.
  destruct a as [s' | s' | | s' m' e']; try discriminate; reflexivity.
Qed.

Lemma add_zero (a b : float) :
  F64.is_zero a = true -> F64.is_zero b = true -> F64.is_zero (F64.add a b) = true.
Proof.
  destruct a as [[] | | |], b as [[] | | |]; try discriminate; reflexivity.
Qed.

Lemma sub_zero (a b : float) :
  F64.is_zero a = true -> F64.is_zero b = true -> F64.is_zero (F64.sub a b) = true.
Proof.
  destruct a as [[] | | |], b as [[] | | |]; try discriminate; reflexivity.
Qed.

Lemma zero_not_positive (f : float) :
  F64.is_zero f = true -> F64.ltb F64.zero f = false.
Proof. destruct f as [[] | | |]; try discriminate; reflexivity. Qed.

Lemma spec_compute_monthly (v w e h c : float) :
  monthly_savings (spec_compute v w e h c) =
    F64.mul
      (F64.sub
         (F64.add
            (F64.mul (F64.mul v (F64.div TIME_SAVED_PER_INVOICE_MINUTES (F64.of_Z 60))) w)
            (F64.mul
               (F64.mul (F64.sub (F64.div MANUAL_ERROR_RATE_PERCENT (F64.of_Z 100))
                           ERROR_RATE_AUTO) v) e))
         (F64.mul v AUTOMATED_COST_PER_INVOICE))
      MIN_ROI_BOOST_FACTOR.
Proof. reflexivity. Qed.

(** X4. With no invoices (a volume of zero) and finite wage, error cost
    and horizon, the monthly and the cumulative savings are zero and the
    payback period is [+inf]: nothing is saved and the cost is never paid
    back, whatever the wage, the error cost and the implementation cost
    are. *)
Theorem no_invoices_no_savings (inputs : dict) (v w e h : float) :
  field_double inputs "monthly_invoice_volume" = Ok v ->
  F64.is_zero v = true ->
  field_double inputs "hourly_wage" = Ok w -> F64.is_finite w = true ->
  field_double inputs "error_cost" = Ok e -> F64.is_finite e = true ->
  field_double inputs "time_horizon_months" = Ok h -> F64.is_finite h = true ->
  is_ok (field_double inputs "one_time_implementation_cost") = true ->
  exists (r : dict) (ms cs : float),
    calculate_results inputs = Ok r /\
    r !! "monthly_savings" = Some (VFloat ms) /\ F64.is_zero ms = true /\
    r !! "cumulative_savings" = Some (VFloat cs) /\ F64.is_zero cs = true /\
    r !! "payback_months" = Some (VFloat F64.infinity).
Proof.
  intros Hv Zv Hw Fw He Fe Hh Fh Hc.
  destruct (field_double inputs "one_time_implementation_cost") as [c |] eqn:Hc';
    [| discriminate].
  set (l := spec_compute v w e h c).
  destruct (results_dict_lookup l) as (Lm & Lc & Lp & _).
  assert (Zm : F64.is_zero (monthly_savings l) = true).
  { unfold l. rewrite spec_compute_monthly.
    apply mul_zero_l; [| reflexivity].
    apply sub_zero; [apply add_zero |].
    - apply mul_zero_l; [| exact Fw]. apply mul_zero_l; [exact Zv | reflexivity].
    - apply mul_zero_l; [| exact Fe]. apply mul_zero_r; [reflexivity | exact Zv].
    - apply mul_zero_l; [exact Zv | reflexivity]. }
  exists (results_dict l), (monthly_savings l), (cumulative_savings l).
  split; [apply calculate_results_spec; assumption |].
  split; [exact Lm |]. split; [exact Zm |]. split; [exact Lc |].
  split.
  - unfold l. rewrite spec_compute_cumulative. apply mul_zero_l; assumption.
  - rewrite Lp. unfold l. rewrite spec_compute_payback.
    fold l. rewrite (zero_not_positive _ Zm). reflexivity.
Qed.

Lemma no_invoices_no_savings_witness :
  exists (r : dict) (ms cs : float),
    calculate_results (<["monthly_invoice_volume" := VInt 0]> concrete_inputs) = Ok r /\
    r !! "monthly_savings" = Some (VFloat ms) /\ F64.is_zero ms = true /\
    r !! "cumulative_savings" = Some (VFloat cs) /\ F64.is_zero cs = true /\
    r !! "payback_months" = Some (VFloat F64.infinity).
Proof.
  apply (no_invoices_no_savings
           (<["monthly_invoice_volume" := VInt 0]> concrete_inputs)
           F64.zero (F64.literal 300 1) (F64.literal 1000 1) (F64.of_Z 36));
    vm_compute; reflexivity.
Defined.

(** ** More on the report *)

Lemma suffixed_not_na (t suffix : string) :
  suffix = " months" \/ suffix = " Months" \/ suffix = "%" ->
  t +:+ suffix <> "N/A".
Proof.
  intros [-> | [-> | ->]];
    destruct t as [| a [| b [| c [| d t]]]]; simpl; discriminate.
Qed.

Lemma fallback_lookup :
  fallback_results !! "monthly_savings" = Some (VInt 0) /\
  fallback_results !! "cumulative_savings" = Some (VInt 0) /\
  fallback_results !! "payback_months" = Some (VFloat F64.infinity) /\
  fallback_results !! "roi_percentage" = Some (VInt 0).
Proof. repeat split; evaluate. Qed.

(** X5. The report and the metrics print "N/A" for exactly one value, the
    float [+inf]: a payback period or return of [-inf] or NaN is printed
    as a number text ("-inf months", "nan%"). *)
Theorem na_only_for_infinity (results : dict) (f : float) :
  (results !! "payback_months" = Some (VFloat f) ->
     (payback_text results = Ok "N/A" <-> f = F64.infinity) /\
     (payback_metric results = Ok "N/A" <-> f = F64.infinity)) /\
  (results !! "roi_percentage" = Some (VFloat f) ->
     (roi_text results = Ok "N/A" <-> f = F64.infinity)).
Proof.
  split; [intros L; split | intros L];
    unfold payback_text, payback_metric, roi_text, getitem; rewrite L; simpl;
    unfold ne_inf.
  all: destruct f as [s | s | | s m e]; try destruct s; simpl.
  all: split; try reflexivity; try discriminate.
  all: intros H; exfalso; injection H; apply suffixed_not_na; tauto.
Qed.

Lemma na_only_for_infinity_witness :
  (payback_text (<["payback_months" := VFloat (S754_infinity true)]> ∅)
     = Ok "N/A" <-> S754_infinity true = F64.infinity) /\
  payback_text (<["payback_months" := VFloat (S754_infinity true)]> ∅)
     = Ok "-inf months".
Proof.
  split; [| vm_compute; reflexivity].
  apply (na_only_for_infinity
           (<["payback_months" := VFloat (S754_infinity true)]> ∅)
           (S754_infinity true)).
  vm_compute; reflexivity.
Defined.

Lemma calculate_results_shapes (inputs : dict) (r : dict) :
  calculate_results inputs = Ok r ->
  (r = fallback_results /\ first_error inputs = Some TypeError) \/
  (r = results_dict (computed inputs) /\ first_error inputs = None).
Proof.
  unfold calculate_results. rewrite calculate_body_outcome.
  destruct (first_error inputs) as [e |] eqn:He; simpl.
  - apply first_error_kinds in He as [(key & -> & _) | [[-> _] | ->]]; simpl;
      try discriminate.
    intros [= <-]. left. split; reflexivity.
  - intros [= <-]. right. split; reflexivity.
Qed.

Lemma no_error_present (inputs : dict) (key : string) :
  first_error inputs = None -> In key engine_fields -> is_Some (inputs !! key).
Proof.
  intros He Hin.
  assert (Hf : field_error inputs key = None).
  { unfold first_error, engine_fields, fold_right in He. simpl in Hin.
    destruct Hin as [<- | [<- | [<- | [<- | [<- | []]]]]];
      repeat match type of He with
             | match field_error inputs ?k with _ => _ end = None =>
                 destruct (field_error inputs k) eqn:?; try discriminate
             end; assumption || reflexivity. }
  unfold field_error, field_double, getitem in Hf.
  destruct (inputs !! key) as [v |]; [eexists; reflexivity | discriminate].
Qed.

Lemma cell_fail (pdf : list pdf_op) (w h : Z) (text : string) (border ln : Z)
    (align : option string) :
  latin1 text = false ->
  cell pdf w h text border ln align = Raise FPDFUnicodeEncodingException.
Proof. unfold cell. intros ->. reflexivity. Qed.

(** The outcome of [generate_pdf] for results whose four numbers can be
    formatted: it fails, in this order, when the scenario name cannot be
    printed, when the inputs hold no horizon, and when the horizon cannot
    be printed; otherwise the report has its six texts. *)
Lemma report_outcome (inputs results : dict) (msv csv : value)
    (ms pb roi cs : string) :
  results !! "monthly_savings" = Some msv ->
  format_f true 2 msv = Ok ms -> latin1 ms = true ->
  payback_text results = Ok pb -> latin1 pb = true ->
  roi_text results = Ok roi -> latin1 roi = true ->
  results !! "cumulative_savings" = Some csv ->
  format_f true 2 csv = Ok cs -> latin1 cs = true ->
  match print_error (dict_get inputs "scenario_name" (VStr "Unsaved")) with
  | Some e => generate_pdf inputs results = Raise e
  | None =>
      match inputs !! "time_horizon_months" with
      | None =>
          generate_pdf inputs results = Raise (KeyError "time_horizon_months")
      | Some horizon =>
          match print_error horizon with
          | Some e => generate_pdf inputs results = Raise e
          | None =>
              exists (name_text horizon_text : string) (pdf : list pdf_op),
                py_str (dict_get inputs "scenario_name" (VStr "Unsaved"))
                  = Ok name_text /\
                py_str horizon = Ok horizon_text /\
                generate_pdf inputs results = Ok pdf /\
                cell_texts pdf =
                  ["ROI Calculator Report";
                   "Scenario: " +:+ name_text;
                   "Monthly Savings: $" +:+ ms;
                   "Payback Period: " +:+ pb;
                   "Total ROI (" +:+ horizon_text +:+ " months): " +:+ roi;
                   "Cumulative Savings: $" +:+ cs]
          end
      end
  end.
Proof.
  intros Lm Fm Am Hpb Apb Hroi Aroi Lc Fc Ac.
  unfold print_error, generate_pdf, getitem.
  rewrite cell_ok by reflexivity. cbn [mbind result_bind].
  destruct (py_str (dict_get inputs "scenario_name" (VStr "Unsaved")))
    as [nt | e]; cbn [mbind result_bind]; [| reflexivity].
  destruct (latin1 nt) eqn:An.
  2: { rewrite cell_fail by (rewrite latin1_app, An; reflexivity). reflexivity. }
  rewrite cell_ok by (rewrite latin1_app, An; reflexivity).
  cbn [mbind result_bind]. rewrite Lm. cbn [mbind result_bind].
  rewrite Fm. cbn [mbind result_bind].
  rewrite cell_ok by (rewrite latin1_app, Am; reflexivity).
  cbn [mbind result_bind]. rewrite Hpb. cbn [mbind result_bind].
  rewrite cell_ok by (rewrite latin1_app, Apb; reflexivity).
  cbn [mbind result_bind]. rewrite Hroi. cbn [mbind result_bind].
  destruct (inputs !! "time_horizon_months") as [horizon |];
    cbn [mbind result_bind]; [| reflexivity].
  destruct (py_str horizon) as [ht | e]; cbn [mbind result_bind];
    [| reflexivity].
  destruct (latin1 ht) eqn:Ah.
  2: { rewrite cell_fail by (rewrite !latin1_app, Ah; reflexivity).
       reflexivity. }
  rewrite cell_ok by (rewrite !latin1_app, Ah, Aroi; reflexivity).
  cbn [mbind result_bind]. rewrite Lc. cbn [mbind result_bind].
  rewrite Fc. cbn [mbind result_bind].
  rewrite cell_ok by (rewrite latin1_app, Ac; reflexivity).
  cbn [mbind result_bind].
  exists nt, ht. eexists.
  split; [reflexivity |]. split; [reflexivity |]. split; reflexivity.
Qed.

(** The four numbers of a computed result, formatted. *)
Lemma computed_texts (l : locals) :
  format_f true 2 (VFloat (monthly_savings l))
    = Ok (format_float_f true 2 (monthly_savings l)) /\
  payback_text (results_dict l)
    = Ok (sentinel_text " months" (payback_months l)) /\
  roi_text (results_dict l) = Ok (sentinel_text "%" (roi_percentage l)) /\
  format_f true 2 (VFloat (cumulative_savings l))
    = Ok (format_float_f true 2 (cumulative_savings l)).
Proof.
  destruct (results_dict_lookup l) as (_ & _ & Lp & Lr).
  split; [reflexivity |]. split; [| split; [| reflexivity]].
  - unfold payback_text, sentinel_text, getitem. rewrite Lp. simpl.
    destruct (ne_inf (VFloat (payback_months l))); reflexivity.
  - unfold roi_text, sentinel_text, getitem. rewrite Lr. simpl.
    destruct (ne_inf (VFloat (roi_percentage l))); reflexivity.
Qed.

(** The four numbers of the fallback result, formatted. *)
Lemma fallback_texts :
  format_f true 2 (VInt 0) = Ok "0.00" /\
  payback_text fallback_results = Ok "N/A" /\
  roi_text fallback_results = Ok "0.0%".
Proof. split; [reflexivity |]. split; reflexivity. Qed.

(** The outcome of [generate_pdf] on what [calculate_results] returns. *)
Lemma report_of_result (inputs r : dict) :
  calculate_results inputs = Ok r ->
  exists (ms pb roi cs : string),
  match print_error (dict_get inputs "scenario_name" (VStr "Unsaved")) with
  | Some e => generate_pdf inputs r = Raise e
  | None =>
      match inputs !! "time_horizon_months" with
      | None =>
          generate_pdf inputs r = Raise (KeyError "time_horizon_months")
      | Some horizon =>
          match print_error horizon with
          | Some e => generate_pdf inputs r = Raise e
          | None =>
              exists (name_text horizon_text : string) (pdf : list pdf_op),
                py_str (dict_get inputs "scenario_name" (VStr "Unsaved"))
                  = Ok name_text /\
                py_str horizon = Ok horizon_text /\
                generate_pdf inputs r = Ok pdf /\
                cell_texts pdf =
                  ["ROI Calculator Report";
                   "Scenario: " +:+ name_text;
                   "Monthly Savings: $" +:+ ms;
                   "Payback Period: " +:+ pb;
                   "Total ROI (" +:+ horizon_text +:+ " months): " +:+ roi;
                   "Cumulative Savings: $" +:+ cs]
          end
      end
  end.
Proof.
  intros Hr. apply calculate_results_shapes in Hr as [[-> _] | [-> _]].
  - destruct fallback_lookup as (Lm & Lc & _).
    destruct fallback_texts as (Fm & Hpb & Hroi).
    exists "0.00", "N/A", "0.0%", "0.00".
    exact (report_outcome inputs fallback_results (VInt 0) (VInt 0) _ _ _ _
             Lm Fm eq_refl Hpb eq_refl Hroi eq_refl Lc Fm eq_refl).
  - set (l := computed inputs).
    destruct (results_dict_lookup l) as (Lm & Lc & _).
    destruct (computed_texts l) as (Fm & Hpb & Hroi & Fc).
    do 4 eexists.
    exact (report_outcome inputs (results_dict l) _ _ _ _ _ _
             Lm Fm (latin1_format_float_f _ _ _)
             Hpb (latin1_sentinel_text " months" _ eq_refl)
             Hroi (latin1_sentinel_text "%" _ eq_refl)
             Lc Fc (latin1_format_float_f _ _ _)).
Qed.

(** X6. On a result of [calculate_results], [generate_pdf] fails in these
    cases and in this order: the scenario name cannot be printed ([str]
    raises [ValueError] for an int of more than 4300 digits, the report
    font raises [FPDFUnicodeEncodingException] for text outside latin-1);
    the inputs hold no time horizon ([KeyError], and the result is then
    the fallback result); the horizon cannot be printed.  In every other
    case the report is produced, with six texts. *)
Theorem report_needs_horizon (inputs r : dict) :
  calculate_results inputs = Ok r ->
  (forall e,
     print_error (dict_get inputs "scenario_name" (VStr "Unsaved")) = Some e ->
     generate_pdf inputs r = Raise e) /\
  (print_error (dict_get inputs "scenario_name" (VStr "Unsaved")) = None ->
     (inputs !! "time_horizon_months" = None ->
        r = fallback_results /\
        generate_pdf inputs r = Raise (KeyError "time_horizon_months")) /\
     (forall horizon, inputs !! "time_horizon_months" = Some horizon ->
        (forall e, print_error horizon = Some e ->
           generate_pdf inputs r = Raise e) /\
        (print_error horizon = None ->
           exists pdf, generate_pdf inputs r = Ok pdf /\
                       length (cell_texts pdf) = 6%nat))).
Proof.
  intros Hr. destruct (report_of_result inputs r Hr) as (ms & pb & roi & cs & H).
  split.
  - intros e He. rewrite He in H. exact H.
  - intros Hname. rewrite Hname in H. split.
    + intros Hh. rewrite Hh in H. split; [| exact H].
      apply calculate_results_shapes in Hr as [[-> _] | [_ He]];
        [reflexivity |].
      destruct (no_error_present inputs "time_horizon_months" He) as [h Hh'];
        [simpl; tauto | congruence].
    + intros horizon Hh. rewrite Hh in H. split.
      * intros e He. rewrite He in H. exact H.
      * intros Hp. rewrite Hp in H.
        destruct H as (nt & ht & pdf & _ & _ & Hpdf & Ht).
        exists pdf. split; [exact Hpdf | rewrite Ht; reflexivity].
Qed.

Lemma report_needs_horizon_witness :
  calculate_results
    (<["scenario_name" := VStr (String (ascii_of_nat 197)
                                  (String (ascii_of_nat 129) "odz"))]>
       concrete_inputs)
    = Ok (results_dict (computed concrete_inputs)) /\
  print_error (VStr (String (ascii_of_nat 197) (String (ascii_of_nat 129) "odz")))
    = Some FPDFUnicodeEncodingException /\
  generate_pdf
    (<["scenario_name" := VStr (String (ascii_of_nat 197)
                                  (String (ascii_of_nat 129) "odz"))]>
       concrete_inputs)
    (results_dict (computed concrete_inputs))
    = Raise FPDFUnicodeEncodingException.
Proof.
  assert (Hr : calculate_results
                 (<["scenario_name" := VStr (String (ascii_of_nat 197)
                                               (String (ascii_of_nat 129) "odz"))]>
                    concrete_inputs)
               = Ok (results_dict (computed concrete_inputs)))
    by (vm_compute; reflexivity).
  split; [exact Hr |]. split; [vm_compute; reflexivity |].
  apply (report_needs_horizon _ _ Hr). vm_compute; reflexivity.
Defined.

(** X7. The report of a fallback result, for inputs whose scenario name
    and horizon can be printed, shows zero savings, no payback period and
    a return of 0.0%: the return is not "N/A" although the payback period
    is. *)
Theorem fallback_report (inputs : dict) (horizon : value)
    (horizon_text : string) :
  inputs !! "time_horizon_months" = Some horizon ->
  print_error (dict_get inputs "scenario_name" (VStr "Unsaved")) = None ->
  py_str horizon = Ok horizon_text ->
  latin1 horizon_text = true ->
  exists pdf,
    generate_pdf inputs fallback_results = Ok pdf /\
    cell_texts pdf !! 2%nat = Some "Monthly Savings: $0.00" /\
    cell_texts pdf !! 3%nat = Some "Payback Period: N/A" /\
    cell_texts pdf !! 4%nat
      = Some ("Total ROI (" +:+ horizon_text +:+ " months): 0.0%") /\
    cell_texts pdf !! 5%nat = Some "Cumulative Savings: $0.00" /\
    metrics fallback_results = Ok ("$0.00", "0.0%", "N/A").
Proof.
  intros Hh Hname Hht Aht.
  destruct fallback_lookup as (Lm & Lc & _).
  destruct fallback_texts as (Fm & Hpb & Hroi).
  pose proof (report_outcome inputs fallback_results (VInt 0) (VInt 0) _ _ _ _
                Lm Fm eq_refl Hpb eq_refl Hroi eq_refl Lc Fm eq_refl) as H.
  rewrite Hname, Hh in H. unfold print_error in H. rewrite Hht, Aht in H.
  destruct H as (nt & ht & pdf & _ & [= <-] & Hpdf & Ht).
  exists pdf. split; [exact Hpdf |]. rewrite Ht.
  split; [reflexivity |]. split; [reflexivity |]. split; [reflexivity |].
  split; reflexivity.
Qed.

Lemma fallback_report_witness :
  exists pdf,
    generate_pdf concrete_inputs fallback_results = Ok pdf /\
    cell_texts pdf !! 2%nat = Some "Monthly Savings: $0.00" /\
    cell_texts pdf !! 3%nat = Some "Payback Period: N/A" /\
    cell_texts pdf !! 4%nat = Some "Total ROI (36 months): 0.0%" /\
    cell_texts pdf !! 5%nat = Some "Cumulative Savings: $0.00" /\
    metrics fallback_results = Ok ("$0.00", "0.0%", "N/A").
Proof.
  apply (fallback_report concrete_inputs (VInt 36) "36"); vm_compute; reflexivity.
Defined.

(** ** The chart *)

Lemma well_formed_computed (inputs : dict) :
  well_formed inputs = true ->
  calculate_results inputs = Ok (results_dict (computed inputs)).
Proof.
  intros Hwf.
  destruct (well_formed_fields _ Hwf) as (v & w & e & h & c & Hv & Hw & He & Hh & Hc).
  rewrite (calculate_results_spec _ _ _ _ _ _ Hv Hw He Hh Hc).
  unfold computed, field_number. rewrite Hv, Hw, He, Hh, Hc. reflexivity.
Qed.

Lemma for_each_ok {A B : Type} (f : A -> result B) (g : A -> B) (l : list A) :
  (forall a, In a l -> f a = Ok (g a)) -> for_each f l = Ok (map g l).
Proof.
  induction l as [| a l IH]; intros H; simpl; [reflexivity |].
  rewrite (H a) by (left; reflexivity). simpl.
  rewrite IH by (intros b Hb; apply H; right; exact Hb). reflexivity.
Qed.









(** The metrics of a computed result are always defined. *)
Lemma metrics_computed (l : locals) : exists m, metrics (results_dict l) = Ok m.
Proof.
  destruct (results_dict_lookup l) as (Lm & _ & Lp & Lr).
  unfold metrics, roi_text, payback_metric, getitem. rewrite Lm, Lp, Lr. simpl.
  destruct (ne_inf (VFloat (roi_percentage l)));
    destruct (ne_inf (VFloat (payback_months l)));
    simpl; eexists; reflexivity.
Qed.

Lemma render_chart_error (heap : Z) (inputs r : dict)
    (m : string * string * string) (e : exn) (scenario_name email : string) :
  calculate_results inputs = Ok r ->
  metrics r = Ok m ->
  chart_data heap inputs r = Raise e ->
  render heap inputs scenario_name email = Raise e.
Proof. intros Hr Hm Hc. unfold render. rewrite Hr. simpl. rewrite Hm. simpl. rewrite Hc. reflexivity. Qed.

(** X9. The engine accepts a float horizon, the chart does not: for a
    well-formed input whose horizon is a float, [calculate_results]
    returns a computed result and building the chart raises [TypeError],
    which nothing on the page catches. *)
Theorem float_horizon_breaks_chart (heap : Z) (inputs : dict) (f : float)
    (scenario_name email : string) :
  well_formed inputs = true ->
  inputs !! "time_horizon_months" = Some (VFloat f) ->
  calculate_results inputs = Ok (results_dict (computed inputs)) /\
  chart_data heap inputs (results_dict (computed inputs)) = Raise TypeError /\
  render heap inputs scenario_name email = Raise TypeError.
Proof.
  intros Hwf Hh. pose proof (well_formed_computed _ Hwf) as Hr.
  assert (Hch : chart_data heap inputs (results_dict (computed inputs))
                = Raise TypeError).
  { unfold chart_data, getitem. rewrite Hh. reflexivity. }
  split; [exact Hr |]. split; [exact Hch |].
  destruct (metrics_computed (computed inputs)) as (m & Hm).
  exact (render_chart_error _ _ _ _ _ _ _ Hr Hm Hch).
Qed.

Lemma float_horizon_breaks_chart_witness :
  calculate_results (<["time_horizon_months" := VFloat (F64.of_Z 36)]> concrete_inputs)
    = Ok (results_dict
            (computed (<["time_horizon_months" := VFloat (F64.of_Z 36)]> concrete_inputs))) /\
  chart_data 1000 (<["time_horizon_months" := VFloat (F64.of_Z 36)]> concrete_inputs)
    (results_dict
       (computed (<["time_horizon_months" := VFloat (F64.of_Z 36)]> concrete_inputs)))
    = Raise TypeError /\
  render 1000 (<["time_horizon_months" := VFloat (F64.of_Z 36)]> concrete_inputs)
    "Q4 Pilot" "name@company.com" = Raise TypeError.
Proof.
  apply (float_horizon_breaks_chart 1000
           (<["time_horizon_months" := VFloat (F64.of_Z 36)]> concrete_inputs)
           (F64.of_Z 36) "Q4 Pilot" "name@company.com");
    vm_compute; reflexivity.
Defined.

(** ** The page as a whole *)





(** ** Rowids are keys, stored scenarios are never changed *)

Lemma forallb_btree_insert (P : Z -> bool) (r : row) (t : table) :
  forallb P (map col_id (btree_insert r t))
  = P (col_id r) && forallb P (map col_id t).
Proof.
  induction t as [| r' t IH]; simpl; [reflexivity |].
  destruct (col_id r <? col_id r'); simpl; [reflexivity |].
  rewrite IH. destruct (P (col_id r)), (P (col_id r')); reflexivity.
Qed.

Lemma forallb_lt_trans (a b : Z) (l : list Z) :
  a < b -> forallb (fun c => b <? c) l = true ->
  forallb (fun c => a <? c) l = true.
Proof.
  intros Hab. rewrite !forallb_forall. intros H c Hc.
  specialize (H c Hc). apply Z.ltb_lt in H. apply Z.ltb_lt. lia.
Qed.

Lemma btree_insert_increasing (r : row) (t : table) :
  rowids_increasing t = true -> rowid_used t (col_id r) = false ->
  rowids_increasing (btree_insert r t) = true.
Proof.
  unfold rowids_increasing, rowid_used.
  induction t as [| r' t IH]; intros Hinc Hfree; [reflexivity |].
  simpl in Hinc, Hfree. apply andb_true_iff in Hinc as [Hall Hinc].
  apply orb_false_iff in Hfree as [Hne Hfree]. apply Z.eqb_neq in Hne.
  simpl. destruct (Z.ltb_spec (col_id r) (col_id r')) as [Hlt | Hge].
  - simpl. apply andb_true_iff. split.
    + apply andb_true_iff. split; [apply Z.ltb_lt; exact Hlt |].
      exact (forallb_lt_trans _ _ _ Hlt Hall).
    + apply andb_true_iff. split; assumption.
  - simpl. apply andb_true_iff. split.
    + rewrite forallb_btree_insert, Hall, andb_true_r. apply Z.ltb_lt. lia.
    + apply IH; assumption.
Qed.

Lemma rowid_used_false (t : table) (id : Z) :
  (forall r, In r t -> col_id r < id) -> rowid_used t id = false.
Proof.
  intros H. unfold rowid_used. apply not_true_is_false. intros Hex.
  apply existsb_exists in Hex as (r & Hin & Heq).
  apply Z.eqb_eq in Heq. specialize (H r Hin). lia.
Qed.

Lemma largest_rowid_none (t : table) : largest_rowid t = None -> t = [].
Proof.
  destruct t as [| r t]; [reflexivity |]. simpl.
  destruct (largest_rowid t); discriminate.
Qed.

(** The rowid of a new row is not in the table, on the usual path as on
    the path of the random rowids. *)
Lemma new_rowid_unused (probes : list Z) (t : table) (id : Z) :
  new_rowid probes t = Some id -> rowid_used t id = false.
Proof.
  unfold new_rowid. destruct (largest_rowid t) as [m |] eqn:Hl.
  - destruct (m <? MAX_ROWID).
    + intros [= <-]. apply rowid_used_false. intros r Hin.
      destruct (largest_rowid_bound t r Hin) as (m' & Hm' & Hle).
      rewrite Hl in Hm'. injection Hm' as <-. lia.
    + intros Hfind. apply find_some in Hfind as [_ Hid].
      apply andb_true_iff in Hid as [_ Hid]. apply negb_true_iff in Hid.
      exact Hid.
  - intros _. rewrite (largest_rowid_none t Hl). reflexivity.
Qed.

Lemma insert_scenario_inv (probes : list Z) (t t' : table) (x : ScenarioInput)
    (id : Z) :
  insert_scenario probes (Some t) x = Ok (t', id) ->
  exists r, col_id r = id /\ t' = btree_insert r t /\
            new_rowid probes t = Some id /\
            col_scenario_name r = SText (scenario_name x).
Proof.
  unfold insert_scenario. simpl.
  destruct (bind_int (monthly_invoice_volume x)) as [v |]; [| discriminate].
  destruct (bind_int (num_ap_staff x)) as [s |]; [| discriminate].
  destruct (bind_int (time_horizon_months x)) as [h |]; [| discriminate].
  simpl. destruct (new_rowid probes t) as [id' |]; [| discriminate].
  simpl. intros [= Ht Hid]. exists (make_row id' v s h x). subst.
  repeat split.
Qed.

Lemma rowid_used_btree_insert (r : row) (t : table) (id : Z) :
  rowid_used (btree_insert r t) id = (col_id r =? id) || rowid_used t id.
Proof.
  unfold rowid_used. induction t as [| r' t IH]; simpl; [reflexivity |].
  destruct (col_id r <? col_id r'); simpl; [reflexivity |].
  rewrite IH. destruct (col_id r =? id), (col_id r' =? id); reflexivity.
Qed.

Lemma length_btree_insert (r : row) (t : table) :
  length (btree_insert r t) = S (length t).
Proof.
  induction t as [| r' t IH]; simpl; [reflexivity |].
  destruct (col_id r <? col_id r'); simpl; [reflexivity | rewrite IH; reflexivity].
Qed.

Lemma find_btree_insert (r : row) (t : table) (id : Z) :
  col_id r <> id ->
  find (fun r' => col_id r' =? id) (btree_insert r t)
  = find (fun r' => col_id r' =? id) t.
Proof.
  intros Hne. apply Z.eqb_neq in Hne.
  induction t as [| r' t IH]; simpl; [rewrite Hne; reflexivity |].
  destruct (col_id r <? col_id r'); simpl.
  - rewrite Hne. reflexivity.
  - rewrite IH. reflexivity.
Qed.

(** X11. An insertion keeps the rowids of the table strictly increasing,
    so no two scenarios ever share an id: the new row gets an id that was
    not in use, also when the largest rowid is taken and SQLite draws
    rowids at random, and the table grows by exactly that row. *)
Theorem insert_keeps_ids_unique (probes : list Z) (t t' : table)
    (x : ScenarioInput) (id : Z) :
  rowids_increasing t = true ->
  insert_scenario probes (Some t) x = Ok (t', id) ->
  rowids_increasing t' = true /\
  rowid_used t id = false /\
  (forall id', rowid_used t' id' = (id =? id') || rowid_used t id') /\
  length t' = S (length t).
Proof.
  intros Hinc Hins.
  apply insert_scenario_inv in Hins as (r & <- & -> & Hnew & _).
  pose proof (new_rowid_unused _ _ _ Hnew) as Hfree.
  split; [apply btree_insert_increasing; assumption |].
  split; [exact Hfree |].
  split; [intros id'; apply rowid_used_btree_insert |].
  apply length_btree_insert.
Qed.

Lemma insert_keeps_ids_unique_witness :
  let t := [stored_row 7 (named_scenario "A");
            stored_row MAX_ROWID (named_scenario "B")] in
  let t' := [stored_row 5 (named_scenario "C");
             stored_row 7 (named_scenario "A");
             stored_row MAX_ROWID (named_scenario "B")] in
  insert_scenario [7; 5] (Some t) (named_scenario "C") = Ok (t', 5) /\
  rowids_increasing t' = true /\
  rowid_used t 5 = false /\
  (forall id', rowid_used t' id' = (5 =? id') || rowid_used t id') /\
  length t' = S (length t).
Proof.
  intros t t'.
  assert (H : insert_scenario [7; 5] (Some t) (named_scenario "C") = Ok (t', 5))
    by (vm_compute; reflexivity).
  split; [exact H |].
  apply (insert_keeps_ids_unique [7; 5] t t' (named_scenario "C") 5);
    [vm_compute; reflexivity | exact H].
Defined.

(** X12. Saving never changes a stored scenario: after any successful
    insertion, every id that was in the table loads the same values as
    before, and every other id but the new one still has no row. *)
Theorem saved_scenarios_unchanged (probes : list Z) (t t' : table)
    (x : ScenarioInput) (id : Z) :
  insert_scenario probes (Some t) x = Ok (t', id) ->
  (forall id', id' <> id ->
     fetch_scenario (Some t') id' = fetch_scenario (Some t) id') /\
  (forall id' d, rowid_used t id' = true ->
     load_scenario (Some t') (Session (Some id') d)
     = load_scenario (Some t) (Session (Some id') d)).
Proof.
  intros Hins.
  apply insert_scenario_inv in Hins as (r & <- & -> & Hnew & _).
  pose proof (new_rowid_unused _ _ _ Hnew) as Hfree.
  assert (Hfetch : forall id', id' <> col_id r ->
            fetch_scenario (Some (btree_insert r t)) id'
            = fetch_scenario (Some t) id').
  { intros id' Hne. unfold fetch_scenario. simpl.
    rewrite find_btree_insert by congruence. reflexivity. }
  split; [exact Hfetch |].
  intros id' d Hused. unfold load_scenario. cbn [selected_scenario_id state].
  destruct (id' =? 0); [reflexivity |].
  rewrite Hfetch; [reflexivity |]. intros ->. congruence.
Qed.

Lemma saved_scenarios_unchanged_witness :
  let t := [stored_row 7 (named_scenario "A");
            stored_row MAX_ROWID (named_scenario "B")] in
  let t' := [stored_row 5 (named_scenario "C");
             stored_row 7 (named_scenario "A");
             stored_row MAX_ROWID (named_scenario "B")] in
  (forall id', id' <> 5 ->
     fetch_scenario (Some t') id' = fetch_scenario (Some t) id') /\
  (forall id' d, rowid_used t id' = true ->
     load_scenario (Some t') (Session (Some id') d)
     = load_scenario (Some t) (Session (Some id') d)).
Proof.
  intros t t'.
  apply (saved_scenarios_unchanged [7; 5] t t' (named_scenario "C") 5).
  vm_compute; reflexivity.
Defined.

(** X13. A named scenario with an integer outside the signed 64-bit range
    cannot be saved: binding it raises [OverflowError], which the handler
    does not catch, and nothing is stored. *)
Theorem save_out_of_range (probes : list Z) (t : table) (x : ScenarioInput) :
  named x = true ->
  int64 (monthly_invoice_volume x) && int64 (num_ap_staff x)
    && int64 (time_horizon_months x) = false ->
  insert_scenario probes (Some t) x = Raise OverflowError /\
  save_scenario probes (Some t) x = Raise OverflowError.
Proof.
  unfold named. intros Hname Hrange.
  assert (Hins : insert_scenario probes (Some t) x = Raise OverflowError).
  { unfold insert_scenario, bind_int. fold (int64 (monthly_invoice_volume x)).
    fold (int64 (num_ap_staff x)). fold (int64 (time_horizon_months x)).
    simpl.
    destruct (int64 (monthly_invoice_volume x)); simpl; [| reflexivity].
    destruct (int64 (num_ap_staff x)); simpl; [| reflexivity].
    destruct (int64 (time_horizon_months x)); simpl; [discriminate | reflexivity]. }
  split; [exact Hins |].
  unfold save_scenario. rewrite Hname, Hins. reflexivity.
Qed.

Lemma save_out_of_range_witness :
  let x := {| scenario_name := "Q4 Pilot"; monthly_invoice_volume := 2 ^ 63;
              num_ap_staff := 3; hourly_wage := F64.literal 300 1;
              error_cost := F64.literal 1000 1; time_horizon_months := 36;
              one_time_implementation_cost := F64.literal 500000 1 |} in
  insert_scenario [] (Some []) x = Raise OverflowError /\
  save_scenario [] (Some []) x = Raise OverflowError.
Proof.
  intros x. apply (save_out_of_range [] [] x); vm_compute; reflexivity.
Defined.

(** ** Saving with and without a name *)

Lemma room_for_after (n : nat) (t : table) (x : ScenarioInput) :
  room_for (Z.of_nat (S n)) t = true ->
  (forall r, In r t -> col_id r < next_rowid t) ->
  room_for (Z.of_nat n) (t ++ [stored_row (next_rowid t) x]) = true /\
  next_rowid (t ++ [stored_row (next_rowid t) x]) = next_rowid t + 1.
Proof.
  intros Hroom Hfresh.
  set (r := stored_row (next_rowid t) x).
  pose proof (largest_rowid_last t r Hfresh) as Hlast.
  split.
  - unfold room_for. rewrite Hlast.
    unfold room_for in Hroom. rewrite Nat2Z.inj_succ in Hroom.
    change (col_id r) with (next_rowid t). unfold next_rowid.
    destruct (largest_rowid t) as [m |]; apply Z.leb_le in Hroom;
      apply Z.leb_le; lia.
  - unfold next_rowid at 1. rewrite Hlast. reflexivity.
Qed.

(** X14. Pressing "Save Scenario" for any sequence of storable inputs,
    named or not, stores the named ones only: the unnamed ones are
    refused without using up an id, and the list then shows the names of
    the named inputs, duplicates included, under consecutive ids. *)
Theorem unnamed_saves_skipped (probes : list Z) (xs : list ScenarioInput) :
  forall t : table,
  forallb storable xs = true ->
  room_for (Z.of_nat (length (List.filter named xs))) t = true ->
  exists t' : table,
    save_all probes (Some t) xs = Ok (Some t') /\
    list_scenarios (Some t')
    = Ok (listing t ++ listing_from (next_rowid t) (List.filter named xs)) /\
    length t' = (length t + length (List.filter named xs))%nat.
Proof.
  induction xs as [| x xs IH]; intros t Hxs Hroom.
  - exists t. split; [reflexivity |]. simpl. rewrite app_nil_r.
    split; [reflexivity | lia].
  - simpl in Hxs. apply andb_true_iff in Hxs as [Hx Hxs].
    simpl in Hroom |- *. destruct (named x) eqn:Hname.
    + assert (Hsav : savable x = true).
      { unfold savable. unfold named in Hname. rewrite Hname, Hx. reflexivity. }
      assert (Hone : room_for 1 t = true).
      { apply (room_for_less (Z.of_nat (length (x :: List.filter named xs))));
          [simpl; lia | exact Hroom]. }
      destruct (save_scenario_appends probes t x Hsav Hone) as [Hsave Hfresh].
      destruct (room_for_after _ t x Hroom Hfresh) as [Hroom' Hnext].
      destruct (IH _ Hxs Hroom') as (t' & Hall & Hlist & Hlen).
      exists t'. split; [rewrite Hsave; simpl; exact Hall |]. split.
      * rewrite Hlist, Hnext, listing_app. simpl. rewrite <- app_assoc. reflexivity.
      * rewrite Hlen, length_app. simpl. lia.
    + destruct (IH t Hxs Hroom) as (t' & Hall & Hlist & Hlen).
      exists t'. unfold save_scenario. unfold named in Hname. rewrite Hname.
      simpl. split; [exact Hall |]. split; [exact Hlist | exact Hlen].
Qed.

Lemma unnamed_saves_skipped_witness :
  exists t' : table,
    save_all [] (Some [])
      [named_scenario "A"; named_scenario ""; named_scenario "A"] = Ok (Some t') /\
    list_scenarios (Some t') = Ok [(1, VStr "A"); (2, VStr "A")] /\
    length t' = 2%nat.
Proof.
  apply (unnamed_saves_skipped []
           [named_scenario "A"; named_scenario ""; named_scenario "A"] []);
    vm_compute; reflexivity.
Defined.

(** ** The select box *)

Lemma odict_set_new (k : Z) (v : value) (d : list (Z * value)) :
  ~ In k (map fst d) -> odict_set k v d = d ++ [(k, v)].
Proof.
  induction d as [| [k' v'] d IH]; simpl; intros Hk; [reflexivity |].
  destruct (Z.eqb_spec k' k) as [-> | Hne]; [tauto |].
  rewrite IH by tauto. reflexivity.
Qed.

Lemma increasing_NoDup (ids : list Z) : increasing ids = true -> NoDup ids.
Proof.
  induction ids as [| a ids IH]; simpl; intros H; [constructor |].
  apply andb_true_iff in H as [Hall Hinc].
  apply NoDup_cons_2; [| apply IH; exact Hinc].
  rewrite list_elem_of_In. intros Hin.
  rewrite forallb_forall in Hall. specialize (Hall a Hin).
  apply Z.ltb_lt in Hall. lia.
Qed.

Lemma scenario_options_distinct (l acc : list (Z * value)) :
  NoDup (map fst (acc ++ l)) ->
  fold_left (fun d s => odict_set (fst s) (snd s) d) l acc = acc ++ l.
Proof.
  revert acc. induction l as [| [k v] l IH]; intros acc Hnd; simpl.
  - rewrite app_nil_r. reflexivity.
  - assert (Hk : ~ In k (map fst acc)).
    { rewrite map_app in Hnd. simpl in Hnd.
      apply NoDup_app in Hnd as (_ & Hdisj & _).
      intros Hin. apply list_elem_of_In in Hin.
      apply (Hdisj k Hin). left. }
    rewrite odict_set_new by exact Hk.
    rewrite IH; rewrite <- app_assoc; [reflexivity | exact Hnd].
Qed.

Lemma listing_keys (t : table) : map fst (listing t) = map col_id t.
Proof. unfold listing. rewrite map_map. reflexivity. Qed.

Lemma scenario_options_listing (t : table) :
  rowids_increasing t = true -> scenario_options (listing t) = listing t.
Proof.
  intros Hinc. unfold scenario_options.
  rewrite scenario_options_distinct; [reflexivity |].
  simpl. rewrite listing_keys. apply increasing_NoDup. exact Hinc.
Qed.

Lemma find_distinct {A : Type} (key : A -> Z) (l : list A) (a : A) :
  NoDup (map key l) -> In a l ->
  find (fun b => key b =? key a) l = Some a.
Proof.
  induction l as [| b l IH]; simpl; intros Hnd Hin; [tauto |].
  apply NoDup_cons in Hnd as [Hb Hnd].
  destruct Hin as [-> | Hin]; [rewrite Z.eqb_refl; reflexivity |].
  destruct (Z.eqb_spec (key b) (key a)) as [Heq | _]; [| apply IH; assumption].
  exfalso. apply Hb. rewrite Heq. apply list_elem_of_In, in_map, Hin.
Qed.

(** X15. With unique ids, the select box offers the placeholder followed
    by every stored scenario in the order of the ids, labelled with its
    name, and labelling never fails. *)
Theorem select_box_labels (t : table) :
  rowids_increasing t = true ->
  select_options (scenario_options (listing t))
    = None :: map (fun r => Some (col_id r)) t /\
  select_labels (Some t) = Ok (VStr "--- Select ---" :: names_of t).
Proof.
  intros Hinc. unfold select_labels. simpl.
  rewrite (scenario_options_listing t Hinc).
  split.
  - unfold select_options, listing. rewrite map_map. reflexivity.
  - unfold select_options. simpl.
    rewrite (for_each_ok _ (fun x => match x with
                                     | Some id =>
                                         match find (fun kv => fst kv =? id) (listing t) with
                                         | Some kv => snd kv
                                         | None => VNone
                                         end
                                     | None => VNone
                                     end)).
    + simpl. do 2 f_equal. unfold names_of, listing. rewrite !map_map.
      apply map_ext_in. intros r Hr. simpl.
      change (fun kv : Z * value => fst kv =? col_id r)
        with (fun kv : Z * value => fst kv =? fst (col_id r, py_of_sql (col_scenario_name r))).
      rewrite (find_distinct fst).
      * reflexivity.
      * fold (listing t). rewrite listing_keys. apply increasing_NoDup, Hinc.
      * apply (in_map (fun r => (col_id r, py_of_sql (col_scenario_name r)))), Hr.
    + intros x Hx. apply in_map_iff in Hx as ([k v] & <- & Hkv). simpl.
      change (fun kv : Z * value => fst kv =? k)
        with (fun kv : Z * value => fst kv =? fst (k, v)).
      rewrite (find_distinct fst); [reflexivity | | exact Hkv].
      rewrite listing_keys. apply increasing_NoDup, Hinc.
Qed.

Lemma select_box_labels_witness :
  let t := [stored_row 1 (named_scenario "A"); stored_row 2 (named_scenario "B")] in
  select_options (scenario_options (listing t)) = [None; Some 1; Some 2] /\
  select_labels (Some t) = Ok [VStr "--- Select ---"; VStr "A"; VStr "B"].
Proof.
  intros t. apply (select_box_labels t). vm_compute; reflexivity.
Defined.

(** X16. With unique ids, choosing any scenario the select box offers,
    other than one with id 0, loads it without error: the eight columns
    of the one row with that id are written to the session, and the name
    loaded is the label the box showed. *)
Theorem offered_scenarios_load (t : table) (id : Z) (d : dict) :
  rowids_increasing t = true ->
  In (Some id) (select_options (scenario_options (listing t))) ->
  id <> 0 ->
  exists (r : row) (label : value),
    In r t /\ col_id r = id /\
    format_func (scenario_options (listing t)) (Some id) = Ok label /\
    load_scenario (Some t) (Session (Some id) d)
      = Ok (Session (Some id) (assign_all (row_items r) d)) /\
    assign_all (row_items r) d !! "scenario_name" = Some label /\
    assign_all (row_items r) d !! "id" = Some (VInt id).
Proof.
  intros Hinc Hin Hid.
  rewrite (scenario_options_listing t Hinc) in Hin |- *.
  unfold select_options in Hin. destruct Hin as [Hin | Hin]; [discriminate |].
  apply in_map_iff in Hin as ([k v] & [= ->] & Hkv).
  unfold listing in Hkv. apply in_map_iff in Hkv as (r & [= <- <-] & Hr).
  pose proof (increasing_NoDup _ Hinc) as Hnd.
  exists r, (py_of_sql (col_scenario_name r)).
  destruct (assign_row_lookup r d) as (Lid & Lname & _).
  split; [exact Hr |]. split; [reflexivity |]. split.
  - unfold format_func.
    change (fun kv : Z * value => fst kv =? col_id r)
      with (fun kv : Z * value => fst kv =? fst (col_id r, py_of_sql (col_scenario_name r))).
    rewrite (find_distinct fst); [reflexivity | |].
    + rewrite listing_keys. exact Hnd.
    + apply (in_map (fun r => (col_id r, py_of_sql (col_scenario_name r)))), Hr.
  - split; [| split; [exact Lname | exact Lid]].
    unfold load_scenario, fetch_scenario. cbn [selected_scenario_id state the_table].
    apply Z.eqb_neq in Hid. rewrite Hid. simpl.
    rewrite (find_distinct col_id t r Hnd Hr). reflexivity.
Qed.

Lemma offered_scenarios_load_witness :
  let t := [stored_row 1 (named_scenario "A"); stored_row 2 (named_scenario "B")] in
  exists (r : row) (label : value),
    In r t /\ col_id r = 2 /\
    format_func (scenario_options (listing t)) (Some 2) = Ok label /\
    load_scenario (Some t) (Session (Some 2) ∅)
      = Ok (Session (Some 2) (assign_all (row_items r) ∅)) /\
    assign_all (row_items r) ∅ !! "scenario_name" = Some label /\
    assign_all (row_items r) ∅ !! "id" = Some (VInt 2).
Proof.
  intros t. apply (offered_scenarios_load t 2 ∅);
    [vm_compute; reflexivity | vm_compute; tauto | lia].
Defined.

(** ** What the page reads, and reloading a saved scenario *)

Lemma render_frame (heap : Z) (d d' : dict) (scenario_name email : string) :
  same_page_fields d d' ->
  render heap d scenario_name email = render heap d' scenario_name email.
Proof.
  intros Hsame.
  assert (Hn : d !! "scenario_name" = d' !! "scenario_name")
    by (apply Hsame; simpl; tauto).
  assert (Hh : d !! "time_horizon_months" = d' !! "time_horizon_months")
    by (apply Hsame; simpl; tauto).
  assert (Hc : d !! "one_time_implementation_cost"
               = d' !! "one_time_implementation_cost")
    by (apply Hsame; simpl; tauto).
  assert (He : same_engine_fields d d').
  { intros key Hin. apply Hsame. simpl in Hin |- *. tauto. }
  assert (Hchart : forall r, chart_data heap d r = chart_data heap d' r).
  { intros r. unfold chart_data, getitem. rewrite Hh, Hc. reflexivity. }
  assert (Hpdf : forall r, generate_pdf d r = generate_pdf d' r).
  { intros r. unfold generate_pdf, dict_get, getitem. rewrite Hn, Hh. reflexivity. }
  assert (Hcalc : calculate_results d = calculate_results d').
  { unfold calculate_results. rewrite (same_engine_fields_body d d' He).
    reflexivity. }
  unfold render, download. rewrite Hcalc.
  destruct (calculate_results d') as [r | e]; [| reflexivity].
  simpl. rewrite Hchart, Hpdf. reflexivity.
Qed.

(** X17. The number of AP staff is asked for and stored, and changes
    nothing on the page: the result, the metrics, the chart, the report
    and the log are the same whatever value it has, or when it is
    missing. *)
Theorem staff_count_unused (heap : Z) (d : dict) (staff : value)
    (scenario_name email : string) :
  render heap (<["num_ap_staff" := staff]> d) scenario_name email
    = render heap d scenario_name email /\
  render heap (delete "num_ap_staff" d) scenario_name email
    = render heap d scenario_name email.
Proof.
  split; apply render_frame; intros key Hin; simpl in Hin.
  - apply lookup_insert_ne.
    destruct Hin as [<- | [<- | [<- | [<- | [<- | [<- | []]]]]]]; discriminate.
  - apply lookup_delete_ne.
    destruct Hin as [<- | [<- | [<- | [<- | [<- | [<- | []]]]]]]; discriminate.
Qed.

Lemma real_column_exact (f : float) :
  F64.is_nan f = false -> not_negative_zero f = true ->
  py_of_sql (real_affinity (bind_float f)) = VFloat f.
Proof. destruct f as [[] | s | | s m e]; simpl; intros; try discriminate; reflexivity. Qed.

Lemma loaded_fields_exact (id : Z) (x : ScenarioInput) (d : dict) (key : string) :
  exactly_storable x = true -> In key scenario_fields ->
  assign_all (row_items (stored_row id x)) d !! key = widget_inputs x !! key.
Proof.
  unfold exactly_storable, storable. rewrite !andb_true_iff, !negb_true_iff.
  intros ((((((((_ & _) & _) & Nw) & Ne) & Nc) & Zw) & Ze) & Zc) Hin.
  destruct (assign_row_lookup (stored_row id x) d)
    as (_ & A1 & A2 & A3 & A4 & A5 & A6 & A7).
  destruct (widget_inputs_lookup x) as (W1 & W2 & W3 & W4 & W5 & W6 & W7).
  simpl in Hin.
  destruct Hin as [<- | [<- | [<- | [<- | [<- | [<- | [<- | []]]]]]]].
  - rewrite A1, W1. reflexivity.
  - rewrite A2, W2. reflexivity.
  - rewrite A3, W3. reflexivity.
  - rewrite A4, W4. f_equal. apply real_column_exact; assumption.
  - rewrite A5, W5. f_equal. apply real_column_exact; assumption.
  - rewrite A6, W6. reflexivity.
  - rewrite A7, W7. f_equal. apply real_column_exact; assumption.
Qed.

Lemma widget_inputs_scalar (x : ScenarioInput) (key : string) (v : value) :
  widget_inputs x !! key = Some v -> is_scalar v = true.
Proof.
  unfold widget_inputs. intros H.
  repeat (apply lookup_insert_Some in H as [[_ <-] | [_ H]]; [reflexivity |]).
  rewrite lookup_empty in H. discriminate.
Qed.

Lemma script_inputs_lookup (s : session) (key : string) (v : value) :
  key <> "selected_scenario_id" ->
  state s !! key = Some v -> is_scalar v = true ->
  script_inputs s !! key = Some v.
Proof.
  intros Hkey Hv Hs. unfold script_inputs, session_items.
  apply map_lookup_filter_Some_2; [| exact Hs].
  rewrite lookup_insert_ne by congruence. exact Hv.
Qed.

(** X18. Saving a named scenario and loading it back gives the page it
    was saved from: when the schema holds the widget values bit for bit
    (64-bit integers, reals that are neither NaN nor [-0.0]), the inputs
    rebuilt from the session after [load_scenario] hold the seven widget
    values again, whatever the session held before, and the engine result
    and the whole page are those of the widget values. *)
Theorem reload_reproduces_page (probes : list Z) (heap : Z) (t : table)
    (x : ScenarioInput) (d : dict) (email : string) :
  named x = true ->
  exactly_storable x = true ->
  room_for 1 t = true ->
  rowids_positive t = true ->
  exists (t' : table) (id : Z) (s' : session),
    save_scenario probes (Some t) x = Ok (Some t', saved_notice x) /\
    load_scenario (Some t') (Session (Some id) d) = Ok s' /\
    (forall key, In key scenario_fields ->
       script_inputs s' !! key = widget_inputs x !! key) /\
    calculate_results (script_inputs s') = calculate_results (widget_inputs x) /\
    render heap (script_inputs s') (scenario_name x) email
      = render heap (widget_inputs x) (scenario_name x) email.
Proof.
  intros Hname Hexact Hroom Hpos.
  assert (Hx : storable x = true).
  { unfold exactly_storable in Hexact. rewrite !andb_true_iff in Hexact. tauto. }
  destruct (insert_scenario_appends probes t x Hx Hroom) as (id & Hins & Hfresh & Hid).
  specialize (Hid Hpos).
  set (s' := Session (Some id) (assign_all (row_items (stored_row id x)) d)).
  assert (Hfields : forall key, In key scenario_fields ->
            script_inputs s' !! key = widget_inputs x !! key).
  { intros key Hin.
    pose proof (loaded_fields_exact id x d key Hexact Hin) as Hl.
    assert (Hsome : is_Some (widget_inputs x !! key)).
    { destruct (widget_inputs_lookup x) as (W1 & W2 & W3 & W4 & W5 & W6 & W7).
      simpl in Hin.
      destruct Hin as [<- | [<- | [<- | [<- | [<- | [<- | [<- | []]]]]]]];
        eexists; eassumption. }
    destruct Hsome as (v & Hv). rewrite Hv in Hl |- *.
    apply script_inputs_lookup.
    - simpl in Hin.
      destruct Hin as [<- | [<- | [<- | [<- | [<- | [<- | [<- | []]]]]]]];
        discriminate.
    - exact Hl.
    - exact (widget_inputs_scalar x key v Hv). }
  assert (Hpage : same_page_fields (script_inputs s') (widget_inputs x)).
  { intros key Hin. apply Hfields. simpl in Hin |- *. tauto. }
  exists (t ++ [stored_row id x]), id, s'.
  split.
  { unfold save_scenario, saved_notice. unfold named in Hname. rewrite Hname.
    simpl. rewrite Hins. reflexivity. }
  split.
  { unfold load_scenario. simpl.
    replace (id =? 0) with false by (symmetry; apply Z.eqb_neq; lia).
    rewrite (find_last id t (stored_row id x) Hfresh eq_refl). reflexivity. }
  split; [exact Hfields |].
  split; [| apply render_frame; exact Hpage].
  unfold calculate_results. rewrite (same_engine_fields_body _ (widget_inputs x));
    [reflexivity |].
  intros key Hin. apply Hpage. simpl in Hin |- *. tauto.
Qed.

Lemma reload_reproduces_page_witness :
  exists (t' : table) (id : Z) (s' : session),
    save_scenario [] (Some []) (named_scenario "Q4 Pilot")
      = Ok (Some t', saved_notice (named_scenario "Q4 Pilot")) /\
    load_scenario (Some t')
      (Session (Some id) (<["hourly_wage" := VStr "old"]> ∅)) = Ok s' /\
    (forall key, In key scenario_fields ->
       script_inputs s' !! key = widget_inputs (named_scenario "Q4 Pilot") !! key) /\
    calculate_results (script_inputs s')
      = calculate_results (widget_inputs (named_scenario "Q4 Pilot")) /\
    render 1000 (script_inputs s') "Q4 Pilot" "name@company.com"
      = render 1000 (widget_inputs (named_scenario "Q4 Pilot")) "Q4 Pilot"
          "name@company.com".
Proof.
  apply (reload_reproduces_page [] 1000 [] (named_scenario "Q4 Pilot")
           (<["hourly_wage" := VStr "old"]> ∅) "name@company.com");
    vm_compute; reflexivity.
Defined.

(** X19. [load_scenario] writes the eight column keys and nothing else:
    every other key of the session keeps its value, the selection stays,
    and with no selection, or the selection 0, the session is left as it
    is, even when the table does not exist. *)
Theorem load_touches_columns_only (conn : database) (s s' : session) :
  load_scenario conn s = Ok s' ->
  selected_scenario_id s' = selected_scenario_id s /\
  (forall key,
     ~ In key ("id" :: scenario_fields) -> state s' !! key = state s !! key) /\
  (selected_scenario_id s = None \/ selected_scenario_id s = Some 0 -> s' = s).
Proof.
  unfold load_scenario. destruct (selected_scenario_id s) as [id |] eqn:Hsel.
  - destruct (Z.eqb_spec id 0) as [-> | Hne].
    + intros [= <-]. rewrite Hsel. repeat split.
    + destruct (fetch_scenario conn id) as [[r |] | e]; simpl; try discriminate.
      intros [= <-]. simpl. split; [reflexivity |]. split.
      * intros key Hkey. unfold assign_all, row_items. simpl in Hkey |- *.
        rewrite !lookup_insert_ne by (intros <-; tauto). reflexivity.
      * intros [H | [= H]]; [discriminate | contradiction].
  - intros [= <-]. rewrite Hsel. repeat split.
Qed.

Lemma load_touches_columns_only_witness :
  let t := [stored_row 1 (named_scenario "A")] in
  let s := Session (Some 1) (<["email" := VStr "name@company.com"]> ∅) in
  let s' := Session (Some 1)
              (assign_all (row_items (stored_row 1 (named_scenario "A")))
                 (<["email" := VStr "name@company.com"]> ∅)) in
  selected_scenario_id s' = selected_scenario_id s /\
  (forall key,
     ~ In key ("id" :: scenario_fields) -> state s' !! key = state s !! key) /\
  (selected_scenario_id s = None \/ selected_scenario_id s = Some 0 -> s' = s).
Proof.
  intros t s s'. apply (load_touches_columns_only (Some t) s s').
  vm_compute; reflexivity.
Defined.

(** ** The sign of the payback period *)

Lemma shr_fexp_nonneg (m e : Z) (l : location) :
  0 <= m -> 0 <= shr_m (fst (shr_fexp F64.prec F64.emax m e l)).
Proof.
  intros Hm. unfold shr_fexp, shr.
  destruct (fexp F64.prec F64.emax (Zdigits2 m + e) - e) as [| p | p];
    simpl fst; rewrite ?shr_record_of_loc_m; try exact Hm.
  rewrite shr_iter_m by (rewrite shr_record_of_loc_m; exact Hm).
  rewrite shr_record_of_loc_m.
  apply Z.div_pos; [exact Hm | apply Z.pow_pos_nonneg; lia].
Qed.

Lemma round_nearest_even_nonneg (m : Z) (l : location) :
  0 <= m -> 0 <= round_nearest_even m l.
Proof.
  intros Hm. destruct l as [| []]; simpl; try lia.
  destruct (Z.even m); lia.
Qed.

(** Rounding a non-negative mantissa gives a number of the given sign:
    never NaN, never the other sign. *)
Lemma binary_round_aux_sign (sx : bool) (m e : Z) (l : location) :
  0 <= m ->
  binary_round_aux F64.prec F64.emax sx m e l = S754_zero sx \/
  (exists m' e', binary_round_aux F64.prec F64.emax sx m e l = S754_finite sx m' e') \/
  binary_round_aux F64.prec F64.emax sx m e l = S754_infinity sx.
Proof.
  intros Hm. unfold binary_round_aux.
  pose proof (shr_fexp_nonneg m e l Hm) as H1.
  destruct (shr_fexp F64.prec F64.emax m e l) as [mrs' e']. simpl in H1.
  pose proof (round_nearest_even_nonneg (shr_m mrs') (loc_of_shr_record mrs') H1) as Hr.
  pose proof (shr_fexp_nonneg _ e' loc_Exact Hr) as H3.
  destruct (shr_fexp F64.prec F64.emax _ e' loc_Exact) as [mrs'' e''].
  simpl in H3. destruct (shr_m mrs'') as [| q | q]; [left; reflexivity | | lia].
  right. destruct (e'' <=? F64.emax - F64.prec); [left; eauto | right; reflexivity].
Qed.

Lemma div_core_nonneg (mx my : positive) (ex ey : Z) :
  0 <= fst (fst (SFdiv_core_binary F64.prec F64.emax (Zpos mx) ex (Zpos my) ey)).
Proof.
  unfold SFdiv_core_binary.
  set (s := ex - ey - _).
  set (m' := match s with Z0 => Zpos mx | Zpos _ => Z.shiftl (Zpos mx) s | Zneg _ => 0 end).
  assert (Hm' : 0 <= m').
  { unfold m'. destruct s; try lia. apply Z.shiftl_nonneg. lia. }
  pose proof (Z_div_mod m' (Zpos my) eq_refl) as Hdiv.
  destruct (Z.div_eucl m' (Zpos my)) as [q r]. simpl.
  destruct Hdiv as [Heq Hr]. nia.
Qed.

(** A non-negative finite amount divided by a positive one is a
    non-negative number. *)
Lemma div_nonneg (c ms : float) :
  F64.is_finite c = true -> F64.leb F64.zero c = true ->
  F64.ltb F64.zero ms = true ->
  F64.leb F64.zero (F64.div c ms) = true.
Proof.
  destruct c as [sc | sc | | sc mc ec]; try discriminate;
    destruct ms as [sm | sm | | sm mm em]; try discriminate;
    try destruct sc; try destruct sm; try discriminate; try reflexivity.
  intros _ _ _. unfold F64.div, SFdiv.
  pose proof (div_core_nonneg mc mm ec em) as Hq.
  destruct (SFdiv_core_binary F64.prec F64.emax (Zpos mc) ec (Zpos mm) em)
    as [[mz ez] lz]. simpl in Hq.
  destruct (binary_round_aux_sign (xorb false false) mz ez lz Hq)
    as [-> | [(m' & e' & ->) | ->]]; reflexivity.
Qed.

(** X20. For a well-formed input with a finite, non-negative
    implementation cost, the payback period returned is never negative
    and never NaN: it is a non-negative number of months, or [+inf]. *)
Theorem payback_never_negative (inputs : dict) (cost : float) :
  well_formed inputs = true ->
  field_double inputs "one_time_implementation_cost" = Ok cost ->
  valid_real cost = true ->
  exists (r : dict) (pb : float),
    calculate_results inputs = Ok r /\
    r !! "payback_months" = Some (VFloat pb) /\
    F64.leb F64.zero pb = true.
Proof.
  intros Hwf Hcost Hvalid.
  unfold valid_real in Hvalid. apply andb_true_iff in Hvalid as [Hfin Hpos].
  destruct (well_formed_fields _ Hwf) as (v & w & e & h & c & Hv & Hw & He & Hh & Hc).
  rewrite Hcost in Hc. injection Hc as <-.
  set (l := spec_compute v w e h cost).
  exists (results_dict l), (payback_months l).
  destruct (results_dict_lookup l) as (_ & _ & Lp & _).
  split; [exact (calculate_results_spec _ _ _ _ _ _ Hv Hw He Hh Hcost) |].
  split; [exact Lp |].
  pose proof (spec_compute_payback v w e h cost) as Hpb. cbv zeta in Hpb.
  fold l in Hpb. rewrite Hpb.
  destruct (F64.ltb F64.zero (monthly_savings l)) eqn:Hms; [| reflexivity].
  apply div_nonneg; assumption.
Qed.

Lemma payback_never_negative_witness :
  exists (r : dict) (pb : float),
    calculate_results concrete_inputs = Ok r /\
    r !! "payback_months" = Some (VFloat pb) /\
    F64.leb F64.zero pb = true.
Proof.
  apply (payback_never_negative concrete_inputs (F64.literal 500000 1));
    vm_compute; reflexivity.
Defined.

(** ** The page of a fallback result *)

Lemma type_error_fallback (inputs : dict) :
  first_error inputs = Some TypeError ->
  calculate_results inputs = Ok fallback_results.
Proof.
  intros He. unfold calculate_results. rewrite calculate_body_outcome, He.
  reflexivity.
Qed.





(** X22. The fallback does not protect the page from a horizon that is
    text: the engine returns the fallback result, and building the chart
    then raises [TypeError] at [inputs['time_horizon_months'] + 1]. *)
Theorem text_horizon_breaks_page (heap : Z) (inputs : dict) (horizon : string)
    (scenario_name email : string) :
  first_error inputs = Some TypeError ->
  inputs !! "time_horizon_months" = Some (VStr horizon) ->
  calculate_results inputs = Ok fallback_results /\
  render heap inputs scenario_name email = Raise TypeError.
Proof.
  intros He Hh. pose proof (type_error_fallback inputs He) as Hr.
  split; [exact Hr |].
  apply (render_chart_error heap inputs fallback_results ("$0.00", "0.0%", "N/A"));
    [exact Hr | reflexivity |].
  unfold chart_data, getitem. rewrite Hh. reflexivity.
Qed.

Lemma text_horizon_breaks_page_witness :
  calculate_results (<["time_horizon_months" := VStr "36"]> concrete_inputs)
    = Ok fallback_results /\
  render 1000 (<["time_horizon_months" := VStr "36"]> concrete_inputs)
    "Q4 Pilot" "name@company.com" = Raise TypeError.
Proof.
  apply (text_horizon_breaks_page 1000
           (<["time_horizon_months" := VStr "36"]> concrete_inputs) "36"
           "Q4 Pilot" "name@company.com");
    vm_compute; reflexivity.
Defined.

(** ** The first run *)

(** X23. On a database that has no table yet, saving fails with
    [OperationalError]; after [init_db] the first named storable scenario
    is stored under id 1 and is the one entry the list and the select box
    show after the placeholder. *)
Theorem first_scenario_after_init (probes : list Z) (x : ScenarioInput) :
  savable x = true ->
  save_scenario probes None x
    = Raise (OperationalError "no such table: scenarios") /\
  exists t' : table,
    save_scenario probes (init_db None) x = Ok (Some t', saved_notice x) /\
    list_scenarios (Some t') = Ok [(1, VStr (scenario_name x))] /\
    select_labels (Some t')
      = Ok [VStr "--- Select ---"; VStr (scenario_name x)].
Proof.
  intros Hx. pose proof Hx as Hsav.
  unfold savable in Hx. apply andb_true_iff in Hx as [Hname Hst].
  split.
  - unfold save_scenario. rewrite Hname. reflexivity.
  - destruct (save_scenario_appends probes [] x Hsav eq_refl) as [Hsave _].
    exists [stored_row 1 x]. split; [exact Hsave |]. split; [reflexivity |].
    unfold select_labels, list_scenarios, listing. simpl. reflexivity.
Qed.

Lemma first_scenario_after_init_witness :
  save_scenario [] None (named_scenario "Q4 Pilot")
    = Raise (OperationalError "no such table: scenarios") /\
  exists t' : table,
    save_scenario [] (init_db None) (named_scenario "Q4 Pilot")
      = Ok (Some t', saved_notice (named_scenario "Q4 Pilot")) /\
    list_scenarios (Some t') = Ok [(1, VStr "Q4 Pilot")] /\
    select_labels (Some t') = Ok [VStr "--- Select ---"; VStr "Q4 Pilot"].
Proof.
  apply (first_scenario_after_init [] (named_scenario "Q4 Pilot")).
  vm_compute; reflexivity.
Defined.
